(** * Icinga 2: configurable objects, state snapshots and cluster events

    A shallow embedding of
    - [ConfigObject] (lib/base/configobject.cpp): attribute modification
      tracking, state dump and state restore;
    - [ApiEvents] (lib/icinga/apievents.cpp): the inbound handlers of all
      registered [event::] methods, the relay of a changed check interval
      and the repository beacon;
    - the extension bag and the activation life cycle of [ConfigObject],
      the string escaping of [ConfigWriter] (lib/config/configwriter.cpp)
      and the attribute merge of [ConfigObjectUtility]
      (lib/remote/configobjectutility.cpp).

    Conventions.  A C++ function that may throw returns a [Result]: either
    [Ok] with the state it leaves behind, or [Throw] with the exception and
    the state that is visible once the exception has left the function.
    Calls into collaborators whose code is not part of the sources at hand
    (serializer, JSON codec, zones, endpoints, the generated setters) are
    recorded as [Effect]s or taken as fields of an environment record. *)

From Stdlib Require Import Ascii.
From stdpp Require Import gmap strings list fin_maps.

Open Scope Z_scope.
Open Scope string_scope.

(** ** Values *)

(** [icinga::Value]: a variant over empty, number, boolean, string and
    object; the objects needed here are dictionaries and arrays.
    [Dictionary] is a [std::map<String, Value>], hence a finite map.
    Numbers are C++ doubles; the embedding has the integers among them, and
    the one computation on numbers, the increment of the version counter,
    is rounded as a double is (see [round_double]).

    Values are embedded as trees.  [Value::Clone] (lib/base/value.cpp, not
    among the sources) is taken to be a deep copy, as the specification's
    "clone old" says: a cloned tree shares nothing with the original, which
    is what a tree embedding expresses with the identity. *)
#[local] Set Warnings "-register-all".

Inductive Value : Type :=
  | Empty
  | Number (n : Z)
  | Boolean (b : bool)
  | Str (s : string)
  | Dict (d : gmap string Value)
  | Arr (a : list Value).

Abbreviation Dictionary := (gmap string Value).

Definition IsEmpty (v : Value) : bool :=
  match v with Empty => true | _ => false end.

Definition IsDictionary (v : Value) : bool :=
  match v with Dict _ => true | _ => false end.

Definition Clone (v : Value) : Value := v.

(** [Dictionary::Contains], [Dictionary::Get] (a missing key reads as
    [Empty]), [Dictionary::Set] and [Dictionary::Remove]. *)
Definition Contains (d : Dictionary) (key : string) : bool :=
  bool_decide (is_Some (d !! key)).

Definition Get (d : Dictionary) (key : string) : Value :=
  default Empty (d !! key).

Definition Set_ (d : Dictionary) (key : string) (v : Value) : Dictionary :=
  <[key := v]> d.

Definition Remove (d : Dictionary) (key : string) : Dictionary :=
  delete key d.

(** A [Dictionary::Ptr] may be null. *)
Definition DictionaryPtr := option Dictionary.

(** Conversion of a [Value] to [Dictionary::Ptr]: [Empty] gives the null
    pointer, a dictionary gives itself, anything else throws. *)
Inductive Conv (A : Type) : Type :=
  | Converted (a : A)
  | BadCast.
Arguments Converted {A} a.
Arguments BadCast {A}.

Definition ToDictionaryPtr (v : Value) : Conv DictionaryPtr :=
  match v with
  | Empty => Converted None
  | Dict d => Converted (Some d)
  | _ => BadCast
  end.

(** ** Exceptions and results *)

Inductive Exn : Type :=
  | InvalidArgument (what : string)
  | RuntimeError (what : string)
  | PosixError (api_function : string) (errno : Z) (file_name : string)
  | AssertionFailed (what : string).

(** A failed conversion of a [Value] to an object pointer, and the use of
    a null pointer. *)
Definition bad_cast : Exn := RuntimeError "Cannot convert value to object.".
Definition null_pointer : Exn := AssertionFailed "px != 0".

Inductive Result (S : Type) : Type :=
  | Ok (s : S)
  | Throw (e : Exn) (s : S).
Arguments Ok {S} s.
Arguments Throw {S} e s.

Definition state_of {S : Type} (r : Result S) : S :=
  match r with Ok s => s | Throw _ s => s end.

Definition succeeded {S : Type} (r : Result S) : bool :=
  match r with Ok _ => true | Throw _ _ => false end.

(** [boost::algorithm::split(tokens, s, is_any_of("."))]: never returns an
    empty vector; adjacent separators give empty tokens. *)
Fixpoint split (sep : ascii) (s : string) : list string :=
  match s with
  | EmptyString => [EmptyString]
  | String c rest =>
      if bool_decide (c = sep) then EmptyString :: split sep rest
      else match split sep rest with
           | t :: ts => String c t :: ts
           | [] => [String c EmptyString]
           end
  end.

Definition dot : ascii := "."%char.

(** ** Conversions and doubles *)

(** [Value::operator String] and [Value::operator double]
    (lib/base/value.cpp, not among the sources).  A string converts to
    itself and the empty value to the empty string; a number converts to
    itself, a boolean to 0 or 1 and the empty value to 0.  What is left is
    taken from the environment: the rendering of a value that is not a
    string, and the [boost::lexical_cast] of a value that is not a number,
    which gives the number or else the diagnostic of the
    [std::invalid_argument] that is thrown. *)
Record Casts : Type := MkCasts {
  Rendering : Value -> string;
  Lexical : Value -> Z + string
}.

Definition AsString (X : Casts) (v : Value) : string :=
  match v with
  | Empty => ""
  | Str s => s
  | _ => Rendering X v
  end.

Definition AsDouble (X : Casts) (v : Value) : Z + Exn :=
  match v with
  | Number n => inl n
  | Boolean b => inl (if b then 1 else 0)
  | Empty => inl 0
  | _ =>
      match Lexical X v with
      | inl n => inl n
      | inr what => inr (InvalidArgument what)
      end
  end.

(** An IEEE 754 double has a significand of 53 bits.  [round_double] is
    the double nearest to an integer, a tie going to the even significand;
    the sum of two doubles is the exact sum rounded in this way.  (An
    integer-valued double plus one stays far below the overflow
    threshold.) *)
Definition round_double (x : Z) : Z :=
  let a := Z.abs x in
  if bool_decide (a < 2 ^ 53) then x
  else
    let e := Z.log2 a - 52 in
    let q := Z.shiftr a e in
    let r := a - Z.shiftl q e in
    let half := Z.shiftl 1 (e - 1) in
    let q' :=
      if bool_decide (r < half) then q
      else if bool_decide (half < r) then q + 1
      else if Z.even q then q else q + 1 in
    Z.sgn x * Z.shiftl q' e.

Definition double_add (x y : Z) : Z := round_double (x + y).

(** ** Configurable objects *)

Module ConfigObject.

(** Field attribute classes, a bit each.  The enumeration is declared in
    lib/base/type.hpp, which is not among the sources; the code below only
    tests a field's attributes against [FAConfig], so nothing depends on the
    numbers chosen. *)
Definition FAConfig : Z := 2.
Definition FAState : Z := 4.

Record Field : Type := MkField {
  FieldName : string;
  Attributes : Z
}.

(** Modelled from the spec: the reflection type of an object.  The
    generated classes ([Type::GetFieldId], [Type::GetFieldInfo],
    [Object::GetField], [Object::SetField], [ValidateField]) are not among
    the sources; following the specification a type descriptor carries the
    ordered field list with a name-to-index table, and a field schema that
    accepts a proposed value ([None]) or rejects it with a diagnostic,
    raised as an invalid-argument error.  An unknown name has the id [-1],
    and access through an id outside the table throws.

    [Fields] are the fields the class declares itself; they come after
    the fields of the base class [ConfigObject], as in the generated code,
    where a class adds the field count of its base to its own indices and
    hands the smaller ids on to the base.  [TypeCasts] are the conversions
    the generated setters apply to the value they are given. *)
Record Type_ : Type := MkType {
  TypeName : string;
  Fields : list Field;
  ValidateField : Z -> Value -> option string;
  TypeCasts : Casts
}.

(** The attributes of [ConfigObject] itself that the functions below read
    or write: the name, declared [[config] String __name], and the version
    counter, declared [[state] double version] (lib/base/configobject.ti,
    not among the sources; [ExecuteCommandAPIHandler] sets the name of its
    host through the attribute [__name]).  The other attributes of the
    base class are reached below through their accessors only. *)
Definition ConfigObjectFields : list Field :=
  [MkField "__name" FAConfig; MkField "version" FAState].

Definition name_id : Z := 0.
Definition version_id : Z := 1.

(** [ConfigObject::TypeInstance->GetFieldCount()] *)
Definition offset : Z := 2.

Fixpoint index_of (name : string) (fs : list Field) (i : Z) : Z :=
  match fs with
  | [] => -1
  | f :: rest =>
      if bool_decide (FieldName f = name) then i
      else index_of name rest (i + 1)
  end.

(** The class looks the name up among its own fields first and asks its
    base class when it has none of that name. *)
Definition GetFieldId (t : Type_) (name : string) : Z :=
  let id := index_of name (Fields t) offset in
  if bool_decide (id = -1) then index_of name ConfigObjectFields 0 else id.

Definition GetFieldInfo (t : Type_) (fid : Z) : option Field :=
  let real_id := fid - offset in
  if bool_decide (0 <= fid) then
    if bool_decide (real_id < 0) then ConfigObjectFields !! Z.to_nat fid
    else Fields t !! Z.to_nat real_id
  else None.

(** The object: the members [m_Name] and [m_Version] of the base class,
    the values of the fields the class declares itself, and the lifecycle
    flags, the extension bag and the original-attributes mapping, which
    the functions below reach through their accessors. *)
Record t : Type := MkObject {
  ReflectionType : Type_;
  Name : string;
  FieldValues : list Value;
  Version : Z;
  OriginalAttributes : DictionaryPtr;
  Extensions : DictionaryPtr;
  Active : bool;
  StateLoaded : bool
}.

Definition GetField (o : t) (fid : Z) : option Value :=
  if bool_decide (fid = name_id) then Some (Str (Name o))
  else if bool_decide (fid = version_id) then Some (Number (Version o))
  else if bool_decide (offset <= fid) then FieldValues o !! Z.to_nat (fid - offset)
  else None.

Definition SetFieldValues (o : t) (vs : list Value) : t :=
  MkObject (ReflectionType o) (Name o) vs (Version o)
    (OriginalAttributes o) (Extensions o) (Active o) (StateLoaded o).

Definition SetName (o : t) (name : string) : t :=
  MkObject (ReflectionType o) name (FieldValues o) (Version o)
    (OriginalAttributes o) (Extensions o) (Active o) (StateLoaded o).

Definition SetVersion (o : t) (v : Z) : t :=
  MkObject (ReflectionType o) (Name o) (FieldValues o) v
    (OriginalAttributes o) (Extensions o) (Active o) (StateLoaded o).

(** [SetField] hands the value to the setter of the field, which converts
    it to the type of the member: a string for the name, a double for the
    version, and the conversion to a double may throw. *)
Definition SetField (o : t) (fid : Z) (v : Value) : Result t :=
  let casts := TypeCasts (ReflectionType o) in
  if bool_decide (fid = name_id) then Ok (SetName o (AsString casts v))
  else if bool_decide (fid = version_id) then
    match AsDouble casts v with
    | inl version => Ok (SetVersion o version)
    | inr e => Throw e o
    end
  else if bool_decide (offset <= fid)
          && bool_decide (Z.to_nat (fid - offset) < length (FieldValues o))%nat
  then Ok (SetFieldValues o (<[Z.to_nat (fid - offset) := v]> (FieldValues o)))
  else Throw (RuntimeError "Invalid field ID.") o.

Definition SetOriginalAttributes (o : t) (d : DictionaryPtr) : t :=
  MkObject (ReflectionType o) (Name o) (FieldValues o) (Version o)
    d (Extensions o) (Active o) (StateLoaded o).

Definition SetStateLoaded (o : t) (b : bool) : t :=
  MkObject (ReflectionType o) (Name o) (FieldValues o) (Version o)
    (OriginalAttributes o) (Extensions o) (Active o) b.

(** The walk of [ModifyAttribute] through the nested dictionaries, for the
    tokens after the head.  In the code [current] points into the clone, so
    setting a key of the innermost dictionary changes the clone; on trees
    the changed child is put back into its parent on the way out.  [None]
    stands for [std::invalid_argument("Value must be a dictionary.")]. *)
Fixpoint set_path (keys : list string) (value : Value) (current : Value)
  : option Value :=
  match keys with
  | [] => None
  | [key] =>
      match current with
      | Dict d => Some (Dict (Set_ d key value))
      | _ => None
      end
  | key :: rest =>
      match current with
      | Dict d =>
          let child := if Contains d key then Get d key else Dict ∅ in
          match set_path rest value child with
          | Some child' => Some (Dict (Set_ d key child'))
          | None => None
          end
      | _ => None
      end
  end.

(** The value proposed for the head field. *)
Definition proposed (tokens : list string) (oldValue value : Value)
  : option Value :=
  match tokens with
  | _ :: (_ :: _) as keys =>
      let newValue := Clone oldValue in
      let current := if IsEmpty newValue then Dict ∅ else newValue in
      set_path keys value current
  | _ => Some value
  end.

(** The first part of [ModifyAttribute]: for a field of class [FAConfig]
    the original-attributes dictionary is created when missing, and the
    pair (attr, oldValue) recorded unless [attr] is tracked already. *)
Definition track (o : t) (field : Field) (attr : string) (oldValue : Value) : t :=
  if bool_decide (Z.land (Attributes field) FAConfig <> 0) then
    let original_attributes := default ∅ (OriginalAttributes o) in
    if Contains original_attributes attr
    then SetOriginalAttributes o (Some original_attributes)
    else SetOriginalAttributes o (Some (Set_ original_attributes attr oldValue))
  else o.

Definition ModifyAttribute (o : t) (attr : string) (value : Value) : Result t :=
  let type := ReflectionType o in
  let tokens := split dot attr in
  let fieldName := hd EmptyString tokens in
  let fid := GetFieldId type fieldName in
  match GetFieldInfo type fid, GetField o fid with
  | Some field, Some oldValue =>
      let o1 := track o field attr oldValue in
      match proposed tokens oldValue value with
      | None => Throw (InvalidArgument "Value must be a dictionary.") o1
      | Some newValue =>
          match ValidateField type fid newValue with
          | Some what => Throw (InvalidArgument what) o1
          | None =>
              match SetField o1 fid newValue with
              | Ok o2 => Ok (SetVersion o2 (double_add (Version o2) 1))
              | Throw e o2 => Throw e o2
              end
          end
      end
  | _, _ => Throw (RuntimeError "Invalid field ID.") o
  end.

Definition RestoreAttribute (o : t) (attr : string) : Result t :=
  match OriginalAttributes o with
  | None => Ok o
  | Some original_attributes =>
      if Contains original_attributes attr then
        let attrVal := Get original_attributes attr in
        match SetField o (GetFieldId (ReflectionType o) attr) attrVal with
        | Ok o1 =>
            Ok (SetOriginalAttributes o1 (Some (Remove original_attributes attr)))
        | Throw e o1 => Throw e o1
        end
      else Ok o
  end.

Definition IsAttributeModified (o : t) (attr : string) : bool :=
  match OriginalAttributes o with
  | None => false
  | Some original_attributes => Contains original_attributes attr
  end.

(** A sequence of [ModifyAttribute] calls on one object; it stops at the
    first call that throws. *)
Fixpoint ModifyAttributes (o : t) (calls : list (string * Value)) : Result t :=
  match calls with
  | [] => Ok o
  | (attr, value) :: rest =>
      match ModifyAttribute o attr value with
      | Ok o1 => ModifyAttributes o1 rest
      | Throw e o1 => Throw e o1
      end
  end.

End ConfigObject.

(** ** The file system *)

(** Files hold the sequence of chunks written to them.  The net-string
    framing of the snapshot file ([NetString], not among the sources) is
    left out: each [WriteStringToStream] writes one chunk and each
    [ReadStringFromStream] with status [StatusNewItem] reads one back. *)
Abbreviation Files := (gmap string (list string)).

(** What the platform contributes: whether the build defines [_WIN32],
    and which calls fail.  [RenameFault from to = Some errno] makes
    [rename(from, to)] fail with that [errno]. *)
Record Platform : Type := MkPlatform {
  Win32 : bool;
  OpenFails : string -> bool;
  RenameFault : string -> string -> option Z
}.

Definition ENOENT : Z := 2.

Definition PathExists (fs : Files) (path : string) : bool :=
  bool_decide (is_Some (fs !! path)).

(** [rename(2)]: the left alternative is the file system after a successful
    call, the right one the [errno] of a failed call, which changes
    nothing. *)
Definition rename (P : Platform) (fs : Files) (from to : string) : Files + Z :=
  match RenameFault P from to with
  | Some errno => inr errno
  | None =>
      match fs !! from with
      | Some content => inl (<[to := content]> (delete from fs))
      | None => inr ENOENT
      end
  end.

Definition unlink (fs : Files) (path : string) : Files := delete path fs.

(** The [#ifdef _WIN32] block before each rename. *)
Definition unlink_on_win32 (P : Platform) (fs : Files) (path : string) : Files :=
  if Win32 P then unlink fs path else fs.

(** ** Serializer and codecs *)

(** The serializer, the JSON codec, SHA256, the rendering of a non-string
    value as a string and the lexical cast of a value that is not a number
    are outside the sources; they are fields of the environment.
    [Deserialize o update safe mask] may throw; [JsonDecode] gives [None]
    on malformed input. *)
Record Codec (O : Type) : Type := MkCodec {
  Render : Value -> string;
  LexicalCast : Value -> Z + string;
  JsonEncode : Value -> string;
  JsonDecode : string -> option Value;
  SHA256 : string -> string;
  Serialize : O -> Z -> DictionaryPtr;
  Deserialize : O -> DictionaryPtr -> bool -> Z -> Result O
}.
Arguments MkCodec {O} _ _ _ _ _ _ _.
Arguments Render {O} _ _.
Arguments LexicalCast {O} _ _.
Arguments JsonEncode {O} _ _.
Arguments JsonDecode {O} _ _.
Arguments SHA256 {O} _ _.
Arguments Serialize {O} _ _ _.
Arguments Deserialize {O} _ _ _ _ _.

(** [Value::operator String]: the empty value reads as the empty string. *)
Definition ToString {O : Type} (C : Codec O) (v : Value) : string :=
  match v with
  | Empty => ""
  | Str s => s
  | _ => Render C v
  end.

(** [Value::operator double], and what C++ makes of it where a [bool] or
    an [int] is wanted: a double converts to [bool] as its difference from
    zero, and to [int] by dropping the fraction, of which the integers of
    the embedding have none (a double outside the range of [int] has no
    defined conversion). *)
Definition codec_casts {O : Type} (C : Codec O) : Casts :=
  MkCasts (Render C) (LexicalCast C).

Definition ToDouble {O : Type} (C : Codec O) (v : Value) : Z + Exn :=
  AsDouble (codec_casts C) v.

Definition ToBoolean {O : Type} (C : Codec O) (v : Value) : bool + Exn :=
  match ToDouble C v with
  | inl d => inl (bool_decide (d <> 0))
  | inr e => inr e
  end.

Definition ToInt {O : Type} (C : Codec O) (v : Value) : Z + Exn :=
  ToDouble C v.

(** ** State snapshot *)

Module Snapshot.
Import ConfigObject.

(** [ConfigType]: a type name with the index of its objects, in
    [GetObjects()] order. *)
Record ConfigType : Type := MkConfigType {
  ConfigTypeName : string;
  Objects : list ConfigObject.t
}.

Abbreviation Registry := (list ConfigType).

Definition GetByName (reg : Registry) (name : string) : option ConfigType :=
  find (fun dt => bool_decide (ConfigTypeName dt = name)) reg.

Definition GetObject (dt : ConfigType) (name : string) : option ConfigObject.t :=
  find (fun o => bool_decide (Name o = name)) (Objects dt).

(** Calls into the serializer and into the virtual [OnStateLoaded], with
    their arguments, in the order made. *)
Inductive Call : Type :=
  | CallDeserialize (type name : string) (update : DictionaryPtr)
      (safe : bool) (attributeTypes : Z)
  | CallOnStateLoaded (type name : string).

Record World : Type := MkWorld {
  registry : Registry;
  files : Files;
  calls : list Call
}.

Definition with_files (w : World) (fs : Files) : World :=
  MkWorld (registry w) fs (calls w).

(** Objects are shared through pointers: a change to the object found by
    [GetObject] is a change to the registered object. *)
Fixpoint update_first {A : Type} (p : A -> bool) (f : A -> A) (l : list A)
  : list A :=
  match l with
  | [] => []
  | x :: rest => if p x then f x :: rest else x :: update_first p f rest
  end.

Definition store (reg : Registry) (type name : string) (o : ConfigObject.t)
  : Registry :=
  update_first (fun dt => bool_decide (ConfigTypeName dt = type))
    (fun dt => MkConfigType (ConfigTypeName dt)
       (update_first (fun x => bool_decide (Name x = name)) (fun _ => o)
          (Objects dt)))
    reg.

(** The record written for one object, or nothing when [Serialize] gives a
    null dictionary. *)
Definition persistentObject (C : Codec ConfigObject.t) (type : ConfigType)
    (object : ConfigObject.t) (attributeTypes : Z) : list string :=
  match Serialize C object attributeTypes with
  | None => []
  | Some update =>
      [JsonEncode C (Dict (Set_ (Set_ (Set_ ∅ "type" (Str (ConfigTypeName type)))
                                   "name" (Str (Name object)))
                             "update" (Dict update)))]
  end.

Definition records (C : Codec ConfigObject.t) (reg : Registry)
    (attributeTypes : Z) : list string :=
  flat_map (fun type =>
    flat_map (fun object => persistentObject C type object attributeTypes)
      (Objects type)) reg.

Definition DumpObjects (P : Platform) (C : Codec ConfigObject.t)
    (filename : string) (attributeTypes : Z) (w : World) : Result World :=
  let tempFilename := filename ++ ".tmp" in
  if OpenFails P tempFilename then
    Throw (RuntimeError ("Could not open '" ++ tempFilename ++ "' file")) w
  else
    let written := <[tempFilename := records C (registry w) attributeTypes]> (files w) in
    let unlinked := unlink_on_win32 P written filename in
    match rename P unlinked tempFilename filename with
    | inr errno =>
        Throw (PosixError "rename" errno tempFilename) (with_files w unlinked)
    | inl renamed => Ok (with_files w renamed)
    end.

Definition RestoreObject (C : Codec ConfigObject.t) (message : string)
    (attributeTypes : Z) (w : World) : Result World :=
  match JsonDecode C message with
  | None => Throw (InvalidArgument "Invalid JSON") w
  | Some decoded =>
      match ToDictionaryPtr decoded with
      | BadCast => Throw bad_cast w
      | Converted None => Throw null_pointer w
      | Converted (Some persistentObject) =>
          let type := ToString C (Get persistentObject "type") in
          match GetByName (registry w) type with
          | None => Ok w
          | Some dt =>
              let name := ToString C (Get persistentObject "name") in
              match GetObject dt name with
              | None => Ok w
              | Some object =>
                  if Active object then
                    Throw (AssertionFailed "!object->IsActive()") w
                  else
                    match ToDictionaryPtr (Get persistentObject "update") with
                    | BadCast => Throw bad_cast w
                    | Converted update =>
                        let called :=
                          (calls w ++ [CallDeserialize type name update false attributeTypes])%list in
                        match Deserialize C object update false attributeTypes with
                        | Throw e object1 =>
                            Throw e (MkWorld (store (registry w) type name object1)
                                       (files w) called)
                        | Ok object1 =>
                            Ok (MkWorld
                                  (store (registry w) type name
                                     (SetStateLoaded object1 true))
                                  (files w)
                                  (called ++ [CallOnStateLoaded type name])%list)
                        end
                    end
              end
          end
      end
  end.

(** The final sweep of [RestoreObjects] over one object. *)
Definition load_without_state (type : string) (acc : list ConfigObject.t * list Call)
    (object : ConfigObject.t) : list ConfigObject.t * list Call :=
  if StateLoaded object then ((acc.1 ++ [object])%list, acc.2)
  else ((acc.1 ++ [SetStateLoaded object true])%list,
        (acc.2 ++ [CallOnStateLoaded type (Name object)])%list).

Definition sweep (w : World) : World :=
  let step (acc : Registry * list Call) (dt : ConfigType) :=
    let swept :=
      fold_left (load_without_state (ConfigTypeName dt)) (Objects dt) ([], acc.2) in
    ((acc.1 ++ [MkConfigType (ConfigTypeName dt) swept.1])%list, swept.2) in
  let done := fold_left step (registry w) ([], calls w) in
  MkWorld done.1 (files w) done.2.

(** Modelled from the spec: [WorkQueue] is not among the sources.  Its
    tasks are run here one after the other in the order they were read, and
    a task that throws is skipped ("per-record errors are logged and the
    record is skipped; they never abort the run"), leaving what it changed
    before it threw. *)
Definition run_queue (C : Codec ConfigObject.t) (messages : list string)
    (attributeTypes : Z) (w : World) : World :=
  fold_left (fun w message => state_of (RestoreObject C message attributeTypes w))
    messages w.

(** [RestoreObjects].  The stream is not tested after [fp.open]; the model
    covers a path that does not exist and a file that can be read. *)
Definition RestoreObjects (C : Codec ConfigObject.t) (filename : string)
    (attributeTypes : Z) (w : World) : Result World :=
  if negb (PathExists (files w) filename) then Ok w
  else
    let messages := default [] (files w !! filename) in
    Ok (sweep (run_queue C messages attributeTypes w)).

End Snapshot.

(** ** Cluster events, inbound *)

Module ApiEvents.

Abbreviation Endpoint := string.
Abbreviation Zone := string.

(** The peer that sent a message: [origin->FromClient] with its identity
    and its endpoint (null for a client that is not an endpoint), and
    [origin->FromZone] (may be null). *)
Record ApiClient : Type := MkApiClient {
  Identity : string;
  ClientEndpoint : option Endpoint
}.

Record MessageOrigin : Type := MkOrigin {
  FromClient : ApiClient;
  FromZone : option Zone
}.

Inductive Checkable : Type :=
  | HostRef (name : string)
  | ServiceRef (host short_name : string).

Inductive LogSeverity : Type :=
  | LogDebug | LogNotice | LogInformation | LogWarning | LogCritical.

Inductive ServiceState : Type :=
  | ServiceOK | ServiceWarning | ServiceCritical | ServiceUnknown.

Record CheckResult : Type := MkCheckResult {
  State : ServiceState;
  Output : string;
  ScheduleStart : option Z;
  ScheduleEnd : option Z;
  ExecutionStart : option Z;
  ExecutionEnd : option Z
}.

(** A check result as it arrives: the serialized body without its
    performance data, and the performance data, each entry either rebuilt
    as a perfdata value or kept as it came. *)
Inductive Perfdata : Type :=
  | PerfdataValue (d : Dictionary)
  | Verbatim (v : Value).

Record ReceivedCheckResult : Type := MkReceived {
  Body : Dictionary;
  PerformanceData : list Perfdata
}.

(** The virtual host of [ExecuteCommandAPIHandler]: the attributes
    deserialized into it and its extension bag. *)
Record Host : Type := MkHost {
  HostAttrs : Dictionary;
  HostExtensions : Dictionary
}.

(** An object a message may refer to: a host or a service, or an object
    of another configuration type, given by type and name. *)
Inductive ObjectRef : Type :=
  | CheckableObject (c : Checkable)
  | ConfigObjectRef (type name : string).

Definition TypeOf (object : ObjectRef) : string :=
  match object with
  | CheckableObject (HostRef _) => "Host"
  | CheckableObject (ServiceRef _ _) => "Service"
  | ConfigObjectRef type _ => type
  end.

(** What the handlers read from a deserialized comment and from a
    deserialized downtime (the classes are generated, not among the
    sources): the results of the getters that are called. *)
Record Comment : Type := MkComment {
  CommentEntryType : Z;
  CommentAuthor : string;
  CommentText : string;
  CommentExpireTime : Z;
  CommentName : string
}.

Record Downtime : Type := MkDowntime {
  DowntimeAuthor : string;
  DowntimeComment : string;
  DowntimeStartTime : Z;
  DowntimeEndTime : Z;
  DowntimeFixed : bool;
  DowntimeTriggeredBy : string;
  DowntimeDuration : Z;
  DowntimeScheduledBy : string;
  DowntimeName : string
}.

Inductive Params : Type :=
  | CheckResultParams (host : string) (service : option Value) (cr : CheckResult)
  | RawParams (params : Dictionary).

Record Message : Type := MkMessage {
  jsonrpc : string;
  method : string;
  params_of : Params
}.

Inductive Scope : Type :=
  | ScopeZone (z : Zone)
  | ScopeCheckable (c : Checkable).

(** What a handler does to the rest of the program.  A call of a
    generated attribute setter is recorded with the argument as the setter
    receives it, after the conversion to the type of its parameter: a
    [Number] for a double or an integer, a [Boolean] for a boolean. *)
Inductive Effect : Type :=
  | Log (severity : LogSeverity) (facility message : string)
  | SetNextCheck (target : Checkable) (value : Value)
      (suppress_events : bool) (origin : MessageOrigin)
  | SetNextNotification (notification : string) (value : Value)
      (suppress_events : bool) (origin : MessageOrigin)
  | SetForceNextCheck (target : Checkable) (value : Value)
      (suppress_events : bool) (origin : MessageOrigin)
  | SetForceNextNotification (target : Checkable) (value : Value)
      (suppress_events : bool) (origin : MessageOrigin)
  | SetEnableActiveChecks (target : Checkable) (value : Value)
      (suppress_events : bool) (origin : MessageOrigin)
  | SetEnablePassiveChecks (target : Checkable) (value : Value)
      (suppress_events : bool) (origin : MessageOrigin)
  | SetEnableNotifications (target : Checkable) (value : Value)
      (suppress_events : bool) (origin : MessageOrigin)
  | SetEnableFlapping (target : Checkable) (value : Value)
      (suppress_events : bool) (origin : MessageOrigin)
  | SetEnableEventHandler (target : Checkable) (value : Value)
      (suppress_events : bool) (origin : MessageOrigin)
  | SetEnablePerfdata (target : Checkable) (value : Value)
      (suppress_events : bool) (origin : MessageOrigin)
  | SetCheckInterval (target : Checkable) (value : Value)
      (suppress_events : bool) (origin : MessageOrigin)
  | SetRetryInterval (target : Checkable) (value : Value)
      (suppress_events : bool) (origin : MessageOrigin)
  | SetMaxCheckAttempts (target : Checkable) (value : Value)
      (suppress_events : bool) (origin : MessageOrigin)
  | SetEventCommandRaw (target : Checkable) (command : string)
      (suppress_events : bool) (origin : MessageOrigin)
  | SetCheckCommandRaw (target : Checkable) (command : string)
      (suppress_events : bool) (origin : MessageOrigin)
  | SetCheckPeriodRaw (target : Checkable) (timeperiod : string)
      (suppress_events : bool) (origin : MessageOrigin)
  | SetVars (object : ObjectRef) (vars : Dictionary)
      (suppress_events : bool) (origin : MessageOrigin)
  | AddComment (target : Checkable) (entryType : Z) (author text : string)
      (expireTime : Z) (id : string) (origin : MessageOrigin)
  | RemoveComment (target : Checkable) (id : string) (origin : MessageOrigin)
  | AddDowntime (target : Checkable) (author comment : string)
      (startTime endTime : Z) (fixed : bool) (triggeredBy : string) (duration : Z)
      (scheduledBy id : string) (origin : MessageOrigin)
  | RemoveDowntime (target : Checkable) (id : string) (cancelled : bool)
      (origin : MessageOrigin)
  | AcknowledgeProblem (target : Checkable) (author comment : string)
      (type : Z) (notify : bool) (expiry : Z) (origin : MessageOrigin)
  | ClearAcknowledgement (target : Checkable) (origin : MessageOrigin)
  | ProcessCheckResult (target : Checkable) (cr : ReceivedCheckResult)
      (origin : option MessageOrigin)
  | SyncSendMessage (destination : Endpoint) (message : Message)
  | RelayMessage (origin : option MessageOrigin) (scope : Scope) (message : Message)
      (log : bool)
  | ExecuteRemoteCheck (host : Host) (macros : DictionaryPtr)
  | ExecuteEventHandler (host : Host) (macros : DictionaryPtr)
      (useResolvedMacros : bool).

Record Outcome : Type := MkOutcome {
  effects : list Effect;
  escaped : option Exn
}.

Definition returned (es : list Effect) : Outcome := MkOutcome es None.
Definition raised (es : list Effect) (e : Exn) : Outcome := MkOutcome es (Some e).


Definition is_execution (e : Effect) : bool :=
  match e with
  | ExecuteRemoteCheck _ _ | ExecuteEventHandler _ _ _ => true
  | _ => false
  end.

Definition is_response (e : Effect) : bool :=
  match e with
  | SyncSendMessage _ _ => true
  | _ => false
  end.

Record ApiListener : Type := MkListener {
  ListenerName : string;
  AcceptCommands : bool
}.

(** The cluster as the handlers see it.  Zones, endpoints, the listener,
    the object registries and the check engine are outside the sources.
    [LocalZone] and [LocalEndpoint] are dereferenced by the handlers without
    a test and therefore exist.  [RemoteCheck] and [EventHandler] give the
    diagnostic of the exception the execution throws, if it throws.

    [Hosts] gives each host its services by short name, and [Services]
    finds a service by its full name; [ConfigObjects] has the names of the
    objects of the remaining types ([Notification], [TimePeriod], [User],
    ...), and [CustomVarTypes] says which of these types derive from
    [CustomVarObject].  [CanAccessObject] is [Zone::CanAccessObject] for a
    host or a service and [CanAccessConfigObject] for any other object.
    [DeserializeComment v safe] and [DeserializeDowntime v safe] stand for
    [Deserialize(object, v, safe)] on a new object. *)
Record Cluster : Type := MkCluster {
  Hosts : gmap string (list string);
  CanAccessObject : Zone -> Checkable -> bool;
  CommandEndpoint : Checkable -> option Endpoint;
  LocalZone : Zone;
  LocalEndpoint : Endpoint;
  IsChildOf : Zone -> Zone -> bool;
  Listener : option ApiListener;
  CheckCommands : gset string;
  EventCommands : gset string;
  RemoteCheck : Host -> DictionaryPtr -> option string;
  EventHandler : Host -> DictionaryPtr -> option string;
  GetTime : Z;
  LocalStateDir : string;
  Services : gmap string (string * string);
  ConfigObjects : gmap string (gset string);
  CustomVarTypes : gset string;
  CanAccessConfigObject : Zone -> string -> string -> bool;
  DeserializeComment : Value -> bool -> Comment + Exn;
  DeserializeDowntime : Value -> bool -> Downtime + Exn
}.

(** The same cluster with another access relation. *)
Definition with_access (K : Cluster) (access : Zone -> Checkable -> bool) : Cluster :=
  MkCluster (Hosts K) access (CommandEndpoint K) (LocalZone K) (LocalEndpoint K)
    (IsChildOf K) (Listener K) (CheckCommands K) (EventCommands K)
    (RemoteCheck K) (EventHandler K) (GetTime K) (LocalStateDir K)
    (Services K) (ConfigObjects K) (CustomVarTypes K) (CanAccessConfigObject K)
    (DeserializeComment K) (DeserializeDowntime K).

Definition with_listener (K : Cluster) (listener : option ApiListener) : Cluster :=
  MkCluster (Hosts K) (CanAccessObject K) (CommandEndpoint K) (LocalZone K)
    (LocalEndpoint K) (IsChildOf K) listener (CheckCommands K) (EventCommands K)
    (RemoteCheck K) (EventHandler K) (GetTime K) (LocalStateDir K)
    (Services K) (ConfigObjects K) (CustomVarTypes K) (CanAccessConfigObject K)
    (DeserializeComment K) (DeserializeDowntime K).

Definition with_remote_check (K : Cluster)
    (check : Host -> DictionaryPtr -> option string) : Cluster :=
  MkCluster (Hosts K) (CanAccessObject K) (CommandEndpoint K) (LocalZone K)
    (LocalEndpoint K) (IsChildOf K) (Listener K) (CheckCommands K) (EventCommands K)
    check (EventHandler K) (GetTime K) (LocalStateDir K)
    (Services K) (ConfigObjects K) (CustomVarTypes K) (CanAccessConfigObject K)
    (DeserializeComment K) (DeserializeDowntime K).

(** The methods registered with [REGISTER_APIFUNCTION] (lines 247-272),
    each under the name [event::] followed by the name given here. *)
Inductive Method : Type :=
  | event_CheckResult
  | event_SetNextCheck
  | event_SetNextNotification
  | event_SetForceNextCheck
  | event_SetForceNextNotification
  | event_SetEnableActiveChecks
  | event_SetEnablePassiveChecks
  | event_SetEnableNotifications
  | event_SetEnableFlapping
  | event_SetEnableEventHandler
  | event_SetEnablePerfdata
  | event_SetCheckInterval
  | event_SetRetryInterval
  | event_SetMaxCheckAttempts
  | event_SetEventCommand
  | event_SetCheckCommand
  | event_SetCheckPeriod
  | event_SetVars
  | event_AddComment
  | event_RemoveComment
  | event_AddDowntime
  | event_RemoveDowntime
  | event_SetAcknowledgement
  | event_ClearAcknowledgement
  | event_UpdateRepository
  | event_ExecuteCommand.

Section Handlers.
Context {O : Type} (K : Cluster) (C : Codec O).

(** [Host::GetByName] followed by [GetServiceByShortName] when the params
    name a service: the lookup every checkable handler starts with. *)
Definition GetCheckable (params : Dictionary) : option Checkable :=
  let host := ToString C (Get params "host") in
  match Hosts K !! host with
  | None => None
  | Some services =>
      if Contains params "service" then
        let service := ToString C (Get params "service") in
        if bool_decide (service ∈ services) then Some (ServiceRef host service)
        else None
      else Some (HostRef host)
  end.

(** [origin->FromZone && !origin->FromZone->CanAccessObject(checkable)] *)
Definition denied (origin : MessageOrigin) (checkable : Checkable) : bool :=
  match FromZone origin with
  | Some zone => negb (CanAccessObject K zone checkable)
  | None => false
  end.

(** The same test for an object of any type. *)
Definition CanAccess (zone : Zone) (object : ObjectRef) : bool :=
  match object with
  | CheckableObject checkable => CanAccessObject K zone checkable
  | ConfigObjectRef type name => CanAccessConfigObject K zone type name
  end.

Definition denied_object (origin : MessageOrigin) (object : ObjectRef) : bool :=
  match FromZone origin with
  | Some zone => negb (CanAccess zone object)
  | None => false
  end.

(** [origin->FromZone && !Zone::GetLocalZone()->IsChildOf(origin->FromZone)] *)
Definition not_from_parent (origin : MessageOrigin) : bool :=
  match FromZone origin with
  | Some zone => negb (IsChildOf K (LocalZone K) zone)
  | None => false
  end.

Definition discarding (what : string) (origin : MessageOrigin) (why : string)
  : Effect :=
  Log LogNotice "ApiEvents"
    ("Discarding " ++ what ++ " message from '"
       ++ Identity (FromClient origin) ++ "': " ++ why).

Definition invalid_origin : string := "Invalid endpoint origin (client not allowed).".
Definition unauthorized : string := "Unauthorized access.".

(** [T::GetByName(name)] for a configuration type [T]: the object of
    that type and name, if there is one. *)
Definition GetByName (type name : string) : option ObjectRef :=
  if bool_decide (type = "Host") then
    match Hosts K !! name with
    | Some _ => Some (CheckableObject (HostRef name))
    | None => None
    end
  else if bool_decide (type = "Service") then
    match Services K !! name with
    | Some (host, short_name) => Some (CheckableObject (ServiceRef host short_name))
    | None => None
    end
  else if bool_decide (type = "CheckCommand") then
    if bool_decide (name ∈ CheckCommands K) then Some (ConfigObjectRef type name)
    else None
  else if bool_decide (type = "EventCommand") then
    if bool_decide (name ∈ EventCommands K) then Some (ConfigObjectRef type name)
    else None
  else
    if bool_decide (name ∈ default ∅ (ConfigObjects K !! type))
    then Some (ConfigObjectRef type name)
    else None.

(** The attribute setters of a host or a service.  The handlers for
    [event::SetNextCheck] (lines 441-478), [event::SetForceNextCheck],
    [event::SetForceNextNotification], the six [event::SetEnable...],
    [event::SetCheckInterval], [event::SetRetryInterval] and
    [event::SetMaxCheckAttempts] differ in the two log texts, in the
    member of the params they read and in the setter they call, to which
    the value is converted at the call: to a double for a time or an
    interval, to a boolean for a flag, to an integer for the attempts.
    A value that does not convert makes the conversion throw, and the
    setter is not called. *)
Definition NextCheckChangedAPIHandler (origin : MessageOrigin)
    (params : DictionaryPtr) : Outcome :=
  match ClientEndpoint (FromClient origin) with
  | None => returned [discarding "'next check changed'" origin invalid_origin]
  | Some endpoint =>
      match params with
      | None => returned []
      | Some params =>
          match GetCheckable params with
          | None => returned []
          | Some checkable =>
              if denied origin checkable then
                returned [discarding "'next check changed'" origin unauthorized]
              else
                match ToDouble C (Get params "next_check") with
                | inr e => raised [] e
                | inl next_check =>
                    returned [SetNextCheck checkable (Number next_check) false origin]
                end
          end
      end
  end.

Definition ForceNextCheckChangedAPIHandler (origin : MessageOrigin)
    (params : DictionaryPtr) : Outcome :=
  match ClientEndpoint (FromClient origin) with
  | None => returned [discarding "'force next check changed'" origin invalid_origin]
  | Some endpoint =>
      match params with
      | None => returned []
      | Some params =>
          match GetCheckable params with
          | None => returned []
          | Some checkable =>
              if denied origin checkable then
                returned [discarding "'force next check'" origin unauthorized]
              else
                match ToBoolean C (Get params "forced") with
                | inr e => raised [] e
                | inl forced =>
                    returned [SetForceNextCheck checkable (Boolean forced) false origin]
                end
          end
      end
  end.

Definition ForceNextNotificationChangedAPIHandler (origin : MessageOrigin)
    (params : DictionaryPtr) : Outcome :=
  match ClientEndpoint (FromClient origin) with
  | None => returned [discarding "'force next notification changed'" origin invalid_origin]
  | Some endpoint =>
      match params with
      | None => returned []
      | Some params =>
          match GetCheckable params with
          | None => returned []
          | Some checkable =>
              if denied origin checkable then
                returned [discarding "'force next notification'" origin unauthorized]
              else
                match ToBoolean C (Get params "forced") with
                | inr e => raised [] e
                | inl forced =>
                    returned
                      [SetForceNextNotification checkable (Boolean forced) false origin]
                end
          end
      end
  end.

Definition EnableActiveChecksChangedAPIHandler (origin : MessageOrigin)
    (params : DictionaryPtr) : Outcome :=
  match ClientEndpoint (FromClient origin) with
  | None => returned [discarding "'enable active checks changed'" origin invalid_origin]
  | Some endpoint =>
      match params with
      | None => returned []
      | Some params =>
          match GetCheckable params with
          | None => returned []
          | Some checkable =>
              if denied origin checkable then
                returned [discarding "'enable active checks' changed" origin unauthorized]
              else
                match ToBoolean C (Get params "enabled") with
                | inr e => raised [] e
                | inl enabled =>
                    returned
                      [SetEnableActiveChecks checkable (Boolean enabled) false origin]
                end
          end
      end
  end.

Definition EnablePassiveChecksChangedAPIHandler (origin : MessageOrigin)
    (params : DictionaryPtr) : Outcome :=
  match ClientEndpoint (FromClient origin) with
  | None => returned [discarding "'enable passive checks changed'" origin invalid_origin]
  | Some endpoint =>
      match params with
      | None => returned []
      | Some params =>
          match GetCheckable params with
          | None => returned []
          | Some checkable =>
              if denied origin checkable then
                returned [discarding "'enable passive checks changed'" origin unauthorized]
              else
                match ToBoolean C (Get params "enabled") with
                | inr e => raised [] e
                | inl enabled =>
                    returned
                      [SetEnablePassiveChecks checkable (Boolean enabled) false origin]
                end
          end
      end
  end.

Definition EnableNotificationsChangedAPIHandler (origin : MessageOrigin)
    (params : DictionaryPtr) : Outcome :=
  match ClientEndpoint (FromClient origin) with
  | None => returned [discarding "'enable notifications changed'" origin invalid_origin]
  | Some endpoint =>
      match params with
      | None => returned []
      | Some params =>
          match GetCheckable params with
          | None => returned []
          | Some checkable =>
              if denied origin checkable then
                returned [discarding "'enable notifications changed'" origin unauthorized]
              else
                match ToBoolean C (Get params "enabled") with
                | inr e => raised [] e
                | inl enabled =>
                    returned
                      [SetEnableNotifications checkable (Boolean enabled) false origin]
                end
          end
      end
  end.

Definition EnableFlappingChangedAPIHandler (origin : MessageOrigin)
    (params : DictionaryPtr) : Outcome :=
  match ClientEndpoint (FromClient origin) with
  | None => returned [discarding "'enable flapping changed'" origin invalid_origin]
  | Some endpoint =>
      match params with
      | None => returned []
      | Some params =>
          match GetCheckable params with
          | None => returned []
          | Some checkable =>
              if denied origin checkable then
                returned [discarding "'enable flapping changed'" origin unauthorized]
              else
                match ToBoolean C (Get params "enabled") with
                | inr e => raised [] e
                | inl enabled =>
                    returned [SetEnableFlapping checkable (Boolean enabled) false origin]
                end
          end
      end
  end.

Definition EnableEventHandlerChangedAPIHandler (origin : MessageOrigin)
    (params : DictionaryPtr) : Outcome :=
  match ClientEndpoint (FromClient origin) with
  | None => returned [discarding "'enable event handler changed'" origin invalid_origin]
  | Some endpoint =>
      match params with
      | None => returned []
      | Some params =>
          match GetCheckable params with
          | None => returned []
          | Some checkable =>
              if denied origin checkable then
                returned [discarding "'enable event handler'" origin unauthorized]
              else
                match ToBoolean C (Get params "enabled") with
                | inr e => raised [] e
                | inl enabled =>
                    returned
                      [SetEnableEventHandler checkable (Boolean enabled) false origin]
                end
          end
      end
  end.

Definition EnablePerfdataChangedAPIHandler (origin : MessageOrigin)
    (params : DictionaryPtr) : Outcome :=
  match ClientEndpoint (FromClient origin) with
  | None => returned [discarding "'enable perfdata changed'" origin invalid_origin]
  | Some endpoint =>
      match params with
      | None => returned []
      | Some params =>
          match GetCheckable params with
          | None => returned []
          | Some checkable =>
              if denied origin checkable then
                returned [discarding "'enable perfdata changed'" origin unauthorized]
              else
                match ToBoolean C (Get params "enabled") with
                | inr e => raised [] e
                | inl enabled =>
                    returned [SetEnablePerfdata checkable (Boolean enabled) false origin]
                end
          end
      end
  end.

Definition CheckIntervalChangedAPIHandler (origin : MessageOrigin)
    (params : DictionaryPtr) : Outcome :=
  match ClientEndpoint (FromClient origin) with
  | None => returned [discarding "'check interval changed'" origin invalid_origin]
  | Some endpoint =>
      match params with
      | None => returned []
      | Some params =>
          match GetCheckable params with
          | None => returned []
          | Some checkable =>
              if denied origin checkable then
                returned [discarding "'check interval' changed" origin unauthorized]
              else
                match ToDouble C (Get params "interval") with
                | inr e => raised [] e
                | inl interval =>
                    returned [SetCheckInterval checkable (Number interval) false origin]
                end
          end
      end
  end.

Definition RetryIntervalChangedAPIHandler (origin : MessageOrigin)
    (params : DictionaryPtr) : Outcome :=
  match ClientEndpoint (FromClient origin) with
  | None => returned [discarding "'retry interval changed'" origin invalid_origin]
  | Some endpoint =>
      match params with
      | None => returned []
      | Some params =>
          match GetCheckable params with
          | None => returned []
          | Some checkable =>
              if denied origin checkable then
                returned [discarding "'retry interval' changed" origin unauthorized]
              else
                match ToDouble C (Get params "interval") with
                | inr e => raised [] e
                | inl interval =>
                    returned [SetRetryInterval checkable (Number interval) false origin]
                end
          end
      end
  end.

Definition MaxCheckAttemptsChangedAPIHandler (origin : MessageOrigin)
    (params : DictionaryPtr) : Outcome :=
  match ClientEndpoint (FromClient origin) with
  | None => returned [discarding "'max checkt attempts changed'" origin invalid_origin]
  | Some endpoint =>
      match params with
      | None => returned []
      | Some params =>
          match GetCheckable params with
          | None => returned []
          | Some checkable =>
              if denied origin checkable then
                returned [discarding "'max check attempts changed'" origin unauthorized]
              else
                match ToInt C (Get params "attempts") with
                | inr e => raised [] e
                | inl attempts =>
                    returned [SetMaxCheckAttempts checkable (Number attempts) false origin]
                end
          end
      end
  end.

(** [event::SetNextNotification] names a notification, not a host or a
    service. *)
Definition NextNotificationChangedAPIHandler (origin : MessageOrigin)
    (params : DictionaryPtr) : Outcome :=
  match ClientEndpoint (FromClient origin) with
  | None => returned [discarding "'next notification changed'" origin invalid_origin]
  | Some endpoint =>
      match params with
      | None => returned []
      | Some params =>
          let name := ToString C (Get params "notification") in
          match GetByName "Notification" name with
          | None => returned []
          | Some notification =>
              if denied_object origin notification then
                returned [discarding "'next notification changed'" origin unauthorized]
              else
                match ToDouble C (Get params "next_notification") with
                | inr e => raised [] e
                | inl next_notification =>
                    returned
                      [SetNextNotification name (Number next_notification) false origin]
                end
          end
      end
  end.

(** [event::SetEventCommand], [event::SetCheckCommand] and
    [event::SetCheckPeriod] name a command or a time period, which is
    looked up; when there is none of that name the handler returns.  For
    the event command the lookup comes before the access test, for the
    other two after it. *)
Definition EventCommandChangedAPIHandler (origin : MessageOrigin)
    (params : DictionaryPtr) : Outcome :=
  match ClientEndpoint (FromClient origin) with
  | None => returned [discarding "'event command changed'" origin invalid_origin]
  | Some endpoint =>
      match params with
      | None => returned []
      | Some params =>
          match GetCheckable params with
          | None => returned []
          | Some checkable =>
              let command := ToString C (Get params "command") in
              if negb (bool_decide (command ∈ EventCommands K)) then returned []
              else if denied origin checkable then
                returned [discarding "'event command changed'" origin unauthorized]
              else
                returned [SetEventCommandRaw checkable command false origin]
          end
      end
  end.

Definition CheckCommandChangedAPIHandler (origin : MessageOrigin)
    (params : DictionaryPtr) : Outcome :=
  match ClientEndpoint (FromClient origin) with
  | None => returned [discarding "'check command changed'" origin invalid_origin]
  | Some endpoint =>
      match params with
      | None => returned []
      | Some params =>
          match GetCheckable params with
          | None => returned []
          | Some checkable =>
              if denied origin checkable then
                returned [discarding "'check command changed'" origin unauthorized]
              else
                let command := ToString C (Get params "command") in
                if negb (bool_decide (command ∈ CheckCommands K)) then returned []
                else returned [SetCheckCommandRaw checkable command false origin]
          end
      end
  end.

Definition CheckPeriodChangedAPIHandler (origin : MessageOrigin)
    (params : DictionaryPtr) : Outcome :=
  match ClientEndpoint (FromClient origin) with
  | None => returned [discarding "'check period changed'" origin invalid_origin]
  | Some endpoint =>
      match params with
      | None => returned []
      | Some params =>
          match GetCheckable params with
          | None => returned []
          | Some checkable =>
              if denied origin checkable then
                returned [discarding "'check period changed'" origin unauthorized]
              else
                let timeperiod := ToString C (Get params "timeperiod") in
                match GetByName "TimePeriod" timeperiod with
                | None => returned []
                | Some _ => returned [SetCheckPeriodRaw checkable timeperiod false origin]
                end
          end
      end
  end.

(** [event::SetVars] names an object with custom variables by name and,
    since v2.3.5, by type.  Without a type the object is looked for among
    the hosts, the services, the users and the commands, in this order;
    with a type it must be of a type that derives from [CustomVarObject],
    as the six types of the old lookup do. *)
Definition is_custom_var_type (type : string) : bool :=
  bool_decide (type ∈ ["Host"; "Service"; "User"; "EventCommand"; "CheckCommand";
                       "NotificationCommand"])
  || bool_decide (type ∈ CustomVarTypes K).

Fixpoint first_of (types : list string) (name : string) : option ObjectRef :=
  match types with
  | [] => None
  | type :: rest =>
      match GetByName type name with
      | Some object => Some object
      | None => first_of rest name
      end
  end.

Definition GetCustomVarObject (params : Dictionary) : option ObjectRef :=
  let objectName := ToString C (Get params "object") in
  let objectType := ToString C (Get params "object_type") in
  if bool_decide (objectName = "") then None
  else if bool_decide (objectType = "") then
    first_of ["Host"; "Service"; "User"; "Service"; "EventCommand"; "CheckCommand";
              "NotificationCommand"] objectName
  else if is_custom_var_type objectType then GetByName objectType objectName
  else None.

Definition VarsChangedAPIHandler (origin : MessageOrigin)
    (params : DictionaryPtr) : Outcome :=
  match ClientEndpoint (FromClient origin) with
  | None => returned [discarding "'vars changed'" origin invalid_origin]
  | Some endpoint =>
      match params with
      | None => returned []
      | Some params =>
          match GetCustomVarObject params with
          | None => returned []
          | Some object =>
              let processing :=
                Log LogDebug "ApiEvents"
                  ("Processing 'vars changed' for object: '"
                     ++ ToString C (Get params "object") ++ "' type: '"
                     ++ TypeOf object ++ "'.") in
              if denied_object origin object then
                returned [processing; discarding "'vars changed'" origin unauthorized]
              else
                match ToDictionaryPtr (Get params "vars") with
                | BadCast => raised [processing] bad_cast
                | Converted None => returned [processing]
                | Converted (Some vars) =>
                    returned [processing; SetVars object vars false origin]
                end
          end
      end
  end.

(** [event::AddComment] and [event::AddDowntime] deserialize the member
    in safe mode into a new object and hand its attributes on;
    [event::RemoveComment] and [event::RemoveDowntime] hand on the id. *)
Definition CommentAddedAPIHandler (origin : MessageOrigin)
    (params : DictionaryPtr) : Outcome :=
  match ClientEndpoint (FromClient origin) with
  | None => returned [discarding "'comment added'" origin invalid_origin]
  | Some endpoint =>
      match params with
      | None => returned []
      | Some params =>
          match GetCheckable params with
          | None => returned []
          | Some checkable =>
              if denied origin checkable then
                returned [discarding "'comment added'" origin unauthorized]
              else
                match DeserializeComment K (Get params "comment") true with
                | inr e => raised [] e
                | inl comment =>
                    returned
                      [AddComment checkable (CommentEntryType comment)
                         (CommentAuthor comment) (CommentText comment)
                         (CommentExpireTime comment) (CommentName comment) origin]
                end
          end
      end
  end.

Definition CommentRemovedAPIHandler (origin : MessageOrigin)
    (params : DictionaryPtr) : Outcome :=
  match ClientEndpoint (FromClient origin) with
  | None => returned [discarding "'comment removed'" origin invalid_origin]
  | Some endpoint =>
      match params with
      | None => returned []
      | Some params =>
          match GetCheckable params with
          | None => returned []
          | Some checkable =>
              if denied origin checkable then
                returned [discarding "'comment removed'" origin unauthorized]
              else
                returned [RemoveComment checkable (ToString C (Get params "id")) origin]
          end
      end
  end.

Definition DowntimeAddedAPIHandler (origin : MessageOrigin)
    (params : DictionaryPtr) : Outcome :=
  match ClientEndpoint (FromClient origin) with
  | None => returned [discarding "'downtime added'" origin invalid_origin]
  | Some endpoint =>
      match params with
      | None => returned []
      | Some params =>
          match GetCheckable params with
          | None => returned []
          | Some checkable =>
              if denied origin checkable then
                returned [discarding "'downtime added'" origin unauthorized]
              else
                match DeserializeDowntime K (Get params "downtime") true with
                | inr e => raised [] e
                | inl downtime =>
                    returned
                      [AddDowntime checkable (DowntimeAuthor downtime)
                         (DowntimeComment downtime) (DowntimeStartTime downtime)
                         (DowntimeEndTime downtime) (DowntimeFixed downtime)
                         (DowntimeTriggeredBy downtime) (DowntimeDuration downtime)
                         (DowntimeScheduledBy downtime) (DowntimeName downtime) origin]
                end
          end
      end
  end.

Definition DowntimeRemovedAPIHandler (origin : MessageOrigin)
    (params : DictionaryPtr) : Outcome :=
  match ClientEndpoint (FromClient origin) with
  | None => returned [discarding "'downtime removed'" origin invalid_origin]
  | Some endpoint =>
      match params with
      | None => returned []
      | Some params =>
          match GetCheckable params with
          | None => returned []
          | Some checkable =>
              if denied origin checkable then
                returned [discarding "'downtime removed'" origin unauthorized]
              else
                returned
                  [RemoveDowntime checkable (ToString C (Get params "id")) false origin]
          end
      end
  end.

(** [event::SetAcknowledgement] converts three of its members at the
    call.  C++ leaves the order in which the arguments are evaluated open;
    when more than one of them does not convert, the exception that
    escapes may be that of another one than here. *)
Definition AcknowledgementSetAPIHandler (origin : MessageOrigin)
    (params : DictionaryPtr) : Outcome :=
  match ClientEndpoint (FromClient origin) with
  | None => returned [discarding "'acknowledgement set'" origin invalid_origin]
  | Some endpoint =>
      match params with
      | None => returned []
      | Some params =>
          match GetCheckable params with
          | None => returned []
          | Some checkable =>
              if denied origin checkable then
                returned [discarding "'acknowledgement set'" origin unauthorized]
              else
                let author := ToString C (Get params "author") in
                let comment := ToString C (Get params "comment") in
                match ToInt C (Get params "acktype"),
                      ToBoolean C (Get params "notify"),
                      ToDouble C (Get params "expiry") with
                | inl acktype, inl notify, inl expiry =>
                    returned
                      [AcknowledgeProblem checkable author comment acktype notify expiry
                         origin]
                | inr e, _, _ | inl _, inr e, _ | inl _, inl _, inr e => raised [] e
                end
          end
      end
  end.

Definition AcknowledgementClearedAPIHandler (origin : MessageOrigin)
    (params : DictionaryPtr) : Outcome :=
  match ClientEndpoint (FromClient origin) with
  | None => returned [discarding "'acknowledgement cleared'" origin invalid_origin]
  | Some endpoint =>
      match params with
      | None => returned []
      | Some params =>
          match GetCheckable params with
          | None => returned []
          | Some checkable =>
              if denied origin checkable then
                returned [discarding "'acknowledgement cleared'" origin unauthorized]
              else
                returned [ClearAcknowledgement checkable origin]
          end
      end
  end.

(** Conversion of a [Value] to [Array::Ptr]. *)
Definition ToArrayPtr (v : Value) : Conv (option (list Value)) :=
  match v with
  | Empty => Converted None
  | Arr a => Converted (Some a)
  | _ => BadCast
  end.

Definition rebuild (vp : Value) : Perfdata :=
  match vp with
  | Dict d => PerfdataValue d
  | _ => Verbatim vp
  end.

(** [CheckResultAPIHandler].  The body and the perfdata entries are
    deserialized in safe mode by the serializer, which is outside the
    sources; the result is kept here as it was received. *)
Definition CheckResultAPIHandler (origin : MessageOrigin)
    (params : DictionaryPtr) : Outcome :=
  match ClientEndpoint (FromClient origin) with
  | None => returned [discarding "'check result'" origin invalid_origin]
  | Some endpoint =>
      match params with
      | None => returned []
      | Some params =>
          match ToDictionaryPtr (Get params "cr") with
          | BadCast => raised [] bad_cast
          | Converted None => raised [] null_pointer
          | Converted (Some vcr) =>
              match ToArrayPtr (Get vcr "performance_data") with
              | BadCast => raised [] bad_cast
              | Converted vperf =>
                  let cr :=
                    MkReceived (Remove vcr "performance_data")
                      (map rebuild (default [] vperf)) in
                  match GetCheckable params with
                  | None => returned []
                  | Some checkable =>
                      if denied origin checkable
                         && negb (bool_decide (Some endpoint = CommandEndpoint K checkable))
                      then returned [discarding "'check result'" origin unauthorized]
                      else if bool_decide (Some endpoint = CommandEndpoint K checkable)
                      then returned [ProcessCheckResult checkable cr None]
                      else returned [ProcessCheckResult checkable cr (Some origin)]
                  end
              end
          end
      end
  end.

(** [new Host()] with [__name] and [type] deserialized into it, and the
    extension [agent_service_name] when the request names a service. *)
Definition virtual_attrs (params : Dictionary) : Dictionary :=
  Set_ (Set_ ∅ "__name" (Get params "host")) "type" (Str "Host").

Definition virtual_host (params : Dictionary) : Host :=
  MkHost (virtual_attrs params)
    (if Contains params "service"
     then Set_ ∅ "agent_service_name" (Get params "service")
     else ∅).

Definition HostName (host : Host) : string :=
  ToString C (Get (HostAttrs host) "__name").

Definition GetExtension (host : Host) (key : string) : Value :=
  Get (HostExtensions host) key.

Definition SetExtension (host : Host) (key : string) (v : Value) : Host :=
  MkHost (HostAttrs host) (Set_ (HostExtensions host) key v).

(** [MakeCheckResultMessage] for a host: the service name is taken from
    the extension [agent_service_name] when that is not empty. *)
Definition MakeCheckResultMessage (host : Host) (cr : CheckResult) : Message :=
  let agent_service_name := GetExtension host "agent_service_name" in
  MkMessage "2.0" "event::CheckResult"
    (CheckResultParams (HostName host)
       (if IsEmpty agent_service_name then None else Some agent_service_name)
       cr).

Definition unknown (output : string) : CheckResult :=
  MkCheckResult ServiceUnknown output None None None None.

Definition unknown_at (output : string) (now : Z) : CheckResult :=
  MkCheckResult ServiceUnknown output (Some now) (Some now) (Some now) (Some now).

(** The host once the command is known to exist: the command and the
    requester are added to its attributes, and it is marked [agent_check]. *)
Definition prepared_host (sourceEndpoint : Endpoint) (params : Dictionary)
    (command_type : string) : Host :=
  let attrs :=
    Set_ (Set_ (virtual_attrs params) command_type (Get params "command"))
      "command_endpoint" (Str sourceEndpoint) in
  SetExtension (MkHost attrs (HostExtensions (virtual_host params)))
    "agent_check" (Boolean true).

Definition check_failed (host : Host) (diagnostic : string) : string :=
  "Exception occured while checking '" ++ HostName host ++ "': " ++ diagnostic.

(** The second half of [ExecuteCommandAPIHandler]: the command is run. *)
Definition execute (sourceEndpoint : Endpoint) (params : Dictionary)
    (command_type : string) : Outcome :=
  let host := prepared_host sourceEndpoint params command_type in
  match ToDictionaryPtr (Get params "macros") with
  | BadCast => raised [] bad_cast
  | Converted macros =>
      if bool_decide (command_type = "check_command") then
        match RemoteCheck K host macros with
        | None => returned [ExecuteRemoteCheck host macros]
        | Some diagnostic =>
            let output := check_failed host diagnostic in
            returned
              [ExecuteRemoteCheck host macros;
               SyncSendMessage sourceEndpoint
                 (MakeCheckResultMessage host (unknown_at output (GetTime K)));
               Log LogCritical "checker" output]
        end
      else if bool_decide (command_type = "event_command") then
        match EventHandler K host macros with
        | None => returned [ExecuteEventHandler host macros true]
        | Some diagnostic =>
            raised [ExecuteEventHandler host macros true] (RuntimeError diagnostic)
        end
      else returned []
  end.

Definition ignoring (listener : ApiListener) : Effect :=
  Log LogWarning "ApiListener"
    ("Ignoring command. '" ++ ListenerName listener ++ "' does not accept commands.").

Definition ExecuteCommandAPIHandler (origin : MessageOrigin)
    (params : DictionaryPtr) : Outcome :=
  let discard :=
    returned [discarding "'execute command'" origin invalid_origin] in
  match ClientEndpoint (FromClient origin) with
  | None => discard
  | Some sourceEndpoint =>
      if not_from_parent origin then discard
      else
        match Listener K with
        | None => returned [Log LogCritical "ApiListener" "No instance available."]
        | Some listener =>
            if negb (AcceptCommands listener) then
              match params with
              | None => raised [ignoring listener] null_pointer
              | Some params =>
                  returned
                    [ignoring listener;
                     SyncSendMessage sourceEndpoint
                       (MakeCheckResultMessage (virtual_host params)
                          (unknown ("Endpoint '" ++ LocalEndpoint K
                                      ++ "' does not accept commands.")))]
              end
            else
              match params with
              | None => raised [] null_pointer
              | Some params =>
                  let command := ToString C (Get params "command") in
                  let command_type := ToString C (Get params "command_type") in
                  if bool_decide (command_type = "check_command") then
                    if bool_decide (command ∈ CheckCommands K) then
                      execute sourceEndpoint params command_type
                    else
                      returned
                        [SyncSendMessage sourceEndpoint
                           (MakeCheckResultMessage (virtual_host params)
                              (unknown ("Check command '" ++ command
                                          ++ "' does not exist.")))]
                  else if bool_decide (command_type = "event_command") then
                    if bool_decide (command ∈ EventCommands K) then
                      execute sourceEndpoint params command_type
                    else
                      returned
                        [Log LogWarning "ApiEvents"
                           ("Event command '" ++ command ++ "' does not exist.")]
                  else returned []
              end
        end
  end.

Definition GetRepositoryDir : string :=
  LocalStateDir K ++ "/lib/icinga2/api/repository/".

Definition repository_file (params : Dictionary) : string :=
  GetRepositoryDir ++ SHA256 C (ToString C (Get params "endpoint")) ++ ".repo".

(** [UpdateRepositoryAPIHandler].  The origin is only handed on, so it may
    be null.  The output stream is not tested after it is
    opened: when the open fails nothing is written and the rename goes
    ahead all the same. *)
Definition UpdateRepositoryAPIHandler (P : Platform)
    (origin : option MessageOrigin) (params : DictionaryPtr) (fs : Files)
  : Outcome * Files :=
  match params with
  | None => (returned [], fs)
  | Some params =>
      let vrepository := Get params "repository" in
      if IsEmpty vrepository || negb (IsDictionary vrepository) then
        (returned [], fs)
      else
        let repositoryFile := repository_file params in
        let repositoryTempFile := repositoryFile ++ ".tmp" in
        let written :=
          if OpenFails P repositoryTempFile then fs
          else <[repositoryTempFile := [JsonEncode C (Dict params)]]> fs in
        let unlinked := unlink_on_win32 P written repositoryFile in
        match rename P unlinked repositoryTempFile repositoryFile with
        | inr errno =>
            (raised [] (PosixError "rename" errno repositoryTempFile), unlinked)
        | inl renamed =>
            match Listener K with
            | None => (returned [], renamed)
            | Some listener =>
                (returned
                   [RelayMessage origin (ScopeZone (LocalZone K))
                      (MkMessage "2.0" "event::UpdateRepository" (RawParams params))
                      true],
                 renamed)
            end
        end
  end.

(** The handler registered for a method.  The repository handler is
    the one that works on files. *)
Definition ApiFunction (P : Platform) (m : Method)
    (origin : MessageOrigin) (params : DictionaryPtr) (fs : Files) : Outcome * Files :=
  match m with
  | event_CheckResult => (CheckResultAPIHandler origin params, fs)
  | event_SetNextCheck => (NextCheckChangedAPIHandler origin params, fs)
  | event_SetNextNotification => (NextNotificationChangedAPIHandler origin params, fs)
  | event_SetForceNextCheck => (ForceNextCheckChangedAPIHandler origin params, fs)
  | event_SetForceNextNotification =>
      (ForceNextNotificationChangedAPIHandler origin params, fs)
  | event_SetEnableActiveChecks => (EnableActiveChecksChangedAPIHandler origin params, fs)
  | event_SetEnablePassiveChecks => (EnablePassiveChecksChangedAPIHandler origin params, fs)
  | event_SetEnableNotifications => (EnableNotificationsChangedAPIHandler origin params, fs)
  | event_SetEnableFlapping => (EnableFlappingChangedAPIHandler origin params, fs)
  | event_SetEnableEventHandler => (EnableEventHandlerChangedAPIHandler origin params, fs)
  | event_SetEnablePerfdata => (EnablePerfdataChangedAPIHandler origin params, fs)
  | event_SetCheckInterval => (CheckIntervalChangedAPIHandler origin params, fs)
  | event_SetRetryInterval => (RetryIntervalChangedAPIHandler origin params, fs)
  | event_SetMaxCheckAttempts => (MaxCheckAttemptsChangedAPIHandler origin params, fs)
  | event_SetEventCommand => (EventCommandChangedAPIHandler origin params, fs)
  | event_SetCheckCommand => (CheckCommandChangedAPIHandler origin params, fs)
  | event_SetCheckPeriod => (CheckPeriodChangedAPIHandler origin params, fs)
  | event_SetVars => (VarsChangedAPIHandler origin params, fs)
  | event_AddComment => (CommentAddedAPIHandler origin params, fs)
  | event_RemoveComment => (CommentRemovedAPIHandler origin params, fs)
  | event_AddDowntime => (DowntimeAddedAPIHandler origin params, fs)
  | event_RemoveDowntime => (DowntimeRemovedAPIHandler origin params, fs)
  | event_SetAcknowledgement => (AcknowledgementSetAPIHandler origin params, fs)
  | event_ClearAcknowledgement => (AcknowledgementClearedAPIHandler origin params, fs)
  | event_UpdateRepository => UpdateRepositoryAPIHandler P (Some origin) params fs
  | event_ExecuteCommand => (ExecuteCommandAPIHandler origin params, fs)
  end.

End Handlers.

End ApiEvents.

(** ** A sample type, used to run the definitions *)

Module Sample.
Import ConfigObject.

(** Conversions for the samples: every value that is not a string renders
    as the empty string, and no value that is not a number casts to one. *)
Definition casts : Casts :=
  MkCasts (fun _ => "") (fun _ => inr "Can't convert value to a floating point number.").

(** A host-like type: two configuration fields and one state field of its
    own, after the two of the base class.  The schema wants a number for
    the check interval and a dictionary (or nothing) for the custom
    variables. *)
Definition HostType : Type_ :=
  MkType "Host"
    [ MkField "vars" FAConfig;
      MkField "check_interval" FAConfig;
      MkField "last_check" FAState ]
    (fun fid v =>
       match fid, v with
       | 2, (Empty | Dict _) => None
       | 2, _ => Some "Attribute 'vars': dictionary expected."
       | 3, Number _ => None
       | 3, _ => Some "Attribute 'check_interval': number expected."
       | _, _ => None
       end)
    casts.

Definition h1 : t :=
  MkObject HostType "h1" [Dict ∅; Number 300; Number 0] 0 None None false false.

(** A small codec.  A record is encoded by the name of its object;
    decoding a name gives a record for the host of that name with a new
    [last_check].  Serialization covers the state field only. *)
Definition codec : Codec ConfigObject.t :=
  MkCodec
    (Rendering casts)
    (Lexical casts)
    (fun v =>
       match v with
       | Dict d => match d !! "name" with Some (Str n) => n | _ => "{}" end
       | _ => "null"
       end)
    (fun message =>
       Some (Dict (Set_ (Set_ (Set_ ∅ "type" (Str "Host")) "name" (Str message))
                     "update" (Dict {[ "last_check" := Number 42 ]}))))
    (fun s => "sha256:" ++ s)
    (fun o _ => Some {[ "last_check" := default Empty (FieldValues o !! 2%nat) ]})
    (fun o update _ _ =>
       Ok (match update with
           | Some u =>
               match u !! "last_check" with
               | Some v => SetFieldValues o (<[2%nat := v]> (FieldValues o))
               | None => o
               end
           | None => o
           end)).

(** A registry with the one host, and a state directory that holds an
    older snapshot. *)
Definition world : Snapshot.World :=
  Snapshot.MkWorld [Snapshot.MkConfigType "Host" [h1]]
    {[ "icinga2.state" := ["h1"] ]} [].

(** The same registry on a machine started for the first time. *)
Definition fresh_world : Snapshot.World :=
  Snapshot.MkWorld [Snapshot.MkConfigType "Host" [h1]] ∅ [].

Definition EACCES : Z := 13.

(** A POSIX build and a Windows build on which every rename is refused. *)
Definition posix_rename_refused : Platform :=
  MkPlatform false (fun _ => false) (fun _ _ => Some EACCES).

Definition win32_rename_refused : Platform :=
  MkPlatform true (fun _ => false) (fun _ _ => Some EACCES).

Definition posix : Platform :=
  MkPlatform false (fun _ => false) (fun _ _ => None).

(** A satellite below the zone [master], with one host and one service.
    Only [master] may access the objects; checks of the host are delegated
    to the endpoint [agent1] of the zone [agents]. *)
Definition cluster : ApiEvents.Cluster :=
  ApiEvents.MkCluster
    {[ "h" := ["ping"] ]}
    (fun zone _ => bool_decide (zone = "master"))
    (fun _ => Some "agent1")
    "satellite"
    "sat1"
    (fun child parent => bool_decide (child = "satellite" /\ parent = "master"))
    (Some (ApiEvents.MkListener "api" true))
    {[ "ping4" ]}
    ∅
    (fun _ _ => None)
    (fun _ _ => None)
    1446454800
    "/var"
    {[ "h!ping" := ("h", "ping") ]}
    {[ "Notification" := {[ "h!ping!mail" ]}; "TimePeriod" := {[ "24x7" ]};
       "User" := {[ "admin" ]} ]}
    {[ "Notification"; "TimePeriod" ]}
    (fun zone _ _ => bool_decide (zone = "master"))
    (fun v _ =>
       match v with
       | Dict d => inl (ApiEvents.MkComment 1 (AsString casts (Get d "author"))
                          (AsString casts (Get d "text")) 0
                          (AsString casts (Get d "name")))
       | _ => inr bad_cast
       end)
    (fun v _ =>
       match v with
       | Dict d => inl (ApiEvents.MkDowntime (AsString casts (Get d "author"))
                          (AsString casts (Get d "comment")) 0 3600 true "" 0 ""
                          (AsString casts (Get d "name")))
       | _ => inr bad_cast
       end).

Definition from_master : ApiEvents.MessageOrigin :=
  ApiEvents.MkOrigin (ApiEvents.MkApiClient "master1" (Some "master1")) (Some "master").

Definition from_agent : ApiEvents.MessageOrigin :=
  ApiEvents.MkOrigin (ApiEvents.MkApiClient "agent1" (Some "agent1")) (Some "agents").

Definition from_stranger : ApiEvents.MessageOrigin :=
  ApiEvents.MkOrigin (ApiEvents.MkApiClient "nobody" None) (Some "agents").





Definition run_check (command : string) : Dictionary :=
  {[ "host" := Str "h"; "command_type" := Str "check_command";
     "command" := Str command ]}.

Definition run_event (command : string) : Dictionary :=
  {[ "host" := Str "h"; "command_type" := Str "event_command";
     "command" := Str command ]}.

Definition repository : Dictionary :=
  {[ "endpoint" := Str "sat2"; "zone" := Str "satellite";
     "repository" := Dict {[ "h" := Arr [Str "ping"] ]} ]}.

End Sample.

(** ** Extensions of a configurable object *)

Module Extensions.
Import ConfigObject.

Definition SetExtensions (o : t) (d : DictionaryPtr) : t :=
  MkObject (ReflectionType o) (Name o) (FieldValues o) (Version o)
    (OriginalAttributes o) d (Active o) (StateLoaded o).

(** [SetExtension]: the bag is created on first use. *)
Definition SetExtension (o : t) (key : string) (value : Value) : t :=
  match Extensions o with
  | None => SetExtensions o (Some (Set_ ∅ key value))
  | Some extensions => SetExtensions o (Some (Set_ extensions key value))
  end.

Definition GetExtension (o : t) (key : string) : Value :=
  match Extensions o with
  | None => Empty
  | Some extensions => Get extensions key
  end.

Definition ClearExtension (o : t) (key : string) : t :=
  match Extensions o with
  | None => o
  | Some extensions => SetExtensions o (Some (Remove extensions key))
  end.

End Extensions.

(** ** Activation and authority *)

Module Lifecycle.

(** The lifecycle flags of a configurable object, and the number of
    times [NotifyActive] has fired its signal. *)
Record t : Type := MkFlags {
  Active : bool;
  Paused : bool;
  StartCalled : bool;
  StopCalled : bool;
  PauseCalled : bool;
  ResumeCalled : bool;
  ActiveNotified : nat
}.

Definition SetActive (o : t) (b : bool) : t :=
  MkFlags b (Paused o) (StartCalled o) (StopCalled o) (PauseCalled o)
    (ResumeCalled o) (ActiveNotified o).
Definition SetPaused (o : t) (b : bool) : t :=
  MkFlags (Active o) b (StartCalled o) (StopCalled o) (PauseCalled o)
    (ResumeCalled o) (ActiveNotified o).
Definition SetStartCalled (o : t) (b : bool) : t :=
  MkFlags (Active o) (Paused o) b (StopCalled o) (PauseCalled o)
    (ResumeCalled o) (ActiveNotified o).
Definition SetStopCalled (o : t) (b : bool) : t :=
  MkFlags (Active o) (Paused o) (StartCalled o) b (PauseCalled o)
    (ResumeCalled o) (ActiveNotified o).
Definition SetPauseCalled (o : t) (b : bool) : t :=
  MkFlags (Active o) (Paused o) (StartCalled o) (StopCalled o) b
    (ResumeCalled o) (ActiveNotified o).
Definition SetResumeCalled (o : t) (b : bool) : t :=
  MkFlags (Active o) (Paused o) (StartCalled o) (StopCalled o) (PauseCalled o)
    b (ActiveNotified o).
Definition NotifyActive (o : t) : t :=
  MkFlags (Active o) (Paused o) (StartCalled o) (StopCalled o) (PauseCalled o)
    (ResumeCalled o) (S (ActiveNotified o)).

(** The base implementations of the four virtual hooks. *)
Definition Start (o : t) : t := SetStartCalled o true.
Definition Stop (o : t) : t := SetStopCalled o true.
Definition Pause (o : t) : t := SetPauseCalled o true.
Definition Resume (o : t) : t := SetResumeCalled o true.

(** [ASSERT(cond)]: a failed assertion ends the call. *)
Definition ASSERT (cond : bool) (what : string) (o : t) (k : t -> Result t)
  : Result t :=
  if cond then k o else Throw (AssertionFailed what) o.

Definition SetAuthority (o : t) (authority : bool) : Result t :=
  if authority && Paused o then
    let o1 := Resume (SetResumeCalled o false) in
    ASSERT (ResumeCalled o1) "GetResumeCalled()" o1
      (fun o2 => Ok (SetPaused o2 false))
  else if negb authority && negb (Paused o) then
    let o1 := Pause (SetPauseCalled o false) in
    ASSERT (PauseCalled o1) "GetPauseCalled()" o1
      (fun o2 => Ok (SetPaused o2 true))
  else Ok o.

(** [Activate]; [SetActive(true, true)] suppresses the signal, which
    [NotifyActive] fires at the end. *)
Definition Activate (o : t) : Result t :=
  let o1 := Start o in
  ASSERT (StartCalled o1) "GetStartCalled()" o1 (fun o2 =>
  ASSERT (negb (Active o2)) "!IsActive()" o2 (fun o3 =>
  match SetAuthority (SetActive o3 true) true with
  | Ok o4 => Ok (NotifyActive o4)
  | Throw e o4 => Throw e o4
  end)).

Definition Deactivate (o : t) : Result t :=
  match SetAuthority o false with
  | Throw e o1 => Throw e o1
  | Ok o1 =>
      if negb (Active o1) then Ok o1
      else
        let o2 := Stop (SetActive o1 false) in
        ASSERT (StopCalled o2) "GetStopCalled()" o2 (fun o3 => Ok (NotifyActive o3))
  end.

(** [StopObjects]: every object of every type is deactivated, in order; an
    exception ends the loop. *)
Fixpoint deactivate_each (objects : list t) : Result (list t) :=
  match objects with
  | [] => Ok []
  | o :: rest =>
      match Deactivate o with
      | Throw e o1 => Throw e (o1 :: rest)
      | Ok o1 =>
          match deactivate_each rest with
          | Ok rest1 => Ok (o1 :: rest1)
          | Throw e rest1 => Throw e (o1 :: rest1)
          end
      end
  end.

Fixpoint StopObjects (types : list (list t)) : Result (list (list t)) :=
  match types with
  | [] => Ok []
  | objects :: rest =>
      match deactivate_each objects with
      | Throw e objects1 => Throw e (objects1 :: rest)
      | Ok objects1 =>
          match StopObjects rest with
          | Ok rest1 => Ok (objects1 :: rest1)
          | Throw e rest1 => Throw e (objects1 :: rest1)
          end
      end
  end.

End Lifecycle.

(** ** Cluster events, outbound *)

Module ApiEventsOut.
Import ApiEvents.

(** [GetHostService]: the host's name, and the service's short name when
    the checkable is a service. *)
Definition GetHostService (checkable : Checkable) : string * option string :=
  match checkable with
  | HostRef host => (host, None)
  | ServiceRef host service => (host, Some service)
  end.

(** The [host] and [service] members every checkable event starts with. *)
Definition identity_params (checkable : Checkable) : Dictionary :=
  let (host, service) := GetHostService checkable in
  let params := Set_ ∅ "host" (Str host) in
  match service with
  | Some short_name => Set_ params "service" (Str short_name)
  | None => params
  end.

(** [CheckIntervalChangedHandler], with the checkable's interval. *)
Definition CheckIntervalChangedHandler (K : Cluster) (checkable : Checkable)
    (interval : Z) (origin : option MessageOrigin) : list Effect :=
  match Listener K with
  | None => []
  | Some listener =>
      let params := Set_ (identity_params checkable) "interval" (Number interval) in
      [RelayMessage origin (ScopeCheckable checkable)
         (MkMessage "2.0" "event::SetCheckInterval" (RawParams params)) true]
  end.

(** The inventory sent by the repository beacon: each host with the array
    of its services' short names. *)
Definition inventory (K : Cluster) : Dictionary :=
  (fun services => Arr (Str <$> services)) <$> Hosts K.

(** [RepositoryTimerHandler].  [Endpoint::GetLocalEndpoint()], its zone
    and the zone's parent may each be null here, so they are arguments. *)
Definition RepositoryTimerHandler (K : Cluster) (my_endpoint : option Endpoint)
    (my_zone parent_zone : option Zone) : list Effect :=
  match Listener K with
  | None => []
  | Some listener =>
      match my_endpoint with
      | None => [Log LogWarning "ApiEvents" "No local endpoint defined. Bailing out."]
      | Some endpoint =>
          match my_zone with
          | None => []
          | Some zone =>
              let params :=
                Set_ (Set_ ∅ "seen" (Number (GetTime K))) "endpoint" (Str endpoint) in
              let params :=
                match parent_zone with
                | Some parent => Set_ params "parent_zone" (Str parent)
                | None => params
                end in
              let params :=
                Set_ (Set_ params "zone" (Str zone)) "repository" (Dict (inventory K)) in
              [RelayMessage None (ScopeZone zone)
                 (MkMessage "2.0" "event::UpdateRepository" (RawParams params)) false]
          end
      end
  end.

End ApiEventsOut.

(** ** Config writer *)

Module ConfigWriter.

(** [boost::algorithm::replace_all] for a pattern of one character: every
    occurrence is replaced, left to right, and the replacement is not
    scanned again. *)
Fixpoint replace_all (pattern : ascii) (format : string) (input : string) : string :=
  match input with
  | EmptyString => EmptyString
  | String c rest =>
      if bool_decide (c = pattern) then format ++ replace_all pattern format rest
      else String c (replace_all pattern format rest)
  end.

Definition backslash : ascii := "\"%char.
Definition quote : ascii := "034"%char.
Definition newline : ascii := "010"%char.
Definition tab : ascii := "009"%char.
Definition carriage_return : ascii := "013"%char.
Definition backspace : ascii := "008"%char.
Definition form_feed : ascii := "012"%char.

Definition escaped (c : ascii) : string := String backslash (String c EmptyString).

Definition EscapeIcingaString (str : string) : string :=
  let result := str in
  let result := replace_all backslash (escaped backslash) result in
  let result := replace_all newline (escaped "n"%char) result in
  let result := replace_all tab (escaped "t"%char) result in
  let result := replace_all carriage_return (escaped "r"%char) result in
  let result := replace_all backspace (escaped "b"%char) result in
  let result := replace_all form_feed (escaped "f"%char) result in
  let result := replace_all quote (escaped quote) result in
  result.

(** What is written to the stream, as a string. *)
Definition EmitString (val : string) : string :=
  String quote (EscapeIcingaString val ++ String quote EmptyString).

Definition EmitBoolean (val : bool) : string := if val then "true" else "false".

Definition EmitEmpty : string := "null".

Definition EmitComment (text : string) : string :=
  "/* " ++ text ++ " */" ++ String newline EmptyString.

Fixpoint EmitIndent (indentLevel : nat) : string :=
  match indentLevel with
  | O => EmptyString
  | S n => String tab (EmitIndent n)
  end.

(** The escape of one character, and the reading back of an escaped
    string: a backslash and the character after it give one character. *)
Definition escape_char (c : ascii) : string :=
  if bool_decide (c = backslash) then escaped backslash
  else if bool_decide (c = newline) then escaped "n"%char
  else if bool_decide (c = tab) then escaped "t"%char
  else if bool_decide (c = carriage_return) then escaped "r"%char
  else if bool_decide (c = backspace) then escaped "b"%char
  else if bool_decide (c = form_feed) then escaped "f"%char
  else if bool_decide (c = quote) then escaped quote
  else String c EmptyString.

Fixpoint escape_each (s : string) : string :=
  match s with
  | EmptyString => EmptyString
  | String c rest => escape_char c ++ escape_each rest
  end.

Definition unescape_char (c : ascii) : ascii :=
  if bool_decide (c = "n"%char) then newline
  else if bool_decide (c = "t"%char) then tab
  else if bool_decide (c = "r"%char) then carriage_return
  else if bool_decide (c = "b"%char) then backspace
  else if bool_decide (c = "f"%char) then form_feed
  else c.

Fixpoint unescape (s : string) : string :=
  match s with
  | EmptyString => EmptyString
  | String c rest =>
      if bool_decide (c = backslash) then
        match rest with
        | EmptyString => String c EmptyString
        | String d rest' => String (unescape_char d) (unescape rest')
        end
      else String c (unescape rest)
  end.

End ConfigWriter.

(** ** Object configuration for the API *)

Module ConfigObjectUtility.

(** [Dictionary::CopyTo]: every pair of the source is set in the
    destination. *)
Definition CopyTo (source dest : Dictionary) : Dictionary := source ∪ dest.

(** The attributes [CreateObjectConfig] hands to the writer: the caller's
    attributes, then the parts of the composed name over them, without the
    key [name]. *)
Definition allAttrs (attrs nameParts : DictionaryPtr) : Dictionary :=
  let all := ∅ in
  let all := match attrs with Some a => CopyTo a all | None => all end in
  let all := match nameParts with Some parts => CopyTo parts all | None => all end in
  Remove all "name".

(** [CreateObjectConfig].  The type's name composer ([ParseName], null for
    a type without one) and [ConfigWriter::EmitConfigItem] with the scope
    writer are arguments. *)
Definition CreateObjectConfig {O : Type} (C : Codec O)
    (EmitConfigItem : string -> string -> bool -> option (list Value) -> Dictionary -> string)
    (ParseName : option (string -> Dictionary))
    (typeName fullName : string) (templates : option (list Value))
    (attrs : DictionaryPtr) : string :=
  let nameParts := match ParseName with Some nc => Some (nc fullName) | None => None end in
  let name :=
    match nameParts with
    | Some parts => ToString C (Get parts "name")
    | None => fullName
    end in
  EmitConfigItem typeName name false templates (allAttrs attrs nameParts)
    ++ String ConfigWriter.newline EmptyString.

End ConfigObjectUtility.

(** ** Reading a path back *)

(** The inverse of [boost::algorithm::split]: the tokens with the
    separator between them. *)
Fixpoint join (sep : ascii) (tokens : list string) : string :=
  match tokens with
  | [] => EmptyString
  | [token] => token
  | token :: rest => token ++ String sep (join sep rest)
  end.

(** Following keys down nested dictionaries, as a reader of the value
    would: [Dictionary::Get] at each level. *)
Fixpoint get_path (keys : list string) (current : Value) : option Value :=
  match keys with
  | [] => Some current
  | key :: rest =>
      match current with
      | Dict d =>
          match d !! key with
          | Some child => get_path rest child
          | None => None
          end
      | _ => None
      end
  end.

(** ** Looking objects up *)

(** The object registered under a type and a name, if both exist:
    [ConfigType::GetByName] followed by [GetObject]. *)
Definition lookup_object (reg : Snapshot.Registry) (type name : string)
  : option ConfigObject.t :=
  match Snapshot.GetByName reg type with
  | Some dt => Snapshot.GetObject dt name
  | None => None
  end.

Definition all_objects (reg : Snapshot.Registry) : list ConfigObject.t :=
  flat_map Snapshot.Objects reg.

(** What the final loop of [RestoreObjects] does to one object, and the
    calls it makes for the objects of one type. *)
Definition mark_loaded (o : ConfigObject.t) : ConfigObject.t :=
  if ConfigObject.StateLoaded o then o else ConfigObject.SetStateLoaded o true.

Definition late_calls (dt : Snapshot.ConfigType) : list Snapshot.Call :=
  flat_map (fun o =>
    if ConfigObject.StateLoaded o then []
    else [Snapshot.CallOnStateLoaded (Snapshot.ConfigTypeName dt) (ConfigObject.Name o)])
    (Snapshot.Objects dt).

(** A codec that decodes the record of [h1] to what [DumpObjects] encoded. *)
Definition faithful_codec : Codec ConfigObject.t :=
  MkCodec
    (Render Sample.codec)
    (LexicalCast Sample.codec)
    (JsonEncode Sample.codec)
    (fun message =>
       Some (Dict (Set_ (Set_ (Set_ ∅ "type" (Str "Host")) "name" (Str message))
                     "update" (Dict {[ "last_check" := Number 0 ]}))))
    (SHA256 Sample.codec)
    (Serialize Sample.codec)
    (Deserialize Sample.codec).

(** ** What a request names *)

(** A checkable the cluster has: the host exists, and the service is one
    of the host's. *)
Definition knows (K : ApiEvents.Cluster) (checkable : ApiEvents.Checkable) : Prop :=
  match checkable with
  | ApiEvents.HostRef host => is_Some (ApiEvents.Hosts K !! host)
  | ApiEvents.ServiceRef host service =>
      exists services, ApiEvents.Hosts K !! host = Some services /\ service ∈ services
  end.

(** ** What a message refers to, and what is done with it *)

Section Claimed.
Import ApiEvents.
Context {O : Type} (K : Cluster) (C : Codec O).







End Claimed.

(** The service an [ExecuteCommand] request names: the [service] member
    when it is there and not empty. *)
Definition requested_service (params : Dictionary) : option Value :=
  match params !! "service" with
  | Some Empty | None => None
  | Some service => Some service
  end.

(** A response of [ExecuteCommandAPIHandler]: a check result in state
    Unknown for the requested host and service, sent to [requester]. *)
Definition answers_request {O : Type} (C : Codec O) (requester : option ApiEvents.Endpoint)
    (params : DictionaryPtr) (e : ApiEvents.Effect) : Prop :=
  match e with
  | ApiEvents.SyncSendMessage destination message =>
      requester = Some destination /\
      exists p cr,
        params = Some p /\
        ApiEvents.State cr = ApiEvents.ServiceUnknown /\
        message =
          ApiEvents.MkMessage "2.0" "event::CheckResult"
            (ApiEvents.CheckResultParams (ToString C (Get p "host"))
               (requested_service p) cr)
  | _ => True
  end.

(** ** Characters of the config writer *)

(** The seven characters [EscapeIcingaString] escapes, and the five of
    them that are control characters. *)
Definition special (c : ascii) : Prop :=
  c = ConfigWriter.backslash \/ c = ConfigWriter.newline \/ c = ConfigWriter.tab \/
  c = ConfigWriter.carriage_return \/ c = ConfigWriter.backspace \/
  c = ConfigWriter.form_feed \/ c = ConfigWriter.quote.

Definition control (c : ascii) : Prop :=
  c = ConfigWriter.newline \/ c = ConfigWriter.tab \/ c = ConfigWriter.carriage_return \/
  c = ConfigWriter.backspace \/ c = ConfigWriter.form_feed.

(** * Properties *)

(** Closed goals are settled by evaluation, one conjunct at a time. *)
Ltac conjuncts := repeat match goal with |- _ /\ _ => split end.
Ltac evaluate := cbv zeta; conjuncts; vm_compute; reflexivity.

(** ** Attribute modification *)

Section ModifyAttributeFacts.
Import ConfigObject.

Lemma round_double_exact x : Z.abs x < 2 ^ 53 -> round_double x = x.
Proof. intros H. unfold round_double. rewrite bool_decide_true by exact H. reflexivity. Qed.

Lemma double_add_exact x : - 2 ^ 53 < x -> x + 1 < 2 ^ 53 -> double_add x 1 = x + 1.
Proof. intros Hlo Hhi. apply round_double_exact. lia. Qed.

Lemma index_of_range name fs i : index_of name fs i = -1 \/ i <= index_of name fs i.
Proof.
  revert i. induction fs as [| f fs IH]; intros i; simpl; [left; reflexivity |].
  case_bool_decide; [right; lia |].
  destruct (IH (i + 1)) as [-> | Hle]; [left; reflexivity | right; lia].
Qed.

(** The id a name resolves to: none, that of one of the two attributes of
    the base class, or that of a field of the class itself. *)
Lemma GetFieldId_cases type name :
  GetFieldId type name = -1 \/
  (GetFieldId type name = name_id /\ name = "__name") \/
  (GetFieldId type name = version_id /\ name = "version") \/
  offset <= GetFieldId type name.
Proof.
  unfold GetFieldId. cbv zeta. case_bool_decide as Hown.
  - simpl. repeat case_bool_decide; subst; auto.
  - destruct (index_of_range name (Fields type) offset) as [Hnone | Hle];
      [contradiction | auto].
Qed.

Lemma GetFieldId_version type name :
  name <> "version" -> GetFieldId type name <> version_id.
Proof.
  intros Hne. destruct (GetFieldId_cases type name) as [H | [[H _] | [[_ H] | H]]];
    unfold name_id, version_id, offset in *; try lia. contradiction.
Qed.

Lemma track_FieldValues o field attr old :
  FieldValues (track o field attr old) = FieldValues o.
Proof. unfold track. repeat case_match; reflexivity. Qed.

Lemma track_Version o field attr old :
  Version (track o field attr old) = Version o.
Proof. unfold track. repeat case_match; reflexivity. Qed.


Lemma track_ReflectionType o field attr old :
  ReflectionType (track o field attr old) = ReflectionType o.
Proof. unfold track. repeat case_match; reflexivity. Qed.


Lemma Contains_true (d : Dictionary) key : Contains d key = true <-> is_Some (d !! key).
Proof. unfold Contains. apply bool_decide_eq_true. Qed.

Lemma Contains_false (d : Dictionary) key : Contains d key = false <-> d !! key = None.
Proof.
  unfold Contains. rewrite bool_decide_eq_false, eq_None_not_Some. reflexivity.
Qed.


(** [SetField] by cases: the name, the version, or a field of the class
    itself, whose index is in range. *)
Lemma SetField_Ok o fid v o' :
  SetField o fid v = Ok o' ->
  (fid = name_id /\ o' = SetName o (AsString (TypeCasts (ReflectionType o)) v)) \/
  (fid = version_id /\
   exists version,
     AsDouble (TypeCasts (ReflectionType o)) v = inl version /\
     o' = SetVersion o version) \/
  (offset <= fid /\ (Z.to_nat (fid - offset) < length (FieldValues o))%nat /\
   o' = SetFieldValues o (<[Z.to_nat (fid - offset) := v]> (FieldValues o))).
Proof.
  unfold SetField. cbv zeta. intros H.
  case_bool_decide as Hn; [injection H as <-; auto |].
  case_bool_decide as Hv.
  { destruct (AsDouble _ v) as [version|e] eqn:Hd; [| discriminate].
    injection H as <-. right. left. eauto. }
  destruct (bool_decide (offset <= fid)) eqn:H0; simpl in H; [| discriminate].
  destruct (bool_decide (Z.to_nat (fid - offset) < length (FieldValues o))%nat) eqn:H1;
    [| discriminate].
  apply bool_decide_eq_true in H0, H1. injection H as <-. auto.
Qed.

Lemma SetField_Throw o fid v e o' : SetField o fid v = Throw e o' -> o' = o.
Proof.
  unfold SetField. cbv zeta. intros H.
  repeat case_match; try discriminate; congruence.
Qed.

(** What [SetField] leaves alone. *)
Lemma SetField_frame o fid v o' :
  SetField o fid v = Ok o' ->
  ReflectionType o' = ReflectionType o /\
  OriginalAttributes o' = OriginalAttributes o /\
  length (FieldValues o') = length (FieldValues o) /\
  (fid <> name_id -> Name o' = Name o) /\
  (fid <> version_id -> Version o' = Version o).
Proof.
  intros H. apply SetField_Ok in H
    as [[-> ->] | [[-> (version & _ & ->)] | (_ & _ & ->)]]; simpl;
    rewrite ?length_insert; repeat split; congruence.
Qed.


(** Writing back what was read from a field of an object of the same
    shape gives an object whose field reads the same. *)
Lemma SetField_restores o o2 fid old :
  GetField o fid = Some old ->
  length (FieldValues o2) = length (FieldValues o) ->
  exists o3,
    SetField o2 fid old = Ok o3 /\
    GetField o3 fid = Some old /\
    OriginalAttributes o3 = OriginalAttributes o2.
Proof.
  unfold GetField, SetField. cbv zeta. intros H Hlen.
  case_bool_decide as Hn.
  { injection H as <-. eexists. split; [reflexivity |]. auto. }
  case_bool_decide as Hv.
  { injection H as <-. eexists. split; [reflexivity |]. auto. }
  case_bool_decide as Hown; [| discriminate]. simpl.
  apply lookup_lt_Some in H as Hlt. rewrite <- Hlen in Hlt.
  rewrite bool_decide_true by assumption.
  eexists. split; [reflexivity |]. simpl.
  split; [| reflexivity]. apply list_lookup_insert_eq, Hlt.
Qed.

(** What a successful [ModifyAttribute] leaves behind. *)
Lemma ModifyAttribute_Ok o attr value o' :
  ModifyAttribute o attr value = Ok o' ->
  let fid := GetFieldId (ReflectionType o) (hd EmptyString (split dot attr)) in
  exists field old new o2,
    GetFieldInfo (ReflectionType o) fid = Some field /\
    GetField o fid = Some old /\
    proposed (split dot attr) old value = Some new /\
    ValidateField (ReflectionType o) fid new = None /\
    SetField (track o field attr old) fid new = Ok o2 /\
    o' = SetVersion o2 (double_add (Version o2) 1).
Proof.
  intros H fid. unfold ModifyAttribute in H. fold fid in H. cbv zeta in H.
  destruct (GetFieldInfo (ReflectionType o) fid) as [field|]; [| discriminate].
  destruct (GetField o fid) as [old|] eqn:Hold; [| discriminate].
  destruct (proposed (split dot attr) old value) as [new|] eqn:Hnew;
    [| discriminate].
  destruct (ValidateField (ReflectionType o) fid new) eqn:Hv; [discriminate |].
  destruct (SetField (track o field attr old) fid new) as [o2|] eqn:Hs;
    [| discriminate].
  injection H as <-. exists field, old, new, o2. auto 10.
Qed.

(** Every successful [ModifyAttribute] on another attribute than the
    version adds one to the version, in double arithmetic. *)
Lemma ModifyAttribute_bumps_version o attr value o' :
  ModifyAttribute o attr value = Ok o' ->
  hd EmptyString (split dot attr) <> "version" ->
  Version o' = double_add (Version o) 1.
Proof.
  intros H Hne. apply ModifyAttribute_Ok in H. cbv zeta in H.
  destruct H as (field & old & new & o2 & _ & _ & _ & _ & Hset & ->).
  apply SetField_frame in Hset as (_ & _ & _ & _ & Hversion).
  simpl. rewrite Hversion by (apply GetFieldId_version, Hne).
  rewrite track_Version. reflexivity.
Qed.


End ModifyAttributeFacts.

(** C8, as the code has it.  The version is an attribute of the object
    like any other, and a double.  Every successful [ModifyAttribute] on
    another attribute than [version] adds one to it in double arithmetic.
    So for a version above -2^53, a run of N successful calls none of which
    addresses [version], and a sum that stays below 2^53, the version
    afterwards is the version before plus N, and it has strictly
    increased when N is not 0. *)
Theorem ModifyAttribute_version_counter
    (o o' : ConfigObject.t) (calls : list (string * Value)) :
  ConfigObject.ModifyAttributes o calls = Ok o' ->
  Forall (fun call => hd EmptyString (split dot call.1) <> "version") calls ->
  - 2 ^ 53 < ConfigObject.Version o ->
  ConfigObject.Version o + Z.of_nat (length calls) < 2 ^ 53 ->
  ConfigObject.Version o' = ConfigObject.Version o + Z.of_nat (length calls) /\
  (calls <> [] -> ConfigObject.Version o < ConfigObject.Version o') /\
  (forall attr value o1,
     ConfigObject.ModifyAttribute o attr value = Ok o1 ->
     hd EmptyString (split dot attr) <> "version" ->
     ConfigObject.Version o1 = double_add (ConfigObject.Version o) 1).
Proof.
  intros H Hcalls Hlo Hhi.
  assert (ConfigObject.Version o' = ConfigObject.Version o + Z.of_nat (length calls)) as Hn.
  { revert o H Hlo Hhi.
    induction Hcalls as [| [attr value] rest Hattr _ IH]; intros o H Hlo Hhi; simpl in H.
    - injection H as <-. simpl. lia.
    - destruct (ConfigObject.ModifyAttribute o attr value) as [o1|] eqn:H1;
        [| discriminate].
      apply ModifyAttribute_bumps_version in H1; [| exact Hattr].
      simpl length in Hhi. rewrite double_add_exact in H1 by lia.
      apply IH in H; [| lia | lia].
      rewrite H, H1. simpl length. lia. }
  split; [exact Hn |]. split.
  - intros Hne. rewrite Hn. destruct calls; [congruence | simpl; lia].
  - intros attr value o1. apply ModifyAttribute_bumps_version.
Qed.


(** ** Restoring an attribute *)

Section RestoreAttributeFacts.
Import ConfigObject.

Lemma track_OriginalAttributes o field attr old :
  Z.land (Attributes field) FAConfig <> 0 ->
  OriginalAttributes (track o field attr old) =
    Some (let d := default ∅ (OriginalAttributes o) in
          if Contains d attr then d else <[attr := old]> d).
Proof.
  intros Hcfg. unfold track. rewrite bool_decide_true by assumption.
  simpl. destruct (Contains _ attr); reflexivity.
Qed.

(** A successful modification of a configuration field keeps the type and
    the number of fields, and tracks the path. *)
Lemma ModifyAttribute_shape o o' attr value field :
  GetFieldInfo (ReflectionType o)
    (GetFieldId (ReflectionType o) (hd EmptyString (split dot attr))) = Some field ->
  Z.land (Attributes field) FAConfig <> 0 ->
  ModifyAttribute o attr value = Ok o' ->
  ReflectionType o' = ReflectionType o /\
  length (FieldValues o') = length (FieldValues o) /\
  exists old,
    GetField o (GetFieldId (ReflectionType o) (hd EmptyString (split dot attr)))
      = Some old /\
    OriginalAttributes o' =
      Some (let d := default ∅ (OriginalAttributes o) in
            if Contains d attr then d else <[attr := old]> d).
Proof.
  intros Hinfo Hcfg H. apply ModifyAttribute_Ok in H. cbv zeta in H.
  destruct H as (f & old & new & o2 & Hf & Hold & _ & _ & Hset & ->).
  rewrite Hinfo in Hf. injection Hf as <-.
  apply SetField_frame in Hset as (Htype & Horig & Hlen & _). simpl.
  rewrite Htype, Hlen, Horig, track_ReflectionType, track_FieldValues.
  split; [reflexivity |]. split; [reflexivity |].
  exists old. split; [exact Hold |]. apply track_OriginalAttributes, Hcfg.
Qed.

(** For a path without a dot, tracked from the first of two modifications
    on, [RestoreAttribute] puts back the value the field had before the
    first modification and forgets the path. *)
Lemma RestoreAttribute_top_level o o1 o2 attr v1 v2 field :
  split dot attr = [attr] ->
  GetFieldInfo (ReflectionType o) (GetFieldId (ReflectionType o) attr) = Some field ->
  Z.land (Attributes field) FAConfig <> 0 ->
  IsAttributeModified o attr = false ->
  ModifyAttribute o attr v1 = Ok o1 ->
  ModifyAttribute o1 attr v2 = Ok o2 ->
  exists o3,
    RestoreAttribute o2 attr = Ok o3 /\
    GetField o3 (GetFieldId (ReflectionType o) attr) =
      GetField o (GetFieldId (ReflectionType o) attr) /\
    IsAttributeModified o3 attr = false.
Proof.
  intros Htok Hinfo Hcfg Hnot H1 H2.
  apply (ModifyAttribute_shape _ _ _ _ field) in H1;
    [| rewrite Htok; exact Hinfo | exact Hcfg].
  rewrite Htok in H1. simpl in H1.
  destruct H1 as (Ht1 & Hl1 & old & Hold & Hoa1).
  apply (ModifyAttribute_shape _ _ _ _ field) in H2;
    [| rewrite Htok, Ht1; exact Hinfo | exact Hcfg].
  destruct H2 as (Ht2 & Hl2 & old1 & _ & Hoa2).
  set (fid := GetFieldId (ReflectionType o) attr) in *.
  assert (Contains (default ∅ (OriginalAttributes o)) attr = false) as Hc.
  { unfold IsAttributeModified in Hnot.
    destruct (OriginalAttributes o); simpl;
      [assumption | apply Contains_false, lookup_empty]. }
  rewrite Hc in Hoa1.
  set (d := <[attr := old]> (default ∅ (OriginalAttributes o))) in *.
  assert (Contains d attr = true) as Hd
    by (apply Contains_true; unfold d; rewrite lookup_insert_eq; eauto).
  rewrite Hoa1 in Hoa2. simpl in Hoa2. rewrite Hd in Hoa2.
  destruct (SetField_restores o o2 fid old Hold) as (o3 & Hset & Hread & Horig);
    [congruence |].
  unfold RestoreAttribute. rewrite Hoa2, Hd, Ht2, Ht1. fold fid.
  assert (Get d attr = old) as ->
    by (unfold Get, d; rewrite lookup_insert_eq; reflexivity).
  rewrite Hset.
  eexists. split; [reflexivity |]. split.
  - simpl. etrans; [| symmetry; exact Hold]. etrans; [| exact Hread]. reflexivity.
  - unfold IsAttributeModified. simpl. apply Contains_false.
    unfold Remove. apply lookup_delete_eq.
Qed.

End RestoreAttributeFacts.

(** C3: two modifications of the nested path [vars.os] on the host [h1],
    then [RestoreAttribute] of that path.  Both modifications succeed and
    record the path with the value [vars] had before the first one, the
    empty dictionary.  [RestoreAttribute] then asks the type for the field
    named by the whole path, not by its head token; no field is called
    [vars.os], setting it throws, [vars] keeps the modified value and the
    path stays tracked. *)
Theorem RestoreAttribute_nested_path_not_restored :
  let o1 := state_of (ConfigObject.ModifyAttribute Sample.h1 "vars.os" (Str "linux")) in
  let o2 := state_of (ConfigObject.ModifyAttribute o1 "vars.os" (Str "bsd")) in
  let o3 := state_of (ConfigObject.RestoreAttribute o2 "vars.os") in
  let vars := ConfigObject.GetFieldId Sample.HostType "vars" in
  ConfigObject.ModifyAttributes Sample.h1
    [("vars.os", Str "linux"); ("vars.os", Str "bsd")] = Ok o2 /\
  ConfigObject.GetField Sample.h1 vars = Some (Dict ∅) /\
  ConfigObject.OriginalAttributes o2 = Some {[ "vars.os" := Dict ∅ ]} /\
  ConfigObject.GetFieldId Sample.HostType "vars.os" = -1 /\
  ConfigObject.RestoreAttribute o2 "vars.os" =
    Throw (RuntimeError "Invalid field ID.") o3 /\
  ConfigObject.GetField o3 vars = Some (Dict {[ "os" := Str "bsd" ]}) /\
  ConfigObject.IsAttributeModified o3 "vars.os" = true.
Proof. evaluate. Qed.

(** Witness for C8: two successful modifications of [h1]. *)
Lemma ModifyAttribute_version_counter_witness :
  let calls := [("vars.os", Str "linux"); ("check_interval", Number 60)] in
  let o' := state_of (ConfigObject.ModifyAttributes Sample.h1 calls) in
  ConfigObject.ModifyAttributes Sample.h1 calls = Ok o' /\
  ConfigObject.Version o' = ConfigObject.Version Sample.h1 + 2.
Proof.
  intros calls o'.
  assert (ConfigObject.ModifyAttributes Sample.h1 calls = Ok o') as H
    by (vm_compute; reflexivity).
  assert (Forall (fun call => hd EmptyString (split dot call.1) <> "version") calls)
    as Hcalls by (repeat constructor; vm_compute; discriminate).
  assert (- 2 ^ 53 < ConfigObject.Version Sample.h1) as Hlo by (vm_compute; reflexivity).
  assert (ConfigObject.Version Sample.h1 + Z.of_nat (length calls) < 2 ^ 53) as Hhi
    by (vm_compute; reflexivity).
  split; [exact H |].
  exact (proj1 (ModifyAttribute_version_counter Sample.h1 o' calls H Hcalls Hlo Hhi)).
Defined.

(** C8 as claimed fails in two ways.  [ModifyAttribute] on the attribute
    [version] itself sets the counter and then adds one: from version 0
    the call with the value 41 ends at 42, not at 1.  And at 2^53 the sum
    with one is not a double: it is rounded back to 2^53, so a successful
    call leaves the version as it was. *)
Lemma ModifyAttribute_version_is_a_double_attribute :
  let o1 := state_of (ConfigObject.ModifyAttribute Sample.h1 "version" (Number 41)) in
  let big := ConfigObject.SetVersion Sample.h1 (2 ^ 53) in
  let o2 := state_of (ConfigObject.ModifyAttribute big "check_interval" (Number 60)) in
  ConfigObject.Version Sample.h1 = 0 /\
  ConfigObject.ModifyAttribute Sample.h1 "version" (Number 41) = Ok o1 /\
  ConfigObject.Version o1 = 42 /\
  ConfigObject.ModifyAttribute big "check_interval" (Number 60) = Ok o2 /\
  ConfigObject.Version o2 = ConfigObject.Version big.
Proof. evaluate. Qed.


(** ** State snapshot *)

Section SnapshotFacts.
Import ConfigObject Snapshot.

Lemma append_empty (s : string) : s ++ "" = s.
Proof.
  induction s as [| c s IH]; [reflexivity |].
  change (String c (s ++ "") = String c s). rewrite IH. reflexivity.
Qed.

Lemma temp_name_differs (filename : string) : filename ++ ".tmp" <> filename.
Proof.
  intros H. rewrite <- (append_empty filename) in H at 2.
  apply (inj (String.append filename)) in H. discriminate.
Qed.

Lemma find_update_first {A : Type} (p : A -> bool) (f : A -> A) (l : list A) x :
  find p l = Some x -> p (f x) = true ->
  find p (update_first p f l) = Some (f x).
Proof.
  intros Hfind Hp. induction l as [| y l IH]; simpl in *; [discriminate |].
  destruct (p y) eqn:Hy.
  - injection Hfind as ->. simpl. rewrite Hp. reflexivity.
  - simpl. rewrite Hy. apply IH, Hfind.
Qed.

Lemma find_name_true {A : Type} (name : A -> string) (n : string) (l : list A) x :
  find (fun y => bool_decide (name y = n)) l = Some x -> name x = n.
Proof.
  intros H. apply find_some in H as [_ H]. apply bool_decide_eq_true in H. exact H.
Qed.

(** After [store] the object found under (type, name) is the stored one. *)
Lemma GetObject_store reg type name dt o o' :
  GetByName reg type = Some dt ->
  GetObject dt name = Some o ->
  Name o' = name ->
  exists dt',
    GetByName (store reg type name o') type = Some dt' /\
    GetObject dt' name = Some o'.
Proof.
  intros Hdt Ho Hname. unfold GetByName, store in *.
  eexists. split.
  - apply (find_update_first _ _ _ dt Hdt). simpl.
    apply bool_decide_eq_true. apply (find_name_true ConfigTypeName _ _ _ Hdt).
  - unfold GetObject in *. simpl.
    apply (find_update_first _ (fun _ => o') _ o Ho).
    apply bool_decide_eq_true, Hname.
Qed.

End SnapshotFacts.

(** C2, as the code has it: for a record whose (type, name) resolves to a
    registered object that is not active, [RestoreObject] calls
    [Deserialize] on that object with [safe = false], the mode for trusted
    input, and with the caller's attribute mask; when that returns it calls
    [OnStateLoaded] and sets state-loaded on the object, which is then the
    object found under (type, name), state-loaded. *)
Theorem RestoreObject_deserializes_unsafe
    (C : Codec ConfigObject.t) (message : string) (attributeTypes : Z)
    (w : Snapshot.World) (record : Dictionary) (dt : Snapshot.ConfigType)
    (object object' : ConfigObject.t) (update : DictionaryPtr) :
  let type := ToString C (Get record "type") in
  let name := ToString C (Get record "name") in
  JsonDecode C message = Some (Dict record) ->
  Snapshot.GetByName (Snapshot.registry w) type = Some dt ->
  Snapshot.GetObject dt name = Some object ->
  ConfigObject.Active object = false ->
  ToDictionaryPtr (Get record "update") = Converted update ->
  Deserialize C object update false attributeTypes = Ok object' ->
  exists w',
    Snapshot.RestoreObject C message attributeTypes w = Ok w' /\
    Snapshot.calls w' =
      (Snapshot.calls w ++
         [Snapshot.CallDeserialize type name update false attributeTypes;
          Snapshot.CallOnStateLoaded type name])%list /\
    Snapshot.registry w' =
      Snapshot.store (Snapshot.registry w) type name
        (ConfigObject.SetStateLoaded object' true) /\
    (ConfigObject.Name object' = name ->
     exists dt',
       Snapshot.GetByName (Snapshot.registry w') type = Some dt' /\
       Snapshot.GetObject dt' name = Some (ConfigObject.SetStateLoaded object' true) /\
       ConfigObject.StateLoaded (ConfigObject.SetStateLoaded object' true) = true).
Proof.
  intros type name Hjson Hdt Hobj Hact Hupd Hdes.
  unfold Snapshot.RestoreObject. rewrite Hjson. simpl.
  fold type. rewrite Hdt. fold name. rewrite Hobj, Hact, Hupd, Hdes.
  eexists. split; [reflexivity |]. simpl.
  split; [rewrite <- app_assoc; reflexivity |].
  split; [reflexivity |].
  intros Hname.
  destruct (GetObject_store (Snapshot.registry w) type name dt object
              (ConfigObject.SetStateLoaded object' true) Hdt Hobj Hname)
    as (dt' & H1 & H2).
  exists dt'. auto.
Qed.

(** Witness for C2: the record of [h1] restored into the sample world. *)
Lemma RestoreObject_deserializes_unsafe_witness :
  exists w',
    Snapshot.RestoreObject Sample.codec "h1" 6 Sample.world = Ok w' /\
    Snapshot.calls w' =
      [Snapshot.CallDeserialize "Host" "h1" (Some {[ "last_check" := Number 42 ]}) false 6;
       Snapshot.CallOnStateLoaded "Host" "h1"].
Proof.
  destruct (RestoreObject_deserializes_unsafe Sample.codec "h1" 6 Sample.world
              (Set_ (Set_ (Set_ ∅ "type" (Str "Host")) "name" (Str "h1"))
                 "update" (Dict {[ "last_check" := Number 42 ]}))
              (Snapshot.MkConfigType "Host" [Sample.h1]) Sample.h1
              (ConfigObject.SetFieldValues Sample.h1 [Dict ∅; Number 300; Number 42])
              (Some {[ "last_check" := Number 42 ]}))
    as (w' & Hrun & Hcalls & _); try (vm_compute; reflexivity).
  exists w'. split; [exact Hrun |]. rewrite Hcalls. vm_compute. reflexivity.
Defined.

(** C2 as claimed fails: restoring the record of [h1] calls [Deserialize]
    with [safe = false]; no call with [safe = true] is made. *)
Lemma RestoreObject_does_not_use_safe_mode :
  let w' := state_of (Snapshot.RestoreObject Sample.codec "h1" 6 Sample.world) in
  Snapshot.GetByName (Snapshot.registry Sample.world) "Host"
    = Some (Snapshot.MkConfigType "Host" [Sample.h1]) /\
  ConfigObject.Active Sample.h1 = false /\
  Snapshot.calls w' =
    [Snapshot.CallDeserialize "Host" "h1" (Some {[ "last_check" := Number 42 ]}) false 6;
     Snapshot.CallOnStateLoaded "Host" "h1"] /\
  ~ (exists update mask,
       In (Snapshot.CallDeserialize "Host" "h1" update true mask) (Snapshot.calls w')).
Proof.
  cbv zeta. conjuncts; try (vm_compute; reflexivity).
  assert (Snapshot.calls
            (state_of (Snapshot.RestoreObject Sample.codec "h1" 6 Sample.world)) =
          [Snapshot.CallDeserialize "Host" "h1" (Some {[ "last_check" := Number 42 ]}) false 6;
           Snapshot.CallOnStateLoaded "Host" "h1"]) as ->
    by (vm_compute; reflexivity).
  intros (update & mask & [H | [H | []]]); discriminate.
Qed.

(** The sample snapshot round trip: the state of [h1] is dumped, and
    restored into the registry; the restore reads the record, deserializes
    it into [h1] and marks it state-loaded, with one [OnStateLoaded]. *)
Example dump_then_restore :
  let dumped :=
    state_of (Snapshot.DumpObjects Sample.posix Sample.codec "icinga2.state" 6
                Sample.fresh_world) in
  let restored :=
    state_of (Snapshot.RestoreObjects Sample.codec "icinga2.state" 6 dumped) in
  Snapshot.files dumped = {[ "icinga2.state" := ["h1"] ]} /\
  Snapshot.registry restored =
    [Snapshot.MkConfigType "Host"
       [ConfigObject.MkObject Sample.HostType "h1" [Dict ∅; Number 300; Number 42]
          0 None None false true]] /\
  Snapshot.calls restored =
    [Snapshot.CallDeserialize "Host" "h1" (Some {[ "last_check" := Number 42 ]}) false 6;
     Snapshot.CallOnStateLoaded "Host" "h1"].
Proof. evaluate. Qed.

(** C5, as the code has it: [RestoreObjects] on a path that does not exist
    returns normally and leaves every object, file and call record as it
    was; and a record that names an unknown type or an unknown object is
    passed over by [RestoreObject] without an error and without a change. *)
Theorem RestoreObjects_absent_file_returns
    (C : Codec ConfigObject.t) (filename : string) (attributeTypes : Z)
    (w : Snapshot.World) :
  (Snapshot.files w !! filename = None ->
   Snapshot.RestoreObjects C filename attributeTypes w = Ok w) /\
  (forall message record,
     JsonDecode C message = Some (Dict record) ->
     match Snapshot.GetByName (Snapshot.registry w) (ToString C (Get record "type")) with
     | None => True
     | Some dt => Snapshot.GetObject dt (ToString C (Get record "name")) = None
     end ->
     Snapshot.RestoreObject C message attributeTypes w = Ok w).
Proof.
  split.
  - intros H. unfold Snapshot.RestoreObjects, PathExists. rewrite H.
    rewrite bool_decide_false by (intros [? ?]; discriminate). reflexivity.
  - intros message record Hjson Hunknown. unfold Snapshot.RestoreObject.
    rewrite Hjson. simpl.
    destruct (Snapshot.GetByName _ _) as [dt|]; [| reflexivity].
    rewrite Hunknown. reflexivity.
Qed.

(** Witness for C5: the first start, with no state file, and a record for
    a host that is not configured. *)
Lemma RestoreObjects_absent_file_returns_witness :
  Snapshot.RestoreObjects Sample.codec "icinga2.state" 6 Sample.fresh_world
    = Ok Sample.fresh_world /\
  Snapshot.RestoreObject Sample.codec "h9" 6 Sample.world = Ok Sample.world.
Proof.
  destruct (RestoreObjects_absent_file_returns Sample.codec "icinga2.state" 6
              Sample.fresh_world) as [Habsent _].
  destruct (RestoreObjects_absent_file_returns Sample.codec "icinga2.state" 6
              Sample.world) as [_ Hrecord].
  split.
  - apply Habsent. vm_compute. reflexivity.
  - apply (Hrecord "h9"
             (Set_ (Set_ (Set_ ∅ "type" (Str "Host")) "name" (Str "h9"))
                "update" (Dict {[ "last_check" := Number 42 ]}))).
    + vm_compute. reflexivity.
    + vm_compute. reflexivity.
Defined.

(** C5 as claimed fails: with no file at the path, [RestoreObjects] does
    not raise; it returns, and the world is untouched. *)
Lemma RestoreObjects_absent_file_does_not_raise :
  Snapshot.files Sample.fresh_world !! "icinga2.state" = None /\
  succeeded (Snapshot.RestoreObjects Sample.codec "icinga2.state" 6 Sample.fresh_world)
    = true /\
  Snapshot.RestoreObjects Sample.codec "icinga2.state" 6 Sample.fresh_world
    = Ok Sample.fresh_world.
Proof. evaluate. Qed.

(** C6, as the code has it.  When the temporary file can be opened:
    - if the rename succeeds, the final path holds all records and the
      temporary file is gone;
    - if the rename fails, [DumpObjects] throws a POSIX error that names
      [rename], the errno and the temporary file, and all records are in
      the temporary file by then;
    - in a build without [_WIN32] the final path then holds what it held
      before the call. *)
Theorem DumpObjects_rename
    (P : Platform) (C : Codec ConfigObject.t) (filename : string)
    (attributeTypes : Z) (w : Snapshot.World) :
  OpenFails P (filename ++ ".tmp") = false ->
  let all := Snapshot.records C (Snapshot.registry w) attributeTypes in
  (RenameFault P (filename ++ ".tmp") filename = None ->
   exists w',
     Snapshot.DumpObjects P C filename attributeTypes w = Ok w' /\
     Snapshot.files w' !! filename = Some all /\
     Snapshot.files w' !! (filename ++ ".tmp") = None) /\
  (forall errno,
     RenameFault P (filename ++ ".tmp") filename = Some errno ->
     exists w',
       Snapshot.DumpObjects P C filename attributeTypes w
         = Throw (PosixError "rename" errno (filename ++ ".tmp")) w' /\
       Snapshot.files w' !! (filename ++ ".tmp") = Some all /\
       (Win32 P = false ->
        Snapshot.files w' !! filename = Snapshot.files w !! filename)).
Proof.
  intros Hopen all. pose proof (temp_name_differs filename) as Hne.
  unfold Snapshot.DumpObjects, rename, unlink_on_win32, unlink. rewrite Hopen.
  split.
  - intros Hok. rewrite Hok.
    destruct (Win32 P); simpl.
    + rewrite lookup_delete_ne, lookup_insert_eq by congruence.
      eexists. split; [reflexivity |]. simpl.
      rewrite lookup_insert_eq, lookup_insert_ne, lookup_delete_eq by congruence.
      auto.
    + rewrite lookup_insert_eq.
      eexists. split; [reflexivity |]. simpl.
      rewrite lookup_insert_eq, lookup_insert_ne, lookup_delete_eq by congruence.
      auto.
  - intros errno Hfail. rewrite Hfail.
    eexists. split; [reflexivity |]. simpl. split.
    + destruct (Win32 P).
      * rewrite lookup_delete_ne, lookup_insert_eq by congruence. reflexivity.
      * apply lookup_insert_eq.
    + intros ->. rewrite lookup_insert_ne by congruence. reflexivity.
Qed.

(** Witness for C6: a POSIX build on which the rename is refused. *)
Lemma DumpObjects_rename_witness :
  exists w',
    Snapshot.DumpObjects Sample.posix_rename_refused Sample.codec "icinga2.state" 6
      Sample.world
      = Throw (PosixError "rename" Sample.EACCES "icinga2.state.tmp") w' /\
    Snapshot.files w' !! "icinga2.state.tmp" = Some ["h1"] /\
    Snapshot.files w' !! "icinga2.state" = Some ["h1"].
Proof.
  assert (OpenFails Sample.posix_rename_refused ("icinga2.state" ++ ".tmp") = false)
    as Hopen by reflexivity.
  destruct (DumpObjects_rename Sample.posix_rename_refused Sample.codec
              "icinga2.state" 6 Sample.world Hopen) as [_ Hfail].
  destruct (Hfail Sample.EACCES eq_refl) as (w' & Hrun & Htmp & Hkept).
  exists w'. split; [exact Hrun |]. split.
  - etrans; [exact Htmp | vm_compute; reflexivity].
  - etrans; [exact (Hkept eq_refl) | vm_compute; reflexivity].
Defined.

(** C6 as claimed fails in a build with [_WIN32]: the final path is
    unlinked before the rename, so when the rename is refused the snapshot
    that was there is gone. *)
Lemma DumpObjects_win32_rename_failure_loses_snapshot :
  let r :=
    Snapshot.DumpObjects Sample.win32_rename_refused Sample.codec "icinga2.state" 6
      Sample.world in
  Snapshot.files Sample.world !! "icinga2.state" = Some ["h1"] /\
  succeeded r = false /\
  Snapshot.files (state_of r) !! "icinga2.state" = None.
Proof. evaluate. Qed.

(** ** Inbound events *)

Section HandlerFacts.
Import ApiEvents.
Context {O : Type} (K : Cluster) (C : Codec O) (P : Platform).







(** With no endpoint behind the client every handler but the one for
    the repository logs the discard and returns. *)
Lemma no_endpoint_is_discarded m origin params fs :
  m <> event_UpdateRepository ->
  ClientEndpoint (FromClient origin) = None ->
  exists message,
    ApiFunction K C P m origin params fs
      = (returned [Log LogNotice "ApiEvents" message], fs).
Proof.
  intros Hm Hnone.
  destruct m; try contradiction; cbn [ApiFunction];
    unfold CheckResultAPIHandler, NextCheckChangedAPIHandler,
      NextNotificationChangedAPIHandler,
      ForceNextCheckChangedAPIHandler, ForceNextNotificationChangedAPIHandler,
      EnableActiveChecksChangedAPIHandler, EnablePassiveChecksChangedAPIHandler,
      EnableNotificationsChangedAPIHandler, EnableFlappingChangedAPIHandler,
      EnableEventHandlerChangedAPIHandler, EnablePerfdataChangedAPIHandler,
      CheckIntervalChangedAPIHandler, RetryIntervalChangedAPIHandler,
      MaxCheckAttemptsChangedAPIHandler, EventCommandChangedAPIHandler,
      CheckCommandChangedAPIHandler, CheckPeriodChangedAPIHandler,
      VarsChangedAPIHandler, CommentAddedAPIHandler, CommentRemovedAPIHandler,
      DowntimeAddedAPIHandler, DowntimeRemovedAPIHandler,
      AcknowledgementSetAPIHandler, AcknowledgementClearedAPIHandler,
      ExecuteCommandAPIHandler;
    rewrite Hnone; eexists; reflexivity.
Qed.

End HandlerFacts.




(** C7: when an [ExecuteCommand] message comes with a sending zone of
    which the local zone is not a child, the handler logs the discard and
    returns: nothing is executed and nothing is sent.  So with a sending
    zone, an execution or a response implies that the local zone is a child
    of it.  What the sending zone may access plays no part: the handler
    does the same under every access relation. *)
Theorem ExecuteCommand_requires_parent_zone {O : Type}
    (K : ApiEvents.Cluster) (C : Codec O)
    (origin : ApiEvents.MessageOrigin) (params : DictionaryPtr)
    (zone : ApiEvents.Zone) :
  ApiEvents.FromZone origin = Some zone ->
  (ApiEvents.IsChildOf K (ApiEvents.LocalZone K) zone = false ->
   ApiEvents.ExecuteCommandAPIHandler K C origin params =
     ApiEvents.returned
       [ApiEvents.discarding "'execute command'" origin ApiEvents.invalid_origin]) /\
  (Exists (fun e => ApiEvents.is_execution e || ApiEvents.is_response e = true)
     (ApiEvents.effects (ApiEvents.ExecuteCommandAPIHandler K C origin params)) ->
   ApiEvents.IsChildOf K (ApiEvents.LocalZone K) zone = true) /\
  (forall access,
     ApiEvents.ExecuteCommandAPIHandler (ApiEvents.with_access K access) C origin params =
     ApiEvents.ExecuteCommandAPIHandler K C origin params).
Proof.
  intros Hzone.
  assert (ApiEvents.IsChildOf K (ApiEvents.LocalZone K) zone = false ->
          ApiEvents.ExecuteCommandAPIHandler K C origin params =
            ApiEvents.returned
              [ApiEvents.discarding "'execute command'" origin ApiEvents.invalid_origin])
    as Hdiscard.
  { intros Hchild. unfold ApiEvents.ExecuteCommandAPIHandler, ApiEvents.not_from_parent.
    rewrite Hzone, Hchild. simpl.
    destruct (ApiEvents.ClientEndpoint (ApiEvents.FromClient origin)); reflexivity. }
  split; [exact Hdiscard |]. split.
  - intros Hex.
    destruct (ApiEvents.IsChildOf K (ApiEvents.LocalZone K) zone) eqn:Hchild;
      [reflexivity |].
    rewrite (Hdiscard eq_refl) in Hex. simpl in Hex.
    apply Exists_cons in Hex as [Hhead | Hnil]; [discriminate |].
    apply Exists_nil in Hnil. contradiction.
  - intros access. reflexivity.
Qed.

(** Witness for C7: the agents' zone is not a parent of the satellite,
    though the command it asks for exists. *)
Lemma ExecuteCommand_requires_parent_zone_witness :
  ApiEvents.ExecuteCommandAPIHandler Sample.cluster Sample.codec Sample.from_agent
    (Some (Sample.run_check "ping4")) =
    ApiEvents.returned
      [ApiEvents.Log ApiEvents.LogNotice "ApiEvents"
         "Discarding 'execute command' message from 'agent1': Invalid endpoint origin (client not allowed)."].
Proof.
  destruct (ExecuteCommand_requires_parent_zone Sample.cluster Sample.codec
              Sample.from_agent (Some (Sample.run_check "ping4")) "agents" eq_refl)
    as (Hdiscard & _).
  rewrite Hdiscard; vm_compute; reflexivity.
Defined.

(** C4, as the code has it.  For a request that passed the origin test, on
    an endpoint with a listener:
    - when the listener refuses commands, the handler logs that and sends
      the requester an Unknown result saying so; nothing is executed;
    - for a check command that does not exist it sends the requester an
      Unknown result saying so; nothing is executed;
    - when the execution of a check command throws, it sends the requester
      an Unknown result with the diagnostic, stamped with the current time;
    - for an event command that does not exist it logs a warning and sends
      nothing; nothing is executed. *)
Theorem ExecuteCommand_failures {O : Type}
    (K : ApiEvents.Cluster) (C : Codec O)
    (origin : ApiEvents.MessageOrigin) (params : Dictionary)
    (sourceEndpoint : ApiEvents.Endpoint) (listener : ApiEvents.ApiListener) :
  ApiEvents.ClientEndpoint (ApiEvents.FromClient origin) = Some sourceEndpoint ->
  ApiEvents.not_from_parent K origin = false ->
  ApiEvents.Listener K = Some listener ->
  let command := ToString C (Get params "command") in
  let command_type := ToString C (Get params "command_type") in
  let run := ApiEvents.ExecuteCommandAPIHandler K C origin (Some params) in
  let answer host cr :=
    ApiEvents.SyncSendMessage sourceEndpoint (ApiEvents.MakeCheckResultMessage C host cr) in
  (ApiEvents.AcceptCommands listener = false ->
   run = ApiEvents.returned
           [ApiEvents.ignoring listener;
            answer (ApiEvents.virtual_host params)
              (ApiEvents.unknown
                 ("Endpoint '" ++ ApiEvents.LocalEndpoint K ++ "' does not accept commands."))]) /\
  (ApiEvents.AcceptCommands listener = true ->
   command_type = "check_command" ->
   command ∉ ApiEvents.CheckCommands K ->
   run = ApiEvents.returned
           [answer (ApiEvents.virtual_host params)
              (ApiEvents.unknown ("Check command '" ++ command ++ "' does not exist."))]) /\
  (forall macros diagnostic,
     ApiEvents.AcceptCommands listener = true ->
     command_type = "check_command" ->
     command ∈ ApiEvents.CheckCommands K ->
     ToDictionaryPtr (Get params "macros") = Converted macros ->
     let host := ApiEvents.prepared_host sourceEndpoint params command_type in
     ApiEvents.RemoteCheck K host macros = Some diagnostic ->
     run = ApiEvents.returned
             [ApiEvents.ExecuteRemoteCheck host macros;
              answer host
                (ApiEvents.unknown_at (ApiEvents.check_failed C host diagnostic)
                   (ApiEvents.GetTime K));
              ApiEvents.Log ApiEvents.LogCritical "checker"
                (ApiEvents.check_failed C host diagnostic)]) /\
  (ApiEvents.AcceptCommands listener = true ->
   command_type = "event_command" ->
   command ∉ ApiEvents.EventCommands K ->
   run = ApiEvents.returned
           [ApiEvents.Log ApiEvents.LogWarning "ApiEvents"
              ("Event command '" ++ command ++ "' does not exist.")]).
Proof.
  intros Hep Hzone Hl command command_type run answer.
  subst run. unfold ApiEvents.ExecuteCommandAPIHandler.
  rewrite Hep, Hzone, Hl. fold command command_type.
  split; [| split; [| split]].
  - intros ->. reflexivity.
  - intros -> Htype Hnone. rewrite Htype. simpl.
    rewrite bool_decide_false by assumption. reflexivity.
  - intros macros diagnostic -> Htype Hsome Hmacros. cbv zeta. intros Hthrows.
    simpl. rewrite Htype in *.
    rewrite bool_decide_true by reflexivity.
    rewrite bool_decide_true by assumption.
    unfold ApiEvents.execute. rewrite Hmacros.
    rewrite bool_decide_true by reflexivity. rewrite Hthrows. reflexivity.
  - intros -> Htype Hnone. rewrite Htype. simpl.
    rewrite bool_decide_false by assumption. reflexivity.
Qed.

(** The refusal and the failed check on the sample satellite. *)
Example ExecuteCommand_refused_and_failed :
  let refusing :=
    ApiEvents.with_listener Sample.cluster (Some (ApiEvents.MkListener "api" false)) in
  let failing :=
    ApiEvents.with_remote_check Sample.cluster (fun _ _ => Some "Timeout.") in
  let answer output schedule :=
    ApiEvents.SyncSendMessage "master1"
      (ApiEvents.MkMessage "2.0" "event::CheckResult"
         (ApiEvents.CheckResultParams "h" None
            (ApiEvents.MkCheckResult ApiEvents.ServiceUnknown output
               schedule schedule schedule schedule))) in
  ApiEvents.ExecuteCommandAPIHandler refusing Sample.codec Sample.from_master
    (Some (Sample.run_check "ping4")) =
    ApiEvents.returned
      [ApiEvents.Log ApiEvents.LogWarning "ApiListener"
         "Ignoring command. 'api' does not accept commands.";
       answer "Endpoint 'sat1' does not accept commands." None] /\
  ApiEvents.ExecuteCommandAPIHandler failing Sample.codec Sample.from_master
    (Some (Sample.run_check "ping4")) =
    ApiEvents.returned
      [ApiEvents.ExecuteRemoteCheck
         (ApiEvents.prepared_host "master1" (Sample.run_check "ping4") "check_command")
         None;
       answer "Exception occured while checking 'h': Timeout." (Some 1446454800);
       ApiEvents.Log ApiEvents.LogCritical "checker"
         "Exception occured while checking 'h': Timeout."].
Proof. evaluate. Qed.

(** Witness for C4: the master asks the satellite for a check command the
    satellite does not have. *)
Lemma ExecuteCommand_failures_witness :
  ApiEvents.ExecuteCommandAPIHandler Sample.cluster Sample.codec Sample.from_master
    (Some (Sample.run_check "nope")) =
    ApiEvents.returned
      [ApiEvents.SyncSendMessage "master1"
         (ApiEvents.MkMessage "2.0" "event::CheckResult"
            (ApiEvents.CheckResultParams "h" None
               (ApiEvents.MkCheckResult ApiEvents.ServiceUnknown
                  "Check command 'nope' does not exist." None None None None)))].
Proof.
  destruct (ExecuteCommand_failures Sample.cluster Sample.codec Sample.from_master
              (Sample.run_check "nope") "master1" (ApiEvents.MkListener "api" true)
              eq_refl eq_refl eq_refl)
    as (_ & Hmissing & _).
  rewrite Hmissing.
  - vm_compute. reflexivity.
  - reflexivity.
  - vm_compute. reflexivity.
  - vm_compute. set_solver.
Defined.

(** C4 as claimed fails for event commands: the request passed the origin
    test and names an event command that does not exist; the handler logs
    a warning, and no response is sent.  It also fails for a request
    without params: the handler has no test for that, and on an endpoint
    that refuses commands it uses the null params for the response, which
    is never sent. *)
Lemma ExecuteCommand_unknown_event_command_is_not_answered :
  let run :=
    ApiEvents.ExecuteCommandAPIHandler Sample.cluster Sample.codec Sample.from_master
      (Some (Sample.run_event "nope")) in
  let refusing :=
    ApiEvents.with_listener Sample.cluster (Some (ApiEvents.MkListener "api" false)) in
  ApiEvents.not_from_parent Sample.cluster Sample.from_master = false /\
  bool_decide ("nope" ∈ ApiEvents.EventCommands Sample.cluster) = false /\
  run = ApiEvents.returned
          [ApiEvents.Log ApiEvents.LogWarning "ApiEvents"
             "Event command 'nope' does not exist."] /\
  existsb ApiEvents.is_response (ApiEvents.effects run) = false /\
  existsb ApiEvents.is_response
    (ApiEvents.effects
       (ApiEvents.ExecuteCommandAPIHandler refusing Sample.codec Sample.from_master None))
    = false.
Proof. evaluate. Qed.

(** C10, as the code has it.  [UpdateRepositoryAPIHandler] never looks at
    the origin.  For every origin, also one whose client has no endpoint
    or a null one, and for params whose [repository] member is a
    dictionary, when the temporary file can be opened:
    - if the rename succeeds, the repository file named by the SHA256 of
      the [endpoint] member holds the JSON encoding of the params and the
      temporary file is gone; the message is relayed to the local zone,
      with the origin as received, when a listener exists, and not relayed
      when there is none;
    - if the rename fails, the handler throws a POSIX error that names
      [rename], the errno and the temporary file, and relays nothing.
    The access relation plays no part.  By contrast every other handler
    discards a message whose client has no endpoint. *)
Theorem UpdateRepository_is_not_authorized {O : Type}
    (K : ApiEvents.Cluster) (C : Codec O) (P : Platform)
    (origin : option ApiEvents.MessageOrigin) (params repository : Dictionary)
    (fs : Files) :
  Get params "repository" = Dict repository ->
  let file := ApiEvents.repository_file K C params in
  OpenFails P (file ++ ".tmp") = false ->
  let run := ApiEvents.UpdateRepositoryAPIHandler K C P origin (Some params) fs in
  (RenameFault P (file ++ ".tmp") file = None ->
   run.2 !! file = Some [JsonEncode C (Dict params)] /\
   run.2 !! (file ++ ".tmp") = None /\
   ApiEvents.escaped run.1 = None /\
   ApiEvents.effects run.1 =
     match ApiEvents.Listener K with
     | Some _ =>
         [ApiEvents.RelayMessage origin (ApiEvents.ScopeZone (ApiEvents.LocalZone K))
            (ApiEvents.MkMessage "2.0" "event::UpdateRepository"
               (ApiEvents.RawParams params))
            true]
     | None => []
     end) /\
  (forall errno,
     RenameFault P (file ++ ".tmp") file = Some errno ->
     run.1 = ApiEvents.raised [] (PosixError "rename" errno (file ++ ".tmp"))) /\
  (forall access,
     ApiEvents.UpdateRepositoryAPIHandler (ApiEvents.with_access K access) C P origin
       (Some params) fs = run) /\
  (forall m sender p fs',
     m <> ApiEvents.event_UpdateRepository ->
     ApiEvents.ClientEndpoint (ApiEvents.FromClient sender) = None ->
     exists message,
       ApiEvents.ApiFunction K C P m sender p fs' =
         (ApiEvents.returned [ApiEvents.Log ApiEvents.LogNotice "ApiEvents" message], fs')).
Proof.
  intros Hrepo file Hopen run.
  pose proof (temp_name_differs file) as Hne.
  assert (unlink_on_win32 P
            (<[file ++ ".tmp" := [JsonEncode C (Dict params)]]> fs) file
            !! (file ++ ".tmp") = Some [JsonEncode C (Dict params)]) as Htmp.
  { unfold unlink_on_win32, unlink. destruct (Win32 P).
    - rewrite lookup_delete_ne, lookup_insert_eq by congruence. reflexivity.
    - apply lookup_insert_eq. }
  split; [| split; [| split]].
  - intros Hrename.
    assert (run =
            (ApiEvents.returned
               match ApiEvents.Listener K with
               | Some _ =>
                   [ApiEvents.RelayMessage origin
                      (ApiEvents.ScopeZone (ApiEvents.LocalZone K))
                      (ApiEvents.MkMessage "2.0" "event::UpdateRepository"
                         (ApiEvents.RawParams params))
                      true]
               | None => []
               end,
             <[file := [JsonEncode C (Dict params)]]>
               (delete (file ++ ".tmp")
                  (unlink_on_win32 P
                     (<[file ++ ".tmp" := [JsonEncode C (Dict params)]]> fs) file))))
      as Hrun.
    { subst run. unfold ApiEvents.UpdateRepositoryAPIHandler.
      rewrite Hrepo. simpl. fold file. rewrite Hopen.
      unfold rename. rewrite Hrename, Htmp.
      destruct (ApiEvents.Listener K); reflexivity. }
    split; [rewrite Hrun; simpl; apply lookup_insert_eq |].
    split; [rewrite Hrun; simpl;
            rewrite lookup_insert_ne, lookup_delete_eq by congruence; reflexivity |].
    split; [rewrite Hrun; reflexivity |].
    rewrite Hrun; reflexivity.
  - intros errno Hrename. subst run. unfold ApiEvents.UpdateRepositoryAPIHandler.
    rewrite Hrepo. simpl. fold file. rewrite Hopen.
    unfold rename. rewrite Hrename. reflexivity.
  - intros access. reflexivity.
  - intros m sender p fs'. apply no_endpoint_is_discarded.
Qed.

(** Witness for C10: a repository update from a client that is no
    endpoint and whose zone may access nothing is written and relayed. *)
Lemma UpdateRepository_is_not_authorized_witness :
  let run :=
    ApiEvents.UpdateRepositoryAPIHandler Sample.cluster Sample.codec Sample.posix
      (Some Sample.from_stranger) (Some Sample.repository) ∅ in
  run.2 !! "/var/lib/icinga2/api/repository/sha256:sat2.repo" = Some ["{}"] /\
  ApiEvents.effects run.1 =
    [ApiEvents.RelayMessage (Some Sample.from_stranger) (ApiEvents.ScopeZone "satellite")
       (ApiEvents.MkMessage "2.0" "event::UpdateRepository"
          (ApiEvents.RawParams Sample.repository))
       true].
Proof.
  intros run.
  assert (Get Sample.repository "repository" = Dict {[ "h" := Arr [Str "ping"] ]}) as Hrepo
    by (vm_compute; reflexivity).
  assert (OpenFails Sample.posix
            (ApiEvents.repository_file Sample.cluster Sample.codec Sample.repository
               ++ ".tmp") = false) as Hopen by reflexivity.
  destruct (UpdateRepository_is_not_authorized Sample.cluster Sample.codec Sample.posix
              (Some Sample.from_stranger) Sample.repository
              {[ "h" := Arr [Str "ping"] ]} ∅ Hrepo Hopen)
    as (Hwritten & _).
  destruct (Hwritten eq_refl) as (Hfile & _ & _ & Hrelay).
  split.
  - etrans; [exact Hfile | vm_compute; reflexivity].
  - exact Hrelay.
Defined.

(** C10 as claimed fails on an endpoint without a listener: the repository
    file is written, and nothing is relayed. *)
Lemma UpdateRepository_without_listener_is_not_relayed :
  let run :=
    ApiEvents.UpdateRepositoryAPIHandler
      (ApiEvents.with_listener Sample.cluster None) Sample.codec Sample.posix
      (Some Sample.from_master) (Some Sample.repository) ∅ in
  IsDictionary (Get Sample.repository "repository") = true /\
  run.2 !! "/var/lib/icinga2/api/repository/sha256:sat2.repo" = Some ["{}"] /\
  run.1 = ApiEvents.returned [].
Proof. evaluate. Qed.

(** * Further properties *)

(** ** Paths *)

Lemma split_nonempty sep s : split sep s <> [].
Proof.
  destruct s as [| c s]; simpl; [discriminate |].
  case_bool_decide; [discriminate |]. destruct (split sep s); discriminate.
Qed.

(** X1: splitting an attribute path at the dots loses nothing: there is
    always at least one token, no token contains a dot, and the tokens
    joined with dots are the path again. *)
Theorem split_join (s : string) :
  split dot s <> [] /\
  Forall (fun token => ~ In dot (String.list_ascii_of_string token)) (split dot s) /\
  join dot (split dot s) = s.
Proof.
  split; [apply split_nonempty |].
  induction s as [| c s [IHdots IHjoin]]; simpl.
  - split; [repeat constructor; simpl; tauto | reflexivity].
  - pose proof (split_nonempty dot s) as Hne.
    case_bool_decide as Hc.
    + subst c. split.
      * constructor; [simpl; tauto | exact IHdots].
      * destruct (split dot s) as [| t ts] eqn:Hs; [congruence |].
        change (String dot (join dot (t :: ts)) = String dot s). rewrite IHjoin.
        reflexivity.
    + destruct (split dot s) as [| t ts] eqn:Hs; [congruence |].
      apply Forall_cons in IHdots as [Ht Hts]. split.
      * constructor; [| exact Hts]. simpl. intros [Heq | Hin]; [congruence | auto].
      * rewrite <- IHjoin. destruct ts; reflexivity.
Qed.

(** ** Extensions *)

(** X2: an extension reads back as it was set, and setting one key leaves
    the others as they were; the fields, the version and the tracked
    attributes are not touched. *)
Theorem SetExtension_GetExtension (o : ConfigObject.t) (key key' : string) (value : Value) :
  Extensions.GetExtension (Extensions.SetExtension o key value) key' =
    (if decide (key = key') then value else Extensions.GetExtension o key') /\
  ConfigObject.FieldValues (Extensions.SetExtension o key value) = ConfigObject.FieldValues o /\
  ConfigObject.Version (Extensions.SetExtension o key value) = ConfigObject.Version o /\
  ConfigObject.OriginalAttributes (Extensions.SetExtension o key value)
    = ConfigObject.OriginalAttributes o.
Proof.
  unfold Extensions.GetExtension, Extensions.SetExtension, Get, Set_.
  destruct (ConfigObject.Extensions o) as [extensions|]; simpl;
    (split; [| auto]); rewrite lookup_insert; case_decide; reflexivity.
Qed.

(** X3: a cleared extension reads as the empty value and the other keys
    are kept; an object without an extension bag is left as it is, no bag
    is created for it. *)
Theorem ClearExtension_GetExtension (o : ConfigObject.t) (key key' : string) :
  Extensions.GetExtension (Extensions.ClearExtension o key) key' =
    (if decide (key = key') then Empty else Extensions.GetExtension o key') /\
  (ConfigObject.Extensions o = None -> Extensions.ClearExtension o key = o) /\
  (forall value,
     Extensions.GetExtension
       (Extensions.ClearExtension (Extensions.SetExtension o key value) key) key = Empty).
Proof.
  unfold Extensions.GetExtension, Extensions.ClearExtension, Extensions.SetExtension,
    Get, Remove, Set_.
  split; [| split].
  - destruct (ConfigObject.Extensions o) as [extensions|] eqn:He; simpl.
    + rewrite lookup_delete. case_decide; reflexivity.
    + rewrite He. case_decide; reflexivity.
  - intros ->. reflexivity.
  - intros value. destruct (ConfigObject.Extensions o); simpl;
      rewrite lookup_delete_eq; reflexivity.
Qed.

Lemma ClearExtension_GetExtension_witness :
  Extensions.ClearExtension Sample.h1 "agent_check" = Sample.h1.
Proof.
  exact (proj1 (proj2 (ClearExtension_GetExtension Sample.h1 "agent_check" "agent_check"))
           eq_refl).
Defined.

(** ** Attribute modification, continued *)

Section ModifyAttributeMore.
Import ConfigObject.

Lemma set_path_get_path keys value current new :
  keys <> [] ->
  set_path keys value current = Some new ->
  get_path keys new = Some value.
Proof.
  revert current new. induction keys as [| key rest IH]; [congruence |].
  intros current new _ Hset. simpl in Hset.
  destruct rest as [| key' rest'].
  - destruct current; try discriminate. injection Hset as <-.
    simpl. unfold Set_. rewrite lookup_insert_eq. reflexivity.
  - destruct current as [| | | | d |]; try discriminate.
    destruct (set_path (key' :: rest') value
                (if Contains d key then Get d key else Dict ∅)) as [child|] eqn:Hc;
      [| discriminate].
    injection Hset as <-.
    change (match Set_ d key child !! key with
            | Some c => get_path (key' :: rest') c
            | None => None
            end = Some value).
    unfold Set_. rewrite lookup_insert_eq. eapply IH; [discriminate | exact Hc].
Qed.

(** Keys of the outermost dictionary other than the first key of the
    path are kept. *)
Lemma set_path_siblings keys value d new key' :
  set_path keys value (Dict d) = Some new ->
  hd_error keys <> Some key' ->
  exists d', new = Dict d' /\ d' !! key' = d !! key'.
Proof.
  intros Hset Hne. destruct keys as [| key rest]; [discriminate |].
  assert (key <> key') as Hk by (intros ->; apply Hne; reflexivity).
  simpl in Hset. destruct rest as [| k2 rest'].
  - injection Hset as <-. eexists. split; [reflexivity |].
    unfold Set_. apply lookup_insert_ne, Hk.
  - destruct (set_path _ _ _) as [child|]; [| discriminate].
    injection Hset as <-. eexists. split; [reflexivity |].
    unfold Set_. apply lookup_insert_ne, Hk.
Qed.

(** Reading a field of the class after one of its fields was written. *)
Lemma GetField_SetFieldValues_insert (o : t) fid fid' v :
  offset <= fid -> (Z.to_nat (fid - offset) < length (FieldValues o))%nat ->
  GetField (SetFieldValues o (<[Z.to_nat (fid - offset) := v]> (FieldValues o))) fid' =
    if decide (fid = fid') then Some v else GetField o fid'.
Proof.
  intros Hown Hlt. unfold GetField, name_id, version_id, offset in *. simpl.
  case_decide as Heq.
  - subst fid'. rewrite !bool_decide_false by lia. rewrite bool_decide_true by lia.
    apply list_lookup_insert_eq, Hlt.
  - repeat case_bool_decide; try reflexivity.
    apply list_lookup_insert_ne. lia.
Qed.


(** The version counter is the one field a change of the version shows in. *)
Lemma GetField_SetVersion o version fid :
  fid <> version_id -> GetField (SetVersion o version) fid = GetField o fid.
Proof.
  intros Hne. unfold GetField. simpl.
  rewrite (bool_decide_false (fid = version_id)) by assumption. reflexivity.
Qed.

End ModifyAttributeMore.



(** X5: after a successful [ModifyAttribute] on a nested path, following
    the tokens after the head down the field's new value reaches the value
    that was set; and when the field held a dictionary, its keys other than
    the second token of the path are kept. *)
Theorem ModifyAttribute_nested_reads_back
    (o o' : ConfigObject.t) (attr head key : string) (keys : list string) (value : Value) :
  split dot attr = head :: key :: keys ->
  ConfigObject.ModifyAttribute o attr value = Ok o' ->
  let fid := ConfigObject.GetFieldId (ConfigObject.ReflectionType o) head in
  exists new,
    ConfigObject.GetField o' fid = Some new /\
    get_path (key :: keys) new = Some value /\
    (forall d key',
       ConfigObject.GetField o fid = Some (Dict d) -> key' <> key ->
       get_path [key'] new = d !! key').
Proof.
  intros Htok H fid. apply ModifyAttribute_Ok in H. rewrite Htok in H. simpl hd in H.
  fold fid in H. destruct H as (field & old & new & o2 & _ & Hold & Hnew & _ & Hset & ->).
  unfold ConfigObject.proposed in Hnew.
  assert (ConfigObject.offset <= fid) as Hown.
  { unfold ConfigObject.GetField in Hold. repeat case_bool_decide; try assumption;
      try discriminate; injection Hold as <-; destruct keys; discriminate. }
  assert (fid <> ConfigObject.version_id) as Hv
    by (unfold ConfigObject.version_id, ConfigObject.offset in *; lia).
  exists new. split; [| split].
  - rewrite GetField_SetVersion by assumption.
    apply SetField_Ok in Hset as [[-> _] | [[-> _] | (_ & Hlt & ->)]];
      try (unfold ConfigObject.name_id, ConfigObject.version_id, ConfigObject.offset in *;
           lia).
    rewrite GetField_SetFieldValues_insert by assumption.
    rewrite decide_True by reflexivity. reflexivity.
  - eapply set_path_get_path; [discriminate | exact Hnew].
  - intros d key' Hd Hne. rewrite Hold in Hd. injection Hd as ->.
    unfold Clone in Hnew. simpl IsEmpty in Hnew. cbv iota in Hnew.
    destruct (set_path_siblings (key :: keys) value d new key' Hnew) as (d' & -> & Hk).
    { simpl. congruence. }
    simpl. rewrite Hk. destruct (d !! key'); reflexivity.
Qed.

Lemma ModifyAttribute_nested_reads_back_witness :
  let o' := state_of (ConfigObject.ModifyAttribute Sample.h1 "vars.os.family" (Str "linux")) in
  exists new,
    ConfigObject.GetField o' 2 = Some new /\
    get_path ["os"; "family"] new = Some (Str "linux").
Proof.
  intros o'.
  destruct (ModifyAttribute_nested_reads_back Sample.h1 o' "vars.os.family" "vars" "os"
              ["family"] (Str "linux"))
    as (new & Hnew & Hread & _); try (vm_compute; reflexivity).
  exists new. split; [exact Hnew | exact Hread].
Defined.

Section TrackingFacts.
Import ConfigObject.





End TrackingFacts.





(** Witness for X8: the check interval of [h1], modified twice and
    restored. *)
Lemma RestoreAttribute_top_level_witness :
  let o1 := state_of (ConfigObject.ModifyAttribute Sample.h1 "check_interval" (Number 60)) in
  let o2 := state_of (ConfigObject.ModifyAttribute o1 "check_interval" (Number 30)) in
  exists o3,
    ConfigObject.RestoreAttribute o2 "check_interval" = Ok o3 /\
    ConfigObject.GetField o3 3 = Some (Number 300) /\
    ConfigObject.IsAttributeModified o3 "check_interval" = false.
Proof.
  intros o1 o2.
  destruct (RestoreAttribute_top_level Sample.h1 o1 o2 "check_interval" (Number 60)
              (Number 30) (ConfigObject.MkField "check_interval" ConfigObject.FAConfig))
    as (o3 & Hrun & Hfield & Hgone); try (vm_compute; reflexivity).
  - vm_compute. discriminate.
  - exists o3. split; [exact Hrun |]. split; [| exact Hgone].
    etrans; [exact Hfield | vm_compute; reflexivity].
Defined.

(** X9: [RestoreAttribute] of another path than [version] never changes
    the version counter, whatever its outcome, and on a path that is not
    tracked it changes nothing. *)
Theorem RestoreAttribute_keeps_version (o : ConfigObject.t) (attr : string) :
  (attr <> "version" ->
   ConfigObject.Version (state_of (ConfigObject.RestoreAttribute o attr))
     = ConfigObject.Version o) /\
  (ConfigObject.IsAttributeModified o attr = false ->
   ConfigObject.RestoreAttribute o attr = Ok o).
Proof.
  unfold ConfigObject.RestoreAttribute, ConfigObject.IsAttributeModified.
  destruct (ConfigObject.OriginalAttributes o) as [d|]; [| split; reflexivity].
  destruct (Contains d attr); [| split; reflexivity].
  split; [| discriminate]. intros Hne.
  destruct (ConfigObject.SetField o _ _) as [o1|e o1] eqn:Hs; simpl.
  - apply SetField_frame in Hs as (_ & _ & _ & _ & Hversion).
    apply Hversion, GetFieldId_version, Hne.
  - apply SetField_Throw in Hs as ->. reflexivity.
Qed.

Lemma RestoreAttribute_keeps_version_witness :
  ConfigObject.Version
    (state_of (ConfigObject.RestoreAttribute Sample.h1 "check_interval"))
    = ConfigObject.Version Sample.h1 /\
  ConfigObject.RestoreAttribute Sample.h1 "check_interval" = Ok Sample.h1.
Proof.
  destruct (RestoreAttribute_keeps_version Sample.h1 "check_interval") as [Hv Hsame].
  split; [apply Hv; discriminate | apply Hsame; reflexivity].
Defined.

(** ** Activation and authority *)

(** X10: [SetAuthority] makes [paused] the negation of the authority
    asked for and never fails; it does not touch [active] and fires no
    signal; asking again for the same authority changes nothing; and the
    hook of a real change has been called. *)
Theorem SetAuthority_paused_is_not_authority (o : Lifecycle.t) (authority : bool) :
  exists o',
    Lifecycle.SetAuthority o authority = Ok o' /\
    Lifecycle.Paused o' = negb authority /\
    Lifecycle.Active o' = Lifecycle.Active o /\
    Lifecycle.ActiveNotified o' = Lifecycle.ActiveNotified o /\
    Lifecycle.SetAuthority o' authority = Ok o' /\
    (Lifecycle.Paused o = authority ->
     if authority then Lifecycle.ResumeCalled o' = true
     else Lifecycle.PauseCalled o' = true).
Proof.
  destruct o as [active paused started stopped pause_called resume_called n].
  destruct authority, paused; eexists; (split; [reflexivity |]); simpl;
    repeat split; try reflexivity; try discriminate.
Qed.

Lemma SetAuthority_paused_is_not_authority_witness :
  exists o',
    Lifecycle.SetAuthority (Lifecycle.MkFlags true true true false false false 1) true = Ok o' /\
    Lifecycle.Paused o' = false /\ Lifecycle.ResumeCalled o' = true.
Proof.
  destruct (SetAuthority_paused_is_not_authority
              (Lifecycle.MkFlags true true true false false false 1) true)
    as (o' & Hrun & Hpaused & _ & _ & _ & Hhook).
  exists o'. split; [exact Hrun |]. split; [exact Hpaused |]. apply Hhook. reflexivity.
Defined.

Lemma Activate_run (o : Lifecycle.t) :
  Lifecycle.Active o = false ->
  exists o',
    Lifecycle.Activate o = Ok o' /\
    Lifecycle.Active o' = true /\
    Lifecycle.Paused o' = false /\
    Lifecycle.StartCalled o' = true /\
    Lifecycle.StopCalled o' = Lifecycle.StopCalled o /\
    Lifecycle.ActiveNotified o' = S (Lifecycle.ActiveNotified o).
Proof.
  destruct o as [active paused started stopped pause_called resume_called n].
  simpl. intros ->. destruct paused; eexists; (split; [reflexivity |]); simpl; auto.
Qed.

Lemma Deactivate_run (o : Lifecycle.t) :
  exists o',
    Lifecycle.Deactivate o = Ok o' /\
    Lifecycle.Active o' = false /\
    Lifecycle.Paused o' = true /\
    Lifecycle.StopCalled o' = Lifecycle.StopCalled o || Lifecycle.Active o /\
    Lifecycle.ActiveNotified o' =
      (if Lifecycle.Active o then S (Lifecycle.ActiveNotified o)
       else Lifecycle.ActiveNotified o) /\
    Lifecycle.StartCalled o' = Lifecycle.StartCalled o /\
    Lifecycle.Deactivate o' = Ok o'.
Proof.
  destruct o as [active paused started stopped pause_called resume_called n].
  destruct active, paused, stopped; eexists; (split; [reflexivity |]); simpl;
    repeat split; reflexivity.
Qed.

(** X11: [Activate] on an object that is not active succeeds: the object
    is then active, has authority (is not paused), [Start] has been called,
    and the active signal has fired once; [stop-called] is untouched. *)
Theorem Activate_inactive (o : Lifecycle.t) :
  Lifecycle.Active o = false ->
  exists o',
    Lifecycle.Activate o = Ok o' /\
    Lifecycle.Active o' = true /\
    Lifecycle.Paused o' = false /\
    Lifecycle.StartCalled o' = true /\
    Lifecycle.StopCalled o' = Lifecycle.StopCalled o /\
    Lifecycle.ActiveNotified o' = S (Lifecycle.ActiveNotified o).
Proof. exact (Activate_run o). Qed.

Lemma Activate_inactive_witness :
  exists o',
    Lifecycle.Activate (Lifecycle.MkFlags false true false false false false 0) = Ok o' /\
    Lifecycle.Active o' = true /\ Lifecycle.Paused o' = false.
Proof.
  destruct (Activate_inactive (Lifecycle.MkFlags false true false false false false 0) eq_refl)
    as (o' & Hrun & Hactive & Hpaused & _).
  exists o'. auto.
Defined.

(** X12: [Deactivate] never fails and always leaves the object inactive
    and paused.  [Stop] is called and the active signal fires exactly when
    the object was active; an inactive object only loses its authority.
    Deactivating again changes nothing. *)
Theorem Deactivate_always_inactive (o : Lifecycle.t) :
  exists o',
    Lifecycle.Deactivate o = Ok o' /\
    Lifecycle.Active o' = false /\
    Lifecycle.Paused o' = true /\
    Lifecycle.StopCalled o' = Lifecycle.StopCalled o || Lifecycle.Active o /\
    Lifecycle.ActiveNotified o' =
      (if Lifecycle.Active o then S (Lifecycle.ActiveNotified o)
       else Lifecycle.ActiveNotified o) /\
    Lifecycle.StartCalled o' = Lifecycle.StartCalled o /\
    Lifecycle.Deactivate o' = Ok o'.
Proof. exact (Deactivate_run o). Qed.

(** X13: an object that is activated and then deactivated ends inactive
    and paused, with [Start] and [Stop] both called and the active signal
    fired twice. *)
Theorem Activate_then_Deactivate (o : Lifecycle.t) :
  Lifecycle.Active o = false ->
  exists o1 o2,
    Lifecycle.Activate o = Ok o1 /\
    Lifecycle.Deactivate o1 = Ok o2 /\
    Lifecycle.Active o2 = false /\
    Lifecycle.Paused o2 = true /\
    Lifecycle.StartCalled o2 = true /\
    Lifecycle.StopCalled o2 = true /\
    Lifecycle.ActiveNotified o2 = S (S (Lifecycle.ActiveNotified o)).
Proof.
  intros Hinactive.
  destruct (Activate_run o Hinactive) as (o1 & H1 & Ha & _ & Hs & _ & Hn).
  destruct (Deactivate_run o1) as (o2 & H2 & Hi & Hp & Hstop & Hn2 & Hs2 & _).
  exists o1, o2. rewrite Ha in Hstop, Hn2. rewrite orb_true_r in Hstop.
  repeat split; try assumption; congruence.
Qed.

Lemma Activate_then_Deactivate_witness :
  exists o1 o2,
    Lifecycle.Activate (Lifecycle.MkFlags false true false false false false 0) = Ok o1 /\
    Lifecycle.Deactivate o1 = Ok o2 /\
    Lifecycle.Active o2 = false /\ Lifecycle.ActiveNotified o2 = 2%nat.
Proof.
  destruct (Activate_then_Deactivate (Lifecycle.MkFlags false true false false false false 0)
              eq_refl)
    as (o1 & o2 & H1 & H2 & Hi & _ & _ & _ & Hn).
  exists o1, o2. auto.
Defined.

Section StopObjectsFacts.
Import Lifecycle.

Lemma deactivate_each_inactive (objects : list t) :
  exists objects',
    deactivate_each objects = Ok objects' /\
    length objects' = length objects /\
    Forall (fun o => Active o = false /\ Paused o = true) objects'.
Proof.
  induction objects as [| o rest (rest' & Hrest & Hlen & Hall)]; simpl.
  - exists []. repeat split. constructor.
  - destruct (Deactivate_run o) as (o' & Hrun & Hi & Hp & _).
    rewrite Hrun, Hrest. exists (o' :: rest'). simpl.
    split; [reflexivity |]. split; [congruence |]. constructor; auto.
Qed.

End StopObjectsFacts.

(** X14: [StopObjects] never fails; afterwards every object of every type
    is inactive and paused, and no object has been added or dropped. *)
Theorem StopObjects_all_inactive (types : list (list Lifecycle.t)) :
  exists types',
    Lifecycle.StopObjects types = Ok types' /\
    map (@length Lifecycle.t) types' = map (@length Lifecycle.t) types /\
    Forall (Forall (fun o => Lifecycle.Active o = false /\ Lifecycle.Paused o = true))
      types'.
Proof.
  induction types as [| objects rest (rest' & Hrest & Hlen & Hall)]; simpl.
  - exists []. repeat split. constructor.
  - destruct (deactivate_each_inactive objects) as (objects' & Hrun & Hl & Ho).
    rewrite Hrun, Hrest. exists (objects' :: rest'). simpl.
    split; [reflexivity |]. split; [congruence |]. constructor; auto.
Qed.

(** ** State snapshot, continued *)

Section SnapshotMore.
Import ConfigObject Snapshot.

Lemma find_update_first_other {A : Type} (p q : A -> bool) (f : A -> A) (l : list A) :
  (forall x, p x = true -> q x = false /\ q (f x) = false) ->
  find q (update_first p f l) = find q l.
Proof.
  intros Hpq. induction l as [| x l IH]; simpl; [reflexivity |].
  destruct (p x) eqn:Hp; simpl.
  - destruct (Hpq x Hp) as [-> ->]. reflexivity.
  - rewrite IH. reflexivity.
Qed.

(** Storing an object under (type, name) does not change what is found
    under any other pair, as long as the stored object bears that name. *)
Lemma lookup_object_store_other reg type name o o' type' name' :
  lookup_object reg type name = Some o ->
  Name o' = name ->
  (type', name') <> (type, name) ->
  lookup_object (store reg type name o') type' name' = lookup_object reg type' name'.
Proof.
  unfold lookup_object. intros Hfound Hname Hne.
  destruct (GetByName reg type) as [dt|] eqn:Hdt; [| discriminate].
  destruct (decide (type' = type)) as [-> | Htype].
  - assert (name' <> name) as Hn by congruence.
    unfold GetByName, store in *.
    rewrite (find_update_first _ _ _ dt Hdt);
      [| simpl; apply bool_decide_eq_true;
         apply (find_name_true ConfigTypeName _ _ _ Hdt)].
    rewrite Hdt. unfold GetObject. simpl.
    apply find_update_first_other. intros x Hx.
    apply bool_decide_eq_true in Hx.
    split; apply bool_decide_eq_false; congruence.
  - unfold GetByName, store.
    rewrite find_update_first_other; [reflexivity |].
    intros x Hx. apply bool_decide_eq_true in Hx. simpl.
    split; apply bool_decide_eq_false; congruence.
Qed.

Lemma RestoreObject_files C message attributeTypes w :
  files (state_of (RestoreObject C message attributeTypes w)) = files w.
Proof.
  unfold RestoreObject. repeat case_match; reflexivity.
Qed.

Lemma run_queue_files C messages attributeTypes w :
  files (run_queue C messages attributeTypes w) = files w.
Proof.
  unfold run_queue. revert w.
  induction messages as [| m rest IH]; intros w; simpl; [reflexivity |].
  rewrite IH. apply RestoreObject_files.
Qed.

Lemma fold_load_without_state type objects acc :
  fold_left (load_without_state type) objects acc =
    ((acc.1 ++ map mark_loaded objects)%list,
     (acc.2 ++ flat_map (fun o =>
        if StateLoaded o then [] else [CallOnStateLoaded type (Name o)]) objects)%list).
Proof.
  revert acc. induction objects as [| o rest IH]; intros [done called]; simpl.
  - rewrite !app_nil_r. reflexivity.
  - rewrite IH. unfold load_without_state, mark_loaded. simpl.
    destruct (StateLoaded o); simpl; rewrite <- ?app_assoc; simpl;
      rewrite ?app_nil_r; reflexivity.
Qed.

(** The final loop of [RestoreObjects] in closed form. *)
Lemma sweep_closed_form w :
  registry (sweep w) =
    map (fun dt => MkConfigType (ConfigTypeName dt) (map mark_loaded (Objects dt)))
      (registry w) /\
  calls (sweep w) = (calls w ++ flat_map late_calls (registry w))%list /\
  files (sweep w) = files w.
Proof.
  unfold sweep.
  assert (forall reg acc,
            fold_left
              (fun (acc : Registry * list Call) dt =>
                 let swept :=
                   fold_left (load_without_state (ConfigTypeName dt)) (Objects dt)
                     ([], acc.2) in
                 ((acc.1 ++ [MkConfigType (ConfigTypeName dt) swept.1])%list, swept.2))
              reg acc =
            ((acc.1 ++ map (fun dt => MkConfigType (ConfigTypeName dt)
                                        (map mark_loaded (Objects dt))) reg)%list,
             (acc.2 ++ flat_map late_calls reg)%list)) as Hfold.
  { induction reg as [| dt rest IH]; intros [done called]; simpl.
    - rewrite !app_nil_r. reflexivity.
    - rewrite IH. rewrite fold_load_without_state. simpl.
      rewrite <- !app_assoc. reflexivity. }
  rewrite Hfold. simpl. auto.
Qed.

Lemma mark_loaded_loaded o : StateLoaded (mark_loaded o) = true.
Proof. unfold mark_loaded. destruct (StateLoaded o) eqn:H; [exact H | reflexivity]. Qed.

Lemma all_loaded_nothing_to_do reg :
  Forall (fun o => StateLoaded o = true) (all_objects reg) ->
  map (fun dt => MkConfigType (ConfigTypeName dt) (map mark_loaded (Objects dt))) reg = reg
  /\ flat_map late_calls reg = [].
Proof.
  unfold all_objects. induction reg as [| [name objects] rest IH]; simpl; [auto |].
  intros Hall. apply Forall_app in Hall as [Hhere Hrest].
  destruct (IH Hrest) as [-> ->].
  assert (map mark_loaded objects = objects /\
          late_calls (MkConfigType name objects) = []) as [-> ->]; [| auto].
  unfold late_calls. simpl. clear -Hhere.
  induction objects as [| o objects IH]; simpl; [auto |].
  apply Forall_cons in Hhere as [Ho Hos]. destruct (IH Hos) as [-> ->].
  unfold mark_loaded. rewrite Ho. auto.
Qed.

End SnapshotMore.

(** X15: [DumpObjects] touches no path but the target and its temporary
    file, whatever its outcome, and it never changes the registry; when
    the temporary file cannot be opened it throws a runtime error that
    names the file and leaves every file, also the snapshot that was
    there, as it was. *)
Theorem DumpObjects_frame
    (P : Platform) (C : Codec ConfigObject.t) (filename : string)
    (attributeTypes : Z) (w : Snapshot.World) :
  let w' := state_of (Snapshot.DumpObjects P C filename attributeTypes w) in
  (forall path,
     path <> filename -> path <> filename ++ ".tmp" ->
     Snapshot.files w' !! path = Snapshot.files w !! path) /\
  Snapshot.registry w' = Snapshot.registry w /\
  (OpenFails P (filename ++ ".tmp") = true ->
   Snapshot.DumpObjects P C filename attributeTypes w =
     Throw (RuntimeError ("Could not open '" ++ (filename ++ ".tmp") ++ "' file")) w).
Proof.
  pose proof (temp_name_differs filename) as Hne.
  unfold Snapshot.DumpObjects, rename, unlink_on_win32, unlink.
  destruct (OpenFails P (filename ++ ".tmp")); simpl; [auto |].
  split; [| split; [| discriminate]].
  - intros path Hfinal Htemp.
    destruct (RenameFault P _ _); simpl.
    + destruct (Win32 P); rewrite ?lookup_delete_ne by congruence;
        apply lookup_insert_ne; congruence.
    + destruct (Win32 P).
      * rewrite lookup_delete_ne, lookup_insert_eq by congruence. simpl.
        rewrite lookup_insert_ne, !lookup_delete_ne, lookup_insert_ne by congruence.
        reflexivity.
      * rewrite lookup_insert_eq. simpl.
        rewrite lookup_insert_ne, lookup_delete_ne, lookup_insert_ne by congruence.
        reflexivity.
  - destruct (RenameFault P _ _); simpl; [reflexivity |].
    destruct (Win32 P).
    + rewrite lookup_delete_ne, lookup_insert_eq by congruence.
      reflexivity.
    + rewrite lookup_insert_eq. reflexivity.
Qed.

Lemma DumpObjects_frame_witness :
  Snapshot.DumpObjects (MkPlatform false (fun _ => true) (fun _ _ => None))
    Sample.codec "icinga2.state" 6 Sample.world =
    Throw (RuntimeError "Could not open 'icinga2.state.tmp' file") Sample.world.
Proof.
  exact (proj2 (proj2 (DumpObjects_frame (MkPlatform false (fun _ => true) (fun _ _ => None))
                         Sample.codec "icinga2.state" 6 Sample.world)) eq_refl).
Defined.

(** X16: when the state file exists, [RestoreObjects] returns with every
    registered object state-loaded, whatever the file holds, and without a
    change to any file. *)
Theorem RestoreObjects_all_state_loaded
    (C : Codec ConfigObject.t) (filename : string) (attributeTypes : Z)
    (w : Snapshot.World) (messages : list string) :
  Snapshot.files w !! filename = Some messages ->
  exists w',
    Snapshot.RestoreObjects C filename attributeTypes w = Ok w' /\
    Forall (fun o => ConfigObject.StateLoaded o = true)
      (all_objects (Snapshot.registry w')) /\
    Snapshot.files w' = Snapshot.files w.
Proof.
  intros Hfile. unfold Snapshot.RestoreObjects, PathExists. rewrite Hfile.
  rewrite bool_decide_true by eauto. simpl.
  eexists. split; [reflexivity |].
  destruct (sweep_closed_form (Snapshot.run_queue C messages attributeTypes w))
    as (Hreg & _ & Hfiles).
  split.
  - rewrite Hreg. unfold all_objects. clear Hreg Hfiles.
    generalize (Snapshot.registry (Snapshot.run_queue C messages attributeTypes w)).
    intros reg. induction reg as [| dt rest IH]; simpl; [constructor |].
    apply Forall_app. split; [| exact IH].
    apply Forall_forall. intros o Hin. apply list_elem_of_In in Hin.
    apply in_map_iff in Hin as (o0 & <- & _). apply mark_loaded_loaded.
  - rewrite Hfiles. apply run_queue_files.
Qed.

Lemma RestoreObjects_all_state_loaded_witness :
  exists w',
    Snapshot.RestoreObjects Sample.codec "icinga2.state" 6 Sample.world = Ok w' /\
    Forall (fun o => ConfigObject.StateLoaded o = true)
      (all_objects (Snapshot.registry w')).
Proof.
  destruct (RestoreObjects_all_state_loaded Sample.codec "icinga2.state" 6 Sample.world
              ["h1"] eq_refl) as (w' & Hrun & Hall & _).
  exists w'. auto.
Defined.

(** X17: the final loop of [RestoreObjects] keeps the types, the objects
    and their order; it calls [OnStateLoaded] once for each object that is
    not state-loaded by then, in registry order, and never for one that
    is, and marks exactly those objects state-loaded. *)
Theorem sweep_calls_once (w : Snapshot.World) :
  Snapshot.registry (Snapshot.sweep w) =
    map (fun dt => Snapshot.MkConfigType (Snapshot.ConfigTypeName dt)
                     (map mark_loaded (Snapshot.Objects dt)))
      (Snapshot.registry w) /\
  Snapshot.calls (Snapshot.sweep w) =
    (Snapshot.calls w ++ flat_map late_calls (Snapshot.registry w))%list /\
  (Forall (fun o => ConfigObject.StateLoaded o = true) (all_objects (Snapshot.registry w)) ->
   Snapshot.sweep w = w).
Proof.
  destruct (sweep_closed_form w) as (Hreg & Hcalls & Hfiles).
  split; [exact Hreg |]. split; [exact Hcalls |].
  intros Hall. destruct (all_loaded_nothing_to_do _ Hall) as [Hr Hc].
  rewrite Hr in Hreg. rewrite Hc, app_nil_r in Hcalls.
  destruct (Snapshot.sweep w) as [reg' fs' called']. destruct w as [reg fs called].
  simpl in *. congruence.
Qed.

Lemma sweep_calls_once_witness :
  Snapshot.calls (Snapshot.sweep Sample.world) = [Snapshot.CallOnStateLoaded "Host" "h1"] /\
  Snapshot.sweep (Snapshot.sweep Sample.world) = Snapshot.sweep Sample.world.
Proof.
  split.
  - etrans; [exact (proj1 (proj2 (sweep_calls_once Sample.world))) |].
    vm_compute. reflexivity.
  - apply (proj2 (proj2 (sweep_calls_once (Snapshot.sweep Sample.world)))).
    vm_compute. repeat constructor.
Defined.

(** X18: restoring one record never changes a file, and, with a
    serializer that keeps the name of the object it fills, it never changes
    what is registered under any type and name other than the pair the
    record names, whatever the outcome for the record. *)
Theorem RestoreObject_frame
    (C : Codec ConfigObject.t) (message : string) (attributeTypes : Z)
    (w : Snapshot.World) (type' name' : string) :
  (forall o update safe mask,
     ConfigObject.Name (state_of (Deserialize C o update safe mask)) = ConfigObject.Name o) ->
  (forall record,
     JsonDecode C message = Some (Dict record) ->
     (type', name') <> (ToString C (Get record "type"), ToString C (Get record "name"))) ->
  let w' := state_of (Snapshot.RestoreObject C message attributeTypes w) in
  Snapshot.files w' = Snapshot.files w /\
  lookup_object (Snapshot.registry w') type' name' =
    lookup_object (Snapshot.registry w) type' name'.
Proof.
  intros Hnames Hother w'. split; [apply RestoreObject_files |].
  subst w'. unfold Snapshot.RestoreObject.
  destruct (JsonDecode C message) as [decoded|]; [| reflexivity].
  destruct decoded as [| | | | record |]; try reflexivity. simpl.
  specialize (Hother record eq_refl).
  set (type := ToString C (Get record "type")) in *.
  set (name := ToString C (Get record "name")) in *.
  destruct (Snapshot.GetByName (Snapshot.registry w) type) as [dt|] eqn:Hdt;
    [| reflexivity].
  destruct (Snapshot.GetObject dt name) as [object|] eqn:Hobj; [| reflexivity].
  assert (lookup_object (Snapshot.registry w) type name = Some object) as Hfound
    by (unfold lookup_object; rewrite Hdt; exact Hobj).
  assert (ConfigObject.Name object = name) as Hname
    by (apply (find_name_true ConfigObject.Name _ _ _ Hobj)).
  destruct (ConfigObject.Active object); [reflexivity |].
  destruct (ToDictionaryPtr (Get record "update")) as [update|]; [| reflexivity].
  pose proof (Hnames object update false attributeTypes) as Hkept.
  destruct (Deserialize C object update false attributeTypes) as [object1|e object1];
    simpl in *.
  - apply (lookup_object_store_other _ _ _ object); [exact Hfound | | exact Hother].
    simpl. congruence.
  - apply (lookup_object_store_other _ _ _ object); [exact Hfound | | exact Hother].
    congruence.
Qed.

Lemma RestoreObject_frame_witness :
  let w' := state_of (Snapshot.RestoreObject Sample.codec "h1" 6 Sample.world) in
  Snapshot.files w' = Snapshot.files Sample.world /\
  lookup_object (Snapshot.registry w') "Host" "h2" = None.
Proof.
  intros w'.
  destruct (RestoreObject_frame Sample.codec "h1" 6 Sample.world "Host" "h2")
    as [Hfiles Hother].
  - intros o [update|] safe mask; simpl; [| reflexivity].
    destruct (update !! "last_check"); reflexivity.
  - intros record Hdecoded. injection Hdecoded as <-. vm_compute. congruence.
  - split; [exact Hfiles |]. etrans; [exact Hother | vm_compute; reflexivity].
Defined.

(** X19: dump and restore fit together.  For an object that is found
    under its type and name, is not active and has a serialization, the
    record [DumpObjects] writes for it is among the records of the
    snapshot, and, with a JSON codec that decodes this record to what was
    encoded, restoring the record calls [Deserialize] on that very type and
    name with the object's own serialization, then [OnStateLoaded]. *)
Theorem dumped_record_restores_its_object
    (C : Codec ConfigObject.t) (w : Snapshot.World) (dt : Snapshot.ConfigType)
    (object object' : ConfigObject.t) (update : Dictionary) (attributeTypes : Z) :
  let type := Snapshot.ConfigTypeName dt in
  let name := ConfigObject.Name object in
  let record :=
    Dict (Set_ (Set_ (Set_ ∅ "type" (Str type)) "name" (Str name)) "update" (Dict update)) in
  In dt (Snapshot.registry w) ->
  In object (Snapshot.Objects dt) ->
  lookup_object (Snapshot.registry w) type name = Some object ->
  ConfigObject.Active object = false ->
  Serialize C object attributeTypes = Some update ->
  JsonDecode C (JsonEncode C record) = Some record ->
  Deserialize C object (Some update) false attributeTypes = Ok object' ->
  In (JsonEncode C record) (Snapshot.records C (Snapshot.registry w) attributeTypes) /\
  exists w',
    Snapshot.RestoreObject C (JsonEncode C record) attributeTypes w = Ok w' /\
    Snapshot.calls w' =
      (Snapshot.calls w ++
         [Snapshot.CallDeserialize type name (Some update) false attributeTypes;
          Snapshot.CallOnStateLoaded type name])%list /\
    Snapshot.registry w' =
      Snapshot.store (Snapshot.registry w) type name
        (ConfigObject.SetStateLoaded object' true).
Proof.
  intros type name record Hdt Hobj Hfound Hinactive Hser Hcodec Hdes. split.
  - unfold Snapshot.records. apply in_flat_map. exists dt. split; [exact Hdt |].
    apply in_flat_map. exists object. split; [exact Hobj |].
    unfold Snapshot.persistentObject. rewrite Hser. left. reflexivity.
  - unfold Snapshot.RestoreObject. rewrite Hcodec. simpl.
    assert (Get (Set_ (Set_ (Set_ ∅ "type" (Str type)) "name" (Str name))
                   "update" (Dict update)) "type" = Str type) as ->
      by (unfold Get, Set_; simplify_map_eq; reflexivity).
    assert (Get (Set_ (Set_ (Set_ ∅ "type" (Str type)) "name" (Str name))
                   "update" (Dict update)) "name" = Str name) as ->
      by (unfold Get, Set_; simplify_map_eq; reflexivity).
    assert (Get (Set_ (Set_ (Set_ ∅ "type" (Str type)) "name" (Str name))
                   "update" (Dict update)) "update" = Dict update) as ->
      by (unfold Get, Set_; simplify_map_eq; reflexivity).
    simpl. unfold lookup_object in Hfound.
    destruct (Snapshot.GetByName (Snapshot.registry w) type) as [dt0|]; [| discriminate].
    rewrite Hfound, Hinactive, Hdes.
    eexists. split; [reflexivity |]. simpl.
    split; [rewrite <- app_assoc; reflexivity | reflexivity].
Qed.

Lemma dumped_record_restores_its_object_witness :
  In "h1" (Snapshot.records faithful_codec (Snapshot.registry Sample.world) 6) /\
  exists w',
    Snapshot.RestoreObject faithful_codec "h1" 6 Sample.world = Ok w' /\
    Snapshot.calls w' =
      [Snapshot.CallDeserialize "Host" "h1" (Some {[ "last_check" := Number 0 ]}) false 6;
       Snapshot.CallOnStateLoaded "Host" "h1"].
Proof.
  destruct (dumped_record_restores_its_object faithful_codec Sample.world
              (Snapshot.MkConfigType "Host" [Sample.h1]) Sample.h1 Sample.h1
              {[ "last_check" := Number 0 ]} 6)
    as (Hin & w' & Hrun & Hcalls & _);
    try (vm_compute; reflexivity); try (left; reflexivity).
  split; [exact Hin |]. exists w'. split; [exact Hrun | exact Hcalls].
Defined.

(** ** Events, continued *)

Section EventsMore.
Import ApiEvents.
Context {O : Type} (C : Codec O).

Lemma GetCheckable_identity_params (K : Cluster) checkable (extra : string) (v : Value) :
  extra <> "host" -> extra <> "service" ->
  knows K checkable ->
  GetCheckable K C (Set_ (ApiEventsOut.identity_params checkable) extra v) = Some checkable.
Proof.
  intros Hh Hs Hknown. unfold GetCheckable, Contains, Get, Set_.
  destruct checkable as [host | host service];
    unfold ApiEventsOut.identity_params, ApiEventsOut.GetHostService, Set_; simpl in *.
  - destruct Hknown as [services Hhost].
    rewrite lookup_insert_ne, lookup_insert_eq by assumption. simpl. rewrite Hhost.
    rewrite bool_decide_false; [reflexivity |].
    rewrite lookup_insert_ne, lookup_insert_ne, lookup_empty by (assumption || discriminate).
    intros [? ?]. discriminate.
  - destruct Hknown as (services & Hhost & Hin).
    rewrite lookup_insert_ne, lookup_insert_ne, lookup_insert_eq
      by (assumption || discriminate).
    simpl. rewrite Hhost.
    rewrite bool_decide_true
      by (rewrite lookup_insert_ne, lookup_insert_eq by assumption; eauto).
    rewrite lookup_insert_ne, lookup_insert_eq by assumption. simpl.
    rewrite bool_decide_true by assumption. reflexivity.
Qed.

Lemma requested_service_extension (p : Dictionary) :
  (let name := GetExtension (virtual_host p) "agent_service_name" in
   if IsEmpty name then None else Some name) = requested_service p.
Proof.
  unfold GetExtension, virtual_host, requested_service, Contains, Get, Set_. simpl.
  destruct (p !! "service") as [service|] eqn:Hs.
  - rewrite bool_decide_true by eauto. rewrite lookup_insert_eq. simpl.
    destruct service; reflexivity.
  - rewrite bool_decide_false by (intros [? ?]; discriminate).
    rewrite lookup_empty. reflexivity.
Qed.

Lemma MakeCheckResultMessage_virtual_host (p : Dictionary) cr :
  MakeCheckResultMessage C (virtual_host p) cr =
    MkMessage "2.0" "event::CheckResult"
      (CheckResultParams (ToString C (Get p "host")) (requested_service p) cr).
Proof.
  unfold MakeCheckResultMessage. rewrite requested_service_extension.
  unfold HostName, virtual_host, virtual_attrs, Get, Set_. simpl.
  rewrite lookup_insert_ne, lookup_insert_eq by discriminate. reflexivity.
Qed.

Lemma MakeCheckResultMessage_prepared_host (p : Dictionary) source command_type cr :
  command_type <> "__name" ->
  MakeCheckResultMessage C (prepared_host source p command_type) cr =
    MkMessage "2.0" "event::CheckResult"
      (CheckResultParams (ToString C (Get p "host")) (requested_service p) cr).
Proof.
  intros Hne. unfold MakeCheckResultMessage.
  assert (GetExtension (prepared_host source p command_type) "agent_service_name"
          = GetExtension (virtual_host p) "agent_service_name") as ->.
  { unfold GetExtension, prepared_host, SetExtension, Get, Set_. simpl.
    rewrite lookup_insert_ne by discriminate. reflexivity. }
  rewrite requested_service_extension.
  unfold HostName, prepared_host, SetExtension, virtual_attrs, Get, Set_. simpl.
  rewrite lookup_insert_ne, lookup_insert_ne, lookup_insert_ne, lookup_insert_eq
    by (discriminate || congruence).
  reflexivity.
Qed.

End EventsMore.

(** X20: the relay of a changed check interval and its reception fit
    together.  On an endpoint with a listener, [CheckIntervalChangedHandler]
    relays one logged [event::SetCheckInterval] message scoped to the
    checkable, with the origin it was given; and on every cluster that has
    the checkable, [CheckIntervalChangedAPIHandler], given the params of
    that message by a sender whose client is an endpoint and whose zone is
    not denied access, sets that interval on that checkable with the
    sender's origin. *)
Theorem CheckInterval_relay_round_trip {O : Type}
    (K K' : ApiEvents.Cluster) (C : Codec O) (checkable : ApiEvents.Checkable)
    (interval : Z) (cause : option ApiEvents.MessageOrigin)
    (listener : ApiEvents.ApiListener) :
  ApiEvents.Listener K = Some listener ->
  exists params,
    ApiEventsOut.CheckIntervalChangedHandler K checkable interval cause =
      [ApiEvents.RelayMessage cause (ApiEvents.ScopeCheckable checkable)
         (ApiEvents.MkMessage "2.0" "event::SetCheckInterval" (ApiEvents.RawParams params))
         true] /\
    forall sender endpoint,
      knows K' checkable ->
      ApiEvents.ClientEndpoint (ApiEvents.FromClient sender) = Some endpoint ->
      ApiEvents.denied K' sender checkable = false ->
      ApiEvents.CheckIntervalChangedAPIHandler K' C sender (Some params) =
        ApiEvents.returned
          [ApiEvents.SetCheckInterval checkable (Number interval) false sender].
Proof.
  intros Hl. unfold ApiEventsOut.CheckIntervalChangedHandler. rewrite Hl.
  eexists. split; [reflexivity |].
  intros sender endpoint Hknown Hep Hallowed.
  unfold ApiEvents.CheckIntervalChangedAPIHandler. rewrite Hep.
  rewrite GetCheckable_identity_params by (discriminate || assumption).
  rewrite Hallowed. unfold Get, Set_. rewrite lookup_insert_eq. reflexivity.
Qed.

Lemma CheckInterval_relay_round_trip_witness :
  exists params,
    ApiEventsOut.CheckIntervalChangedHandler Sample.cluster
      (ApiEvents.ServiceRef "h" "ping") 60 None =
      [ApiEvents.RelayMessage None (ApiEvents.ScopeCheckable (ApiEvents.ServiceRef "h" "ping"))
         (ApiEvents.MkMessage "2.0" "event::SetCheckInterval" (ApiEvents.RawParams params))
         true] /\
    ApiEvents.CheckIntervalChangedAPIHandler Sample.cluster Sample.codec Sample.from_master
      (Some params) =
      ApiEvents.returned
        [ApiEvents.SetCheckInterval (ApiEvents.ServiceRef "h" "ping") (Number 60) false
           Sample.from_master].
Proof.
  destruct (CheckInterval_relay_round_trip Sample.cluster Sample.cluster Sample.codec
              (ApiEvents.ServiceRef "h" "ping") 60 None (ApiEvents.MkListener "api" true)
              eq_refl) as (params & Hout & Hin).
  exists params. split; [exact Hout |].
  apply (Hin Sample.from_master "master1"); [| reflexivity | vm_compute; reflexivity].
  exists ["ping"]. split; [vm_compute; reflexivity | set_solver].
Defined.

(** X21: whatever the request, every message [ExecuteCommandAPIHandler]
    sends goes to the endpoint of the requesting client and is an
    [event::CheckResult] in state Unknown that names the host and the
    service of the request; and it sends at most one. *)
Theorem ExecuteCommand_answers_the_requester {O : Type}
    (K : ApiEvents.Cluster) (C : Codec O)
    (origin : ApiEvents.MessageOrigin) (params : DictionaryPtr) :
  let run := ApiEvents.ExecuteCommandAPIHandler K C origin params in
  Forall (answers_request C (ApiEvents.ClientEndpoint (ApiEvents.FromClient origin)) params)
    (ApiEvents.effects run) /\
  (length (List.filter ApiEvents.is_response (ApiEvents.effects run)) <= 1)%nat.
Proof.
  unfold ApiEvents.ExecuteCommandAPIHandler, ApiEvents.execute.
  destruct (ApiEvents.ClientEndpoint (ApiEvents.FromClient origin)) as [source|];
    [| split; [repeat constructor | simpl; lia]].
  destruct (ApiEvents.not_from_parent K origin);
    [split; [repeat constructor | simpl; lia] |].
  destruct (ApiEvents.Listener K) as [listener|];
    [| split; [repeat constructor | simpl; lia]].
  destruct params as [p|];
    [| destruct (ApiEvents.AcceptCommands listener);
       split; simpl; repeat constructor].
  assert (forall cr, ApiEvents.State cr = ApiEvents.ServiceUnknown ->
            answers_request C (Some source) (Some p)
              (ApiEvents.SyncSendMessage source
                 (ApiEvents.MakeCheckResultMessage C (ApiEvents.virtual_host p) cr)))
    as Hvirtual.
  { intros cr Hcr. split; [reflexivity |]. exists p, cr.
    rewrite MakeCheckResultMessage_virtual_host. auto. }
  destruct (ApiEvents.AcceptCommands listener); simpl.
  - case_bool_decide as Hcheck.
    + case_bool_decide.
      * destruct (ToDictionaryPtr (Get p "macros")) as [macros|];
          [| split; simpl; repeat constructor].
        destruct (ApiEvents.RemoteCheck K _ macros) as [diagnostic|];
          [| split; simpl; repeat constructor].
        split; [| simpl; lia].
        constructor; [exact I |]. constructor; [| repeat constructor].
        split; [reflexivity |]. exists p. eexists.
        rewrite MakeCheckResultMessage_prepared_host by (rewrite Hcheck; discriminate).
        split; [reflexivity |]. split; [| reflexivity]. reflexivity.
      * split; [| simpl; lia]. constructor; [| constructor].
        apply Hvirtual. reflexivity.
    + case_bool_decide as Hevent; [| split; simpl; repeat constructor].
      case_bool_decide; [| split; simpl; repeat constructor].
      destruct (ToDictionaryPtr (Get p "macros")) as [macros|];
        [| split; simpl; repeat constructor].
      destruct (ApiEvents.EventHandler K _ macros); split; simpl; repeat constructor.
  - split; [| simpl; lia]. constructor; [exact I |]. constructor; [| constructor].
    apply Hvirtual. reflexivity.
Qed.

(** X22: [ExecuteCommandAPIHandler] runs a command only when the request
    passed the origin test, the listener accepts commands, and the command
    named is registered as a command of the type named; and it runs at
    most one. *)
Theorem ExecuteCommand_runs_registered_commands_only {O : Type}
    (K : ApiEvents.Cluster) (C : Codec O)
    (origin : ApiEvents.MessageOrigin) (params : DictionaryPtr) :
  let run := ApiEvents.ExecuteCommandAPIHandler K C origin params in
  (length (List.filter ApiEvents.is_execution (ApiEvents.effects run)) <= 1)%nat /\
  (Exists (fun e => ApiEvents.is_execution e = true) (ApiEvents.effects run) ->
   exists endpoint listener p,
     ApiEvents.ClientEndpoint (ApiEvents.FromClient origin) = Some endpoint /\
     ApiEvents.not_from_parent K origin = false /\
     ApiEvents.Listener K = Some listener /\
     ApiEvents.AcceptCommands listener = true /\
     params = Some p /\
     ((ToString C (Get p "command_type") = "check_command" /\
       ToString C (Get p "command") ∈ ApiEvents.CheckCommands K) \/
      (ToString C (Get p "command_type") = "event_command" /\
       ToString C (Get p "command") ∈ ApiEvents.EventCommands K))).
Proof.
  assert (forall l : list ApiEvents.Effect,
            Forall (fun e => ApiEvents.is_execution e = false) l ->
            (length (List.filter ApiEvents.is_execution l) <= 1)%nat /\
            (Exists (fun e => ApiEvents.is_execution e = true) l -> False)) as Hnone.
  { intros l Hl. split.
    - induction Hl as [| e l He _ IH]; simpl; [lia |]. rewrite He. exact IH.
    - intros Hex. apply Exists_exists in Hex as (e & Hin & He).
      rewrite Forall_forall in Hl. specialize (Hl e Hin). congruence. }
  assert (forall (l : list ApiEvents.Effect) (G : Prop),
            Forall (fun e => ApiEvents.is_execution e = false) l ->
            (length (List.filter ApiEvents.is_execution l) <= 1)%nat /\
            (Exists (fun e => ApiEvents.is_execution e = true) l -> G)) as Hquiet.
  { intros l G Hl. destruct (Hnone l Hl) as [Hlen Hno]. split; [exact Hlen |].
    intros Hex. destruct (Hno Hex). }
  unfold ApiEvents.ExecuteCommandAPIHandler, ApiEvents.execute.
  destruct (ApiEvents.ClientEndpoint (ApiEvents.FromClient origin)) as [source|];
    [| apply Hquiet; repeat constructor].
  destruct (ApiEvents.not_from_parent K origin) eqn:Hzone;
    [apply Hquiet; repeat constructor |].
  destruct (ApiEvents.Listener K) as [listener|]; [| apply Hquiet; repeat constructor].
  destruct (ApiEvents.AcceptCommands listener) eqn:Haccept; simpl;
    [| destruct params; apply Hquiet; repeat constructor].
  destruct params as [p|]; [| apply Hquiet; repeat constructor].
  case_bool_decide as Hcheck.
  - case_bool_decide as Hknown; [| apply Hquiet; repeat constructor].
    split.
    + destruct (ToDictionaryPtr (Get p "macros")); [| simpl; lia].
      destruct (ApiEvents.RemoteCheck K _ _); simpl; lia.
    + intros _. exists source, listener, p. repeat split; auto.
  - case_bool_decide as Hevent; [| apply Hquiet; repeat constructor].
    case_bool_decide as Hknown; [| apply Hquiet; repeat constructor].
    split.
    + destruct (ToDictionaryPtr (Get p "macros")); [| simpl; lia].
      destruct (ApiEvents.EventHandler K _ _); simpl; lia.
    + intros _. exists source, listener, p. repeat split; auto.
Qed.

Lemma ExecuteCommand_runs_registered_commands_only_witness :
  ToString Sample.codec (Get (Sample.run_check "ping4") "command")
    ∈ ApiEvents.CheckCommands Sample.cluster.
Proof.
  destruct (ExecuteCommand_runs_registered_commands_only Sample.cluster Sample.codec
              Sample.from_master (Some (Sample.run_check "ping4"))) as [_ Honly].
  destruct Honly as (endpoint & listener & p & _ & _ & _ & _ & Hp & [[_ Hin] | [Htype _]]).
  - vm_compute. apply Exists_cons_hd. reflexivity.
  - injection Hp as <-. exact Hin.
  - injection Hp as <-. vm_compute in Htype. discriminate.
Defined.

(** ** The repository *)

Section RepositoryFacts.
Import ApiEvents.
Context {O : Type} (K : Cluster) (C : Codec O) (P : Platform).

Lemma unlink_on_win32_other (fs : Files) path path' :
  path' <> path -> unlink_on_win32 P fs path !! path' = fs !! path'.
Proof.
  intros Hne. unfold unlink_on_win32, unlink. destruct (Win32 P); [| reflexivity].
  apply lookup_delete_ne. congruence.
Qed.

(** The file system after [UpdateRepositoryAPIHandler] took a message
    with a repository, opened the temporary file and renamed it. *)
Lemma UpdateRepository_written origin (p repository : Dictionary) (fs : Files) :
  Get p "repository" = Dict repository ->
  OpenFails P (repository_file K C p ++ ".tmp") = false ->
  RenameFault P (repository_file K C p ++ ".tmp") (repository_file K C p) = None ->
  (UpdateRepositoryAPIHandler K C P origin (Some p) fs).2 !! repository_file K C p
    = Some [JsonEncode C (Dict p)].
Proof.
  intros Hrepo Hopen Hrename.
  pose proof (temp_name_differs (repository_file K C p)) as Hne.
  unfold UpdateRepositoryAPIHandler. rewrite Hrepo. simpl. rewrite Hopen.
  unfold rename. rewrite Hrename.
  rewrite unlink_on_win32_other by assumption. rewrite lookup_insert_eq.
  destruct (Listener K); simpl; apply lookup_insert_eq.
Qed.

End RepositoryFacts.

(** X23: [UpdateRepositoryAPIHandler] touches no path but the repository
    file of the endpoint named in the params and its temporary file,
    whatever its outcome; and a message without params, or whose
    [repository] member is not a dictionary, changes nothing and is not
    relayed. *)
Theorem UpdateRepository_frame {O : Type}
    (K : ApiEvents.Cluster) (C : Codec O) (P : Platform)
    (origin : option ApiEvents.MessageOrigin) (params : DictionaryPtr) (fs : Files) :
  let run := ApiEvents.UpdateRepositoryAPIHandler K C P origin params fs in
  (forall path,
     (forall p, params = Some p ->
        path <> ApiEvents.repository_file K C p /\
        path <> ApiEvents.repository_file K C p ++ ".tmp") ->
     run.2 !! path = fs !! path) /\
  ((forall p, params = Some p -> IsDictionary (Get p "repository") = false) ->
   run = (ApiEvents.returned [], fs)).
Proof.
  unfold ApiEvents.UpdateRepositoryAPIHandler.
  destruct params as [p|]; [| split; reflexivity].
  destruct (Get p "repository") as [| | | | repository |] eqn:Hrepo; simpl;
    try (split; reflexivity).
  split.
  - intros path Hpath. destruct (Hpath p eq_refl) as [Hfile Htemp].
    assert (forall content : Files,
              content !! path = fs !! path ->
              unlink_on_win32 P content (ApiEvents.repository_file K C p) !! path
                = fs !! path) as Hunlinked.
    { intros content Hc. rewrite unlink_on_win32_other by assumption. exact Hc. }
    assert ((if OpenFails P (ApiEvents.repository_file K C p ++ ".tmp") then fs
             else <[ApiEvents.repository_file K C p ++ ".tmp" := [JsonEncode C (Dict p)]]> fs)
              !! path = fs !! path) as Hwritten.
    { destruct (OpenFails P _); [reflexivity |]. apply lookup_insert_ne. congruence. }
    unfold rename. destruct (RenameFault P _ _); simpl; [apply Hunlinked, Hwritten |].
    destruct (unlink_on_win32 P _ _ !! _) eqn:Htmp; simpl;
      [| apply Hunlinked, Hwritten].
    destruct (ApiEvents.Listener K); simpl;
      rewrite lookup_insert_ne, lookup_delete_ne by congruence;
      apply Hunlinked, Hwritten.
  - intros Hnot. specialize (Hnot p eq_refl). rewrite Hrepo in Hnot. discriminate.
Qed.

Lemma UpdateRepository_frame_witness :
  ApiEvents.UpdateRepositoryAPIHandler Sample.cluster Sample.codec Sample.posix
    (Some Sample.from_master) (Some {[ "endpoint" := Str "sat2"; "repository" := Arr [] ]})
    {[ "icinga2.state" := ["h1"] ]}
  = (ApiEvents.returned [], {[ "icinga2.state" := ["h1"] ]}).
Proof.
  apply (proj2 (UpdateRepository_frame Sample.cluster Sample.codec Sample.posix
                  (Some Sample.from_master)
                  (Some {[ "endpoint" := Str "sat2"; "repository" := Arr [] ]})
                  {[ "icinga2.state" := ["h1"] ]})).
  intros p Hp. injection Hp as <-. vm_compute. reflexivity.
Defined.

(** X24: when the rename of the repository file fails,
    [UpdateRepositoryAPIHandler] throws a POSIX error that names [rename],
    the errno and the temporary file, and relays nothing; in a build
    without [_WIN32] the repository file then holds what it held before. *)
Theorem UpdateRepository_rename_failure {O : Type}
    (K : ApiEvents.Cluster) (C : Codec O) (P : Platform)
    (origin : option ApiEvents.MessageOrigin) (p repository : Dictionary) (fs : Files)
    (errno : Z) :
  Get p "repository" = Dict repository ->
  let file := ApiEvents.repository_file K C p in
  RenameFault P (file ++ ".tmp") file = Some errno ->
  let run := ApiEvents.UpdateRepositoryAPIHandler K C P origin (Some p) fs in
  run.1 = ApiEvents.raised [] (PosixError "rename" errno (file ++ ".tmp")) /\
  (Win32 P = false -> run.2 !! file = fs !! file).
Proof.
  intros Hrepo file Hfail run. subst run.
  unfold ApiEvents.UpdateRepositoryAPIHandler. rewrite Hrepo. simpl. fold file.
  unfold rename. rewrite Hfail. simpl. split; [reflexivity |].
  intros Hposix. unfold unlink_on_win32. rewrite Hposix.
  destruct (OpenFails P _); [reflexivity |].
  apply lookup_insert_ne. apply temp_name_differs.
Qed.

Lemma UpdateRepository_rename_failure_witness :
  (ApiEvents.UpdateRepositoryAPIHandler Sample.cluster Sample.codec
     Sample.posix_rename_refused None (Some Sample.repository) ∅).1 =
    ApiEvents.raised []
      (PosixError "rename" Sample.EACCES
         "/var/lib/icinga2/api/repository/sha256:sat2.repo.tmp").
Proof.
  assert (Get Sample.repository "repository" = Dict {[ "h" := Arr [Str "ping"] ]}) as Hrepo
    by (vm_compute; reflexivity).
  destruct (UpdateRepository_rename_failure Sample.cluster Sample.codec
              Sample.posix_rename_refused None Sample.repository
              {[ "h" := Arr [Str "ping"] ]} ∅ Sample.EACCES Hrepo eq_refl)
    as [Hraised _].
  etrans; [exact Hraised | vm_compute; reflexivity].
Defined.

(** X25: the repository beacon and its reception fit together.  On an
    endpoint with a listener, a local endpoint and a zone,
    [RepositoryTimerHandler] relays one unlogged [event::UpdateRepository]
    message to its own zone, without an origin; its [repository] member
    lists every host with its services' short names; and a receiver that
    can open and rename its files stores the JSON encoding of exactly
    these params in the repository file named by the SHA256 of the
    sending endpoint's name. *)
Theorem repository_beacon_is_stored {O : Type}
    (K K' : ApiEvents.Cluster) (C : Codec O) (P : Platform)
    (endpoint zone : string) (parent_zone : option string)
    (listener : ApiEvents.ApiListener)
    (origin : option ApiEvents.MessageOrigin) (fs : Files) :
  ApiEvents.Listener K = Some listener ->
  exists params,
    ApiEventsOut.RepositoryTimerHandler K (Some endpoint) (Some zone) parent_zone =
      [ApiEvents.RelayMessage None (ApiEvents.ScopeZone zone)
         (ApiEvents.MkMessage "2.0" "event::UpdateRepository" (ApiEvents.RawParams params))
         false] /\
    (exists inventory,
       Get params "repository" = Dict inventory /\
       forall host services,
         ApiEvents.Hosts K !! host = Some services ->
         inventory !! host = Some (Arr (Str <$> services))) /\
    let file := ApiEvents.GetRepositoryDir K' ++ SHA256 C endpoint ++ ".repo" in
    (OpenFails P (file ++ ".tmp") = false ->
     RenameFault P (file ++ ".tmp") file = None ->
     (ApiEvents.UpdateRepositoryAPIHandler K' C P origin (Some params) fs).2 !! file
       = Some [JsonEncode C (Dict params)]).
Proof.
  intros Hl. unfold ApiEventsOut.RepositoryTimerHandler. rewrite Hl.
  eexists. split; [reflexivity |].
  assert (forall params : Dictionary,
            Get (Set_ (Set_ params "zone" (Str zone)) "repository"
                   (Dict (ApiEventsOut.inventory K))) "repository"
            = Dict (ApiEventsOut.inventory K)) as Hrepo
    by (intros; unfold Get, Set_; rewrite lookup_insert_eq; reflexivity).
  split.
  - exists (ApiEventsOut.inventory K). split; [apply Hrepo |].
    intros host services Hhost. unfold ApiEventsOut.inventory.
    rewrite lookup_fmap, Hhost. reflexivity.
  - cbv zeta. intros Hopen Hrename.
    set (file := ApiEvents.GetRepositoryDir K' ++ SHA256 C endpoint ++ ".repo") in *.
    match goal with
    | |- (ApiEvents.UpdateRepositoryAPIHandler _ _ _ _ (Some ?p) _).2 !! _ = _ =>
        assert (ApiEvents.repository_file K' C p = file) as Hfile
    end.
    { unfold ApiEvents.repository_file, file. do 2 f_equal.
      unfold Get, Set_. destruct parent_zone; simplify_map_eq; reflexivity. }
    rewrite <- Hfile in *.
    apply (UpdateRepository_written K' C P origin _ (ApiEventsOut.inventory K));
      [apply Hrepo | exact Hopen | exact Hrename].
Qed.

Lemma repository_beacon_is_stored_witness :
  exists params,
    ApiEventsOut.RepositoryTimerHandler Sample.cluster (Some "sat1") (Some "satellite")
      (Some "master") =
      [ApiEvents.RelayMessage None (ApiEvents.ScopeZone "satellite")
         (ApiEvents.MkMessage "2.0" "event::UpdateRepository" (ApiEvents.RawParams params))
         false] /\
    (ApiEvents.UpdateRepositoryAPIHandler Sample.cluster Sample.codec Sample.posix
       None (Some params) ∅).2
      !! "/var/lib/icinga2/api/repository/sha256:sat1.repo"
      = Some [JsonEncode Sample.codec (Dict params)].
Proof.
  destruct (repository_beacon_is_stored Sample.cluster Sample.cluster Sample.codec
              Sample.posix "sat1" "satellite" (Some "master")
              (ApiEvents.MkListener "api" true) None ∅ eq_refl)
    as (params & Hout & _ & Hstored).
  exists params. split; [exact Hout |].
  apply Hstored; reflexivity.
Defined.

(** ** Config writer *)

Section EscapeFacts.
Import ConfigWriter.

Lemma append_cons a s t : String a s ++ t = String a (s ++ t).
Proof. reflexivity. Qed.

Lemma append_nil t : "" ++ t = t.
Proof. reflexivity. Qed.

Lemma append_assoc (s1 s2 s3 : string) : (s1 ++ s2) ++ s3 = s1 ++ (s2 ++ s3).
Proof.
  induction s1 as [| a s1 IH]; [reflexivity |].
  rewrite !append_cons, IH. reflexivity.
Qed.

Lemma replace_all_app pattern format s1 s2 :
  replace_all pattern format (s1 ++ s2) =
  replace_all pattern format s1 ++ replace_all pattern format s2.
Proof.
  induction s1 as [| a s1 IH]; [reflexivity |].
  rewrite append_cons. simpl. rewrite IH.
  case_bool_decide; [rewrite append_assoc | rewrite append_cons]; reflexivity.
Qed.

Lemma EscapeIcingaString_app s1 s2 :
  EscapeIcingaString (s1 ++ s2) = EscapeIcingaString s1 ++ EscapeIcingaString s2.
Proof. unfold EscapeIcingaString. rewrite !replace_all_app. reflexivity. Qed.

Lemma special_dec c : {special c} + {~ special c}.
Proof. unfold special. exact (decide _). Qed.

Lemma escape_char_plain c : ~ special c -> escape_char c = String c EmptyString.
Proof.
  unfold special, escape_char. intros H.
  repeat (rewrite bool_decide_false by (intros ->; apply H; tauto)). reflexivity.
Qed.

Lemma replace_all_other pattern format c :
  c <> pattern -> replace_all pattern format (String c EmptyString) = String c EmptyString.
Proof. intros H. simpl. rewrite bool_decide_false by assumption. reflexivity. Qed.

Lemma EscapeIcingaString_char c :
  EscapeIcingaString (String c EmptyString) = escape_char c.
Proof.
  destruct (special_dec c) as [Hs | Hplain].
  - destruct Hs as [-> | [-> | [-> | [-> | [-> | [-> | ->]]]]]]; vm_compute; reflexivity.
  - rewrite escape_char_plain by assumption. unfold EscapeIcingaString.
    unfold special in Hplain.
    rewrite !replace_all_other by (intros ->; apply Hplain; tauto). reflexivity.
Qed.

Lemma EscapeIcingaString_each s : EscapeIcingaString s = escape_each s.
Proof.
  induction s as [| c s IH]; [reflexivity |].
  change (String c s) with (String c EmptyString ++ s).
  rewrite EscapeIcingaString_app, EscapeIcingaString_char, IH. reflexivity.
Qed.

Lemma unescape_escaped x t :
  unescape (escaped x ++ t) = String (unescape_char x) (unescape t).
Proof. reflexivity. Qed.

Lemma escape_char_special c :
  special c -> exists x, escape_char c = escaped x /\ unescape_char x = c.
Proof.
  intros [-> | [-> | [-> | [-> | [-> | [-> | ->]]]]]];
    eexists; (split; [vm_compute; reflexivity | vm_compute; reflexivity]).
Qed.

Lemma unescape_escape_each s : unescape (escape_each s) = s.
Proof.
  induction s as [| c s IH]; [reflexivity |]. simpl.
  destruct (special_dec c) as [Hs | Hplain].
  - destruct (escape_char_special c Hs) as (x & -> & Hx).
    rewrite unescape_escaped, Hx, IH. reflexivity.
  - rewrite escape_char_plain by assumption. rewrite append_cons, append_nil.
    simpl. rewrite bool_decide_false by (intros ->; apply Hplain; left; reflexivity).
    rewrite IH. reflexivity.
Qed.

Lemma In_append c s1 s2 :
  In c (String.list_ascii_of_string (s1 ++ s2)) <->
  In c (String.list_ascii_of_string s1) \/ In c (String.list_ascii_of_string s2).
Proof.
  induction s1 as [| a s1 IH]; simpl; [tauto |].
  change ((String a s1 ++ s2)%string) with (String a (s1 ++ s2)).
  simpl. rewrite IH. tauto.
Qed.

Lemma escape_char_no_control a c :
  In c (String.list_ascii_of_string (escape_char a)) -> ~ control c.
Proof.
  destruct (special_dec a) as [Hs | Hplain].
  - destruct Hs as [-> | [-> | [-> | [-> | [-> | [-> | ->]]]]]];
      vm_compute; intros [<- | [<- | []]] Hc; intuition discriminate.
  - rewrite escape_char_plain by assumption. simpl. intros [<- | []] Hc.
    apply Hplain. unfold special. unfold control in Hc. tauto.
Qed.

End EscapeFacts.

(** X26: the seven replacements of [EscapeIcingaString], done one after
    the other beginning with the backslash, amount to escaping each
    character of the input once: no backslash written by a later
    replacement is escaped again.  Hence escaping loses nothing: reading
    the escapes back gives the input, and two strings with the same
    escaped form, or the same emitted literal, are the same string. *)
Theorem EscapeIcingaString_reversible (s s' : string) :
  ConfigWriter.EscapeIcingaString s = ConfigWriter.escape_each s /\
  ConfigWriter.unescape (ConfigWriter.EscapeIcingaString s) = s /\
  (ConfigWriter.EscapeIcingaString s = ConfigWriter.EscapeIcingaString s' -> s = s') /\
  (ConfigWriter.EmitString s = ConfigWriter.EmitString s' -> s = s').
Proof.
  assert (forall x, ConfigWriter.unescape (ConfigWriter.EscapeIcingaString x) = x) as Hback
    by (intros x; rewrite EscapeIcingaString_each; apply unescape_escape_each).
  assert (ConfigWriter.EscapeIcingaString s = ConfigWriter.EscapeIcingaString s' -> s = s')
    as Hinj.
  { intros Heq. rewrite <- (Hback s), <- (Hback s'), Heq. reflexivity. }
  split; [apply EscapeIcingaString_each |]. split; [apply Hback |].
  split; [exact Hinj |].
  unfold ConfigWriter.EmitString. intros Heq. injection Heq as Heq.
  apply Hinj. revert Heq.
  generalize (ConfigWriter.EscapeIcingaString s) (ConfigWriter.EscapeIcingaString s').
  intros a. induction a as [| x a IH]; intros [| y b] Heq; try reflexivity.
  - rewrite append_nil, append_cons in Heq. injection Heq as _ Heq.
    destruct b; discriminate.
  - rewrite append_nil, append_cons in Heq. injection Heq as _ Heq.
    destruct a; discriminate.
  - rewrite !append_cons in Heq. injection Heq as -> Heq. rewrite (IH b Heq).
    reflexivity.
Qed.

Lemma EscapeIcingaString_reversible_witness :
  ConfigWriter.EscapeIcingaString (String "a"%char (String ConfigWriter.backslash
     (String ConfigWriter.newline (String ConfigWriter.quote EmptyString)))) =
    String "a"%char
      (String ConfigWriter.backslash (String ConfigWriter.backslash
         (String ConfigWriter.backslash (String "n"%char
            (String ConfigWriter.backslash (String ConfigWriter.quote EmptyString)))))).
Proof.
  set (s := String "a"%char (String ConfigWriter.backslash
               (String ConfigWriter.newline (String ConfigWriter.quote EmptyString)))).
  destruct (EscapeIcingaString_reversible s s) as (Heach & _ & Hinj & _).
  pose proof (Hinj eq_refl) as _.
  etrans; [exact Heach | vm_compute; reflexivity].
Defined.

(** X27: the output of [EscapeIcingaString] never contains a raw newline,
    tab, carriage return, backspace or form feed, and a string with none
    of the seven special characters is returned as it is. *)
Theorem EscapeIcingaString_no_control_characters (s : string) :
  (forall c,
     In c (String.list_ascii_of_string (ConfigWriter.EscapeIcingaString s)) ->
     c <> ConfigWriter.newline /\ c <> ConfigWriter.tab /\
     c <> ConfigWriter.carriage_return /\ c <> ConfigWriter.backspace /\
     c <> ConfigWriter.form_feed) /\
  ((forall c, In c (String.list_ascii_of_string s) ->
      c <> ConfigWriter.backslash /\ c <> ConfigWriter.quote /\
      c <> ConfigWriter.newline /\ c <> ConfigWriter.tab /\
      c <> ConfigWriter.carriage_return /\ c <> ConfigWriter.backspace /\
      c <> ConfigWriter.form_feed) ->
   ConfigWriter.EscapeIcingaString s = s).
Proof.
  rewrite EscapeIcingaString_each. split.
  - intros c Hin.
    assert (~ control c) as Hc.
    { induction s as [| a s IH]; simpl in Hin; [contradiction |].
      apply In_append in Hin as [Hin | Hin];
        [exact (escape_char_no_control a c Hin) | exact (IH Hin)]. }
    unfold control in Hc. tauto.
  - intros Hplain. induction s as [| a s IH]; [reflexivity |]. simpl.
    rewrite escape_char_plain.
    + rewrite append_cons, append_nil, IH; [reflexivity |].
      intros c Hin. apply Hplain. right. exact Hin.
    + specialize (Hplain a (or_introl eq_refl)). unfold special. tauto.
Qed.

Lemma EscapeIcingaString_no_control_characters_witness :
  ConfigWriter.EscapeIcingaString "ping4" = "ping4".
Proof.
  apply (proj2 (EscapeIcingaString_no_control_characters "ping4")).
  intros c Hin. simpl in Hin.
  repeat (destruct Hin as [<- | Hin]; [repeat split; discriminate |]). contradiction.
Defined.

(** ** Object configuration *)

(** X28: the attributes [CreateObjectConfig] writes never include the key
    [name]; for every other key the part of the composed name wins over
    the caller's attribute of the same key, and what neither has is not
    written. *)
Theorem CreateObjectConfig_attributes (attrs nameParts : DictionaryPtr) (key : string) :
  ConfigObjectUtility.allAttrs attrs nameParts !! "name" = None /\
  (key <> "name" ->
   ConfigObjectUtility.allAttrs attrs nameParts !! key =
     match default ∅ nameParts !! key with
     | Some part => Some part
     | None => default ∅ attrs !! key
     end).
Proof.
  unfold ConfigObjectUtility.allAttrs, ConfigObjectUtility.CopyTo, Remove.
  split; [apply lookup_delete_eq |].
  intros Hkey. rewrite lookup_delete_ne by congruence.
  destruct nameParts as [parts|], attrs as [a|]; simpl;
    rewrite ?lookup_union, ?lookup_empty;
    repeat (destruct (_ !! key)); reflexivity.
Qed.

Lemma CreateObjectConfig_attributes_witness :
  ConfigObjectUtility.allAttrs
    (Some {[ "host_name" := Str "other"; "check_command" := Str "ping4" ]})
    (Some {[ "host_name" := Str "h"; "name" := Str "ping" ]}) !! "host_name"
  = Some (Str "h").
Proof.
  etrans.
  - apply (proj2 (CreateObjectConfig_attributes
                    (Some {[ "host_name" := Str "other"; "check_command" := Str "ping4" ]})
                    (Some {[ "host_name" := Str "h"; "name" := Str "ping" ]}) "host_name")).
    discriminate.
  - vm_compute. reflexivity.
Defined.
